(** * rust.jit: the cache-and-build pipeline of [rust_jit.py]

    A shallow embedding of [src/rust_jit.py].  The module compiles a Rust
    source text with [cargo] inside a per-crate workspace under the system
    temporary directory, reuses the workspace when the cached source is
    unchanged, loads the produced dynamic library and wraps one exported
    function.

    Conventions of the embedding.
    - A Python [str] is represented by its UTF-8 encoding, held in a Rocq
      [string] (a sequence of 8-bit characters); [bytes] values are Rocq
      strings as well.  [str.encode("utf-8")] is therefore the identity on
      representations, and [bytes.decode] is a function on byte strings
      producing well-formed UTF-8.
    - A path is the list of its components below the root; [p / c] appends
      one component.  The workspace directory is [rustjit_<crate>] as one
      component: this is what pathlib's join gives for a crate name that
      holds no separator ([path_parts] and [plain_name] below say what it
      gives otherwise), and such names are the ones the embedding speaks of.
    - The file system, the search path, the toolchain subprocess and the
      dynamic loader are outside the program: the file system is a finite
      map from paths to nodes threaded through the state, the others are
      fields of an environment record over which every theorem quantifies.
      A map stands for a file system in which the parent of every entry is
      a directory; operations look at the parent, and at the ancestors for
      the error they report, where the operating system does.  There are
      no symbolic links and no permissions.
    - [tempfile.gettempdir()] is taken after its first call in the process,
      when it only hands back the directory it has found: the probing of
      candidate directories that the first call does is not part of the
      embedding.
    - Every effect on the outside is logged in the state, at the moment it
      is attempted, so that what a request did can be counted. *)

From Stdlib Require Import NArith ZArith Ascii String List Lia Bool.
From stdpp Require Import base option list strings gmap fin_maps.

Local Open Scope string_scope.

(* ===================================================================== *)
(** ** Byte strings *)
(* ===================================================================== *)

Definition byte_of (c : ascii) : N := N_of_ascii c.

Fixpoint bytes_of (s : string) : list N :=
  match s with
  | EmptyString => []
  | String c r => byte_of c :: bytes_of r
  end.

(** Python's [s[:n]] on a string. *)
Fixpoint str_take (n : nat) (s : string) : string :=
  match n, s with
  | S k, String c r => String c (str_take k r)
  | _, _ => EmptyString
  end.

(** Python's [s.startswith(p)]. *)
Fixpoint startswith (p s : string) : bool :=
  match p, s with
  | EmptyString, _ => true
  | String a p', String b s' => if Ascii.eqb a b then startswith p' s' else false
  | String _ _, EmptyString => false
  end.

(** Python's [s.endswith(p)]. *)
Fixpoint endswith (p s : string) : bool :=
  String.eqb p s ||
  match s with
  | EmptyString => false
  | String _ r => endswith p r
  end.

Fixpoint str_all (P : ascii -> bool) (s : string) : bool :=
  match s with
  | EmptyString => true
  | String c r => P c && str_all P r
  end.

(** [sub] occurs in [s] as a contiguous run of characters. *)
Fixpoint str_contains (sub s : string) : bool :=
  startswith sub s ||
  match s with
  | EmptyString => false
  | String _ r => str_contains sub r
  end.

(* ===================================================================== *)
(** ** SHA-256 ([hashlib.sha256]) over 32-bit words held in [N] *)
(* ===================================================================== *)

Module SHA256.
Local Open Scope N_scope.

Definition mask32 : N := 0xFFFFFFFF.
Definition w32 (x : N) : N := N.land x mask32.
Definition add32 (a b : N) : N := w32 (a + b).
Definition rotr (n x : N) : N :=
  N.lor (N.shiftr x n) (w32 (N.shiftl x (32 - n))).
Definition shr (n x : N) : N := N.shiftr x n.
Definition not32 (x : N) : N := N.lxor x mask32.

Definition Ch (x y z : N) : N := N.lxor (N.land x y) (N.land (not32 x) z).
Definition Maj (x y z : N) : N :=
  N.lxor (N.lxor (N.land x y) (N.land x z)) (N.land y z).
Definition Sigma0 (x : N) : N := N.lxor (N.lxor (rotr 2 x) (rotr 13 x)) (rotr 22 x).
Definition Sigma1 (x : N) : N := N.lxor (N.lxor (rotr 6 x) (rotr 11 x)) (rotr 25 x).
Definition sigma0 (x : N) : N := N.lxor (N.lxor (rotr 7 x) (rotr 18 x)) (shr 3 x).
Definition sigma1 (x : N) : N := N.lxor (N.lxor (rotr 17 x) (rotr 19 x)) (shr 10 x).

(** The round constants and the initial hash value are, as the standard
    defines them, the first 32 bits of the fractional parts of the cube
    roots of the first 64 primes and of the square roots of the first 8. *)
Definition is_prime (n : N) : bool :=
  (1 <? n) &&
  forallb (fun d => negb (n mod d =? 0)) (List.map N.of_nat (seq 2 (N.to_nat n - 2))).

Definition primes (count : nat) : list N :=
  firstn count (List.filter is_prime (List.map N.of_nat (seq 2 320))).

(** The cube root of [n], rounded down, found bit by bit from bit [k - 1]. *)
Fixpoint cube_root (k : nat) (n r : N) : N :=
  match k with
  | O => r
  | S j =>
      let r' := N.lor r (N.shiftl 1 (N.of_nat j)) in
      cube_root j n (if r' * r' * r' <=? n then r' else r)
  end.

Definition frac_cbrt (p : N) : N := w32 (cube_root 36 (N.shiftl p 96) 0).
Definition frac_sqrt (p : N) : N := w32 (N.sqrt (N.shiftl p 64)).

Definition K : list N := Eval vm_compute in List.map frac_cbrt (primes 64).

(** The eight working words. *)
Record hstate := HState { ha : N; hb : N; hc : N; hd : N; he : N; hf : N; hg : N; hh : N }.

Definition H0 : hstate :=
  Eval vm_compute in
    match List.map frac_sqrt (primes 8) with
    | [a; b; c; d; e; f; g; h] => HState a b c d e f g h
    | _ => HState 0 0 0 0 0 0 0 0
    end.

(** Big-endian bytes of the low [8 * n] bits of [x]. *)
Fixpoint be_bytes (n : nat) (x : N) : list N :=
  match n with
  | O => []
  | S k => N.land (N.shiftr x (8 * N.of_nat k)) 0xFF :: be_bytes k x
  end.

(** Message padding: a [0x80] byte, zeros up to 56 modulo 64, then the bit
    length on eight bytes. *)
Definition pad (msg : list N) : list N :=
  let len := N.of_nat (length msg) in
  let zeros := N.to_nat ((64 + 55 - (len mod 64)) mod 64) in
  msg ++ [0x80] ++ repeat 0 zeros ++ be_bytes 8 (8 * len).

Fixpoint words (fuel : nat) (l : list N) : list N :=
  match fuel, l with
  | S f, b0 :: b1 :: b2 :: b3 :: r =>
      (N.shiftl b0 24 + N.shiftl b1 16 + N.shiftl b2 8 + b3) :: words f r
  | _, _ => []
  end.

Fixpoint blocks (fuel : nat) (l : list N) : list (list N) :=
  match fuel, l with
  | S f, _ :: _ => firstn 16 l :: blocks f (skipn 16 l)
  | _, _ => []
  end.

(** Message schedule, most recent word first. *)
Fixpoint schedule (n : nat) (w : list N) : list N :=
  match n with
  | O => w
  | S k =>
      let x := add32 (add32 (sigma1 (nth 1 w 0)) (nth 6 w 0))
                     (add32 (sigma0 (nth 14 w 0)) (nth 15 w 0)) in
      schedule k (x :: w)
  end.

Definition round (s : hstate) (kw : N * N) : hstate :=
  let '(k, w) := kw in
  let t1 := add32 (add32 (add32 (hh s) (Sigma1 (he s))) (add32 (Ch (he s) (hf s) (hg s)) k)) w in
  let t2 := add32 (Sigma0 (ha s)) (Maj (ha s) (hb s) (hc s)) in
  HState (add32 t1 t2) (ha s) (hb s) (hc s) (add32 (hd s) t1) (he s) (hf s) (hg s).

Definition compress (h : hstate) (block : list N) : hstate :=
  let w := rev (schedule 48 (rev block)) in
  let s := fold_left round (combine K w) h in
  HState (add32 (ha h) (ha s)) (add32 (hb h) (hb s)) (add32 (hc h) (hc s))
         (add32 (hd h) (hd s)) (add32 (he h) (he s)) (add32 (hf h) (hf s))
         (add32 (hg h) (hg s)) (add32 (hh h) (hh s)).

Definition digest (msg : list N) : hstate :=
  let p := pad msg in
  let ws := words (length p) p in
  fold_left compress (blocks (length ws) ws) H0.

Definition hex_digit (n : N) : ascii :=
  if n <? 10 then ascii_of_N (48 + n) else ascii_of_N (87 + n).

(** The [n] low nibbles of [x], most significant first, in lower case. *)
Fixpoint hex (n : nat) (x : N) (k : string) : string :=
  match n with
  | O => k
  | S m => String (hex_digit (N.land (N.shiftr x (4 * N.of_nat m)) 0xF)) (hex m x k)
  end.

Definition hexdigest (h : hstate) : string :=
  hex 8 (ha h) (hex 8 (hb h) (hex 8 (hc h) (hex 8 (hd h)
  (hex 8 (he h) (hex 8 (hf h) (hex 8 (hg h) (hex 8 (hh h) ""))))))).

End SHA256.

(** [_hash_src]: the first twelve characters of the hexadecimal SHA-256
    digest of the UTF-8 encoding of the source. *)
Definition _hash_src (src : string) : string :=
  str_take 12 (SHA256.hexdigest (SHA256.digest (bytes_of src))).


(* ===================================================================== *)
(** ** Text codecs: UTF-8 and newline translation *)
(* ===================================================================== *)

Module Utf8.
Local Open Scope N_scope.

Definition is_cont (b : N) : bool := (0x80 <=? b) && (b <? 0xC0).

(** Second byte of a three-byte sequence: a continuation byte that neither
    makes the sequence overlong (lead [0xE0]) nor encodes a surrogate
    (lead [0xED]). *)
Definition second_of_3 (b1 b2 : N) : bool :=
  is_cont b2 && negb (if b2 <? 0xA0 then b1 =? 0xE0 else b1 =? 0xED).

(** Second byte of a four-byte sequence: not overlong (lead [0xF0]) and
    not above U+10FFFF (lead [0xF4]). *)
Definition second_of_4 (b1 b2 : N) : bool :=
  is_cont b2 && negb (if b2 <? 0x90 then b1 =? 0xF0 else b1 =? 0xF4).

(** Strict decoding succeeds: the bytes are well-formed UTF-8. *)
Fixpoint valid (s : string) : bool :=
  match s with
  | EmptyString => true
  | String c1 r1 =>
      let b1 := byte_of c1 in
      if b1 <? 0x80 then valid r1
      else if b1 <? 0xC2 then false
      else if b1 <? 0xE0 then
        match r1 with
        | String c2 r2 => is_cont (byte_of c2) && valid r2
        | EmptyString => false
        end
      else if b1 <? 0xF0 then
        match r1 with
        | String c2 (String c3 r3) =>
            second_of_3 b1 (byte_of c2) && is_cont (byte_of c3) && valid r3
        | _ => false
        end
      else if b1 <? 0xF5 then
        match r1 with
        | String c2 (String c3 (String c4 r4)) =>
            second_of_4 b1 (byte_of c2) && is_cont (byte_of c3)
            && is_cont (byte_of c4) && valid r4
        | _ => false
        end
      else false
  end.

(** [bytes.decode(errors='ignore')]: well-formed sequences are kept, and each
    ill-formed run (an invalid start byte, a lead byte with the
    continuation bytes accepted so far, or a sequence cut by the end of
    the data) is dropped, decoding resuming right after it. *)
Fixpoint decode_ignore (s : string) : string :=
  match s with
  | EmptyString => EmptyString
  | String c1 r1 =>
      let b1 := byte_of c1 in
      if b1 <? 0x80 then String c1 (decode_ignore r1)
      else if b1 <? 0xC2 then decode_ignore r1
      else if b1 <? 0xE0 then
        match r1 with
        | EmptyString => EmptyString
        | String c2 r2 =>
            if is_cont (byte_of c2) then String c1 (String c2 (decode_ignore r2))
            else decode_ignore r1
        end
      else if b1 <? 0xF0 then
        match r1 with
        | EmptyString => EmptyString
        | String c2 r2 =>
            if second_of_3 b1 (byte_of c2) then
              match r2 with
              | EmptyString => EmptyString
              | String c3 r3 =>
                  if is_cont (byte_of c3)
                  then String c1 (String c2 (String c3 (decode_ignore r3)))
                  else decode_ignore r2
              end
            else decode_ignore r1
        end
      else if b1 <? 0xF5 then
        match r1 with
        | EmptyString => EmptyString
        | String c2 r2 =>
            if second_of_4 b1 (byte_of c2) then
              match r2 with
              | EmptyString => EmptyString
              | String c3 r3 =>
                  if is_cont (byte_of c3) then
                    match r3 with
                    | EmptyString => EmptyString
                    | String c4 r4 =>
                        if is_cont (byte_of c4)
                        then String c1 (String c2 (String c3 (String c4 (decode_ignore r4))))
                        else decode_ignore r3
                    end
                  else decode_ignore r2
              end
            else decode_ignore r1
        end
      else decode_ignore r1
  end.

End Utf8.

Definition LF : ascii := ascii_of_N 10.
Definition CR : ascii := ascii_of_N 13.
Definition DQ : ascii := ascii_of_N 34.
Definition BSL : ascii := ascii_of_N 92.
Definition nl : string := String LF "".
Definition dq : string := String DQ "".

Definition is_LF (c : ascii) : bool := N.eqb (byte_of c) 10.
Definition is_CR (c : ascii) : bool := N.eqb (byte_of c) 13.

(** Reading in text mode with universal newlines: a carriage return, alone
    or followed by a line feed, is read as one line feed. *)
Fixpoint universal_newlines (s : string) : string :=
  match s with
  | EmptyString => EmptyString
  | String c r =>
      if is_CR c then
        String LF
          match r with
          | String c' r' => if is_LF c' then universal_newlines r' else universal_newlines r
          | EmptyString => EmptyString
          end
      else String c (universal_newlines r)
  end.

(** Writing in text mode: each line feed is written as [linesep]. *)
Fixpoint translate_newlines (linesep : string) (s : string) : string :=
  match s with
  | EmptyString => EmptyString
  | String c r =>
      if is_LF c then linesep +:+ translate_newlines linesep r
      else String c (translate_newlines linesep r)
  end.

(** [os.linesep]: carriage return and line feed on Windows, else a line feed. *)
Definition linesep (platform : string) : string :=
  if String.eqb platform "win32" then String CR (String LF "") else nl.

(** What [write_text(text, encoding='utf-8')] puts on disk. *)
Definition to_disk (platform text : string) : string :=
  translate_newlines (linesep platform) text.

(* ===================================================================== *)
(** ** Python values, exceptions and results *)
(* ===================================================================== *)

Inductive ctype := c_int | c_long | c_double | c_char_p | c_void_p.

Inductive pyval :=
| PyNone
| PyInt (z : Z)
| PyFloat (repr : string)
| PyBytes (b : string)
| PyStr (s : string).

Abbreviation Path := (list string) (only parsing).

Inductive exn :=
| RuntimeError (msg : string)
| TypeError (msg : string)
| OSError (msg : string)
| FileNotFoundError (p : Path)
| FileExistsError (p : Path)
| NotADirectoryError (p : Path)
| IsADirectoryError (p : Path)
| UnicodeDecodeError
| ArgumentError (msg : string).

Inductive result (A : Type) :=
| Ok (a : A)
| Raise (e : exn).
Arguments Ok {A} a.
Arguments Raise {A} e.

(* ===================================================================== *)
(** ** The file system *)
(* ===================================================================== *)

Inductive node :=
| File (data : string)
| Dir.

Abbreviation FS := (gmap (list string) node) (only parsing).

Definition pjoin (p : Path) (c : string) : Path := p ++ [c].
Notation "p // c" := (pjoin p c) (at level 40, left associativity).

Definition parent (p : Path) : Path := removelast p.

(** A separator of path components: the slash, and the backslash on
    Windows. *)
Definition is_sep (platform : string) (ch : ascii) : bool :=
  Ascii.eqb ch "/" || (String.eqb platform "win32" && Ascii.eqb ch BSL).

(** The pieces of a string between separators. *)
Fixpoint split_sep (platform : string) (s : string) : list string :=
  match s with
  | EmptyString => [EmptyString]
  | String ch r =>
      if is_sep platform ch then EmptyString :: split_sep platform r
      else match split_sep platform r with
           | piece :: rest => String ch piece :: rest
           | [] => [String ch EmptyString]
           end
  end.

(** The components pathlib takes from a relative string: the pieces
    between separators, the empty ones and the dots left out. *)
Definition path_parts (platform : string) (s : string) : list string :=
  List.filter (fun piece => negb (String.eqb piece "" || String.eqb piece "."))
              (split_sep platform s).

(** [p / s] as pathlib joins a path and a relative string. *)
Definition pathlib_join (platform : string) (p : Path) (s : string) : Path :=
  p ++ path_parts platform s.

(** A name that holds no separator. *)
Definition plain_name (platform : string) (name : string) : bool :=
  str_all (fun ch => negb (is_sep platform ch)) name.

(** The root always is a directory. *)
Definition stat (fs : FS) (p : Path) : option node :=
  match p with
  | [] => Some Dir
  | _ => fs !! p
  end.

(** [Path.exists()] *)
Definition path_exists (fs : FS) (p : Path) : bool :=
  match stat fs p with Some _ => true | None => false end.

Definition is_dir (fs : FS) (p : Path) : bool :=
  match stat fs p with Some Dir => true | _ => false end.

Definition is_file (fs : FS) (p : Path) : bool :=
  match stat fs p with Some (File _) => true | _ => false end.

(** A file sits on the way to [p], at one of its proper prefixes. *)
Definition under_file (fs : FS) (p : Path) : bool :=
  existsb (fun n => is_file fs (firstn n p)) (seq 0 (length p)).

(** The error for a path that cannot be reached: [ENOTDIR] when a file
    sits on the way, [ENOENT] when the way merely stops. *)
Definition missing (fs : FS) (p : Path) : exn :=
  if under_file fs p then NotADirectoryError p else FileNotFoundError p.

(** [Path.read_text(encoding='utf-8')] *)
Definition read_text (fs : FS) (p : Path) : result string :=
  match stat fs p with
  | None => Raise (missing fs p)
  | Some Dir => Raise (IsADirectoryError p)
  | Some (File data) =>
      if Utf8.valid data then Ok (universal_newlines data) else Raise UnicodeDecodeError
  end.

(** [Path.write_text(text, encoding='utf-8')] *)
Definition write_text (platform : string) (fs : FS) (p : Path) (text : string) : result FS :=
  match stat fs p with
  | Some Dir => Raise (IsADirectoryError p)
  | _ =>
      match stat fs (parent p) with
      | Some Dir => Ok (<[p := File (to_disk platform text)]> fs)
      | Some (File _) => Raise (NotADirectoryError p)
      | None => Raise (missing fs p)
      end
  end.

(** [os.mkdir(p)] *)
Definition os_mkdir (fs : FS) (p : Path) : result FS :=
  match stat fs p with
  | Some _ => Raise (FileExistsError p)
  | None =>
      match stat fs (parent p) with
      | Some Dir => Ok (<[p := Dir]> fs)
      | Some (File _) => Raise (NotADirectoryError p)
      | None => Raise (missing fs p)
      end
  end.

(** [Path.mkdir(parents=..., exist_ok=...)] as pathlib writes it:
    [os.mkdir] is tried first; when the parent is missing and [parents] is
    set, the parent is made (with its own parents) and the directory is
    made again without [parents]; any other failure is forgiven when
    [exist_ok] is set and the path is a directory.  The fuel bounds the
    climb to the root and [length p] is enough of it. *)
Fixpoint path_mkdir (fuel : nat) (parents exist_ok : bool) (fs : FS) (p : Path) : result FS :=
  match os_mkdir fs p with
  | Ok fs' => Ok fs'
  | Raise (FileNotFoundError q) =>
      if negb parents || bool_decide (parent p = p) then Raise (FileNotFoundError q)
      else
        match fuel with
        | O => Raise (FileNotFoundError q)
        | S f =>
            match path_mkdir f true true fs (parent p) with
            | Ok fs1 => path_mkdir f false exist_ok fs1 p
            | Raise e => Raise e
            end
        end
  | Raise e => if negb exist_ok || negb (is_dir fs p) then Raise e else Ok fs
  end.

(** [p.mkdir(parents=True, exist_ok=True)] *)
Definition mkdir_parents (fs : FS) (p : Path) : result FS :=
  path_mkdir (length p) true true fs p.

(** [p.mkdir(exist_ok=True)] *)
Definition mkdir_exist_ok (fs : FS) (p : Path) : result FS :=
  path_mkdir (length p) false true fs p.

(** [p] lies strictly below [dir]. *)
Fixpoint strictly_below (dir p : Path) : bool :=
  match dir, p with
  | [], _ :: _ => true
  | d :: dir', c :: p' => if String.eqb d c then strictly_below dir' p' else false
  | _, _ => false
  end.

Definition basename (p : Path) : string := List.last p "".

(** The entries of a scan put in the order in which the scan meets them:
    [before p q] says that [p] is met before [q].  Whatever [before] is,
    the result holds the same entries as the argument. *)
Fixpoint scan_insert (before : Path -> Path -> bool) (p : Path) (l : list Path) : list Path :=
  match l with
  | [] => [p]
  | q :: r => if before p q then p :: q :: r else q :: scan_insert before p r
  end.

Definition scan_sort (before : Path -> Path -> bool) (l : list Path) : list Path :=
  fold_right (scan_insert before) [] l.

(** [Path.rglob(pattern)]: every entry strictly below [dir] whose name
    matches the pattern, in the order in which the walk of the tree meets
    them.  That order is the file system's and the walk's, not the
    program's: it is given by [before]. *)
Definition rglob (before : Path -> Path -> bool) (fnmatch : string -> string -> bool)
    (fs : FS) (dir : Path) (pat : string) : list Path :=
  scan_sort before
    (filter (fun p => Is_true (strictly_below dir p && fnmatch pat (basename p)))
            (fst <$> map_to_list fs)).

(* ===================================================================== *)
(** ** The world outside the program *)
(* ===================================================================== *)

(** What the program does to the outside, in the order it does it. *)
Inductive event :=
| EvWhich (name : string)
| EvMkdir (p : Path)
| EvWrite (p : Path) (text : string)
| EvRun (cmd : list string) (cwd : Path)
| EvLoad (lib_path : string)
| EvCall (lib_path : string) (fn : string) (args : list pyval).

Record state := State { st_fs : gmap (list string) node; st_log : list event }.

(** A child process either cannot be started, or runs to completion with a
    return code, its captured output and the file system it leaves. *)
Inductive proc_outcome :=
| Completed (returncode : Z) (out err : string) (fs' : gmap (list string) node)
| NotSpawned (e : exn).

Record Env := {
  (** [sys.platform] *)
  platform : string;
  (** [tempfile.gettempdir()], once the process has found its directory *)
  tmpdir : list string;
  (** [shutil.which] *)
  which : string -> option (list string);
  (** [str(path)] of a resolved path *)
  fspath : list string -> string;
  (** how a directory scan matches a name against a pattern: pattern, name *)
  fnmatch : string -> string -> bool;
  (** the order in which a recursive scan of a file system meets two of
      its entries *)
  scan_before : gmap (list string) node -> list string -> list string -> bool;
  (** the child process started by [subprocess.run]: command, working directory *)
  spawn : list string -> list string -> gmap (list string) node -> proc_outcome;
  (** the dynamic loader behind [ctypes.CDLL]: a handle when the load succeeds *)
  dlopen : gmap (list string) node -> string -> option nat;
  (** the text of the [OSError] of a load that fails: the path and the
      loader's reason *)
  dlerror : gmap (list string) node -> string -> string;
  (** the attributes a [CDLL] object has of its own ([_handle], [_name],
      [__class__], ...), found before the library is asked: [Some true]
      for a value that takes the attribute assignments of lines 106-107
      (a class), [Some false] for one that does not (a number, a string, a
      bound method) *)
  instance_attr : string -> option bool;
  (** symbol lookup in a loaded library *)
  dlsym : nat -> string -> bool;
  (** the call of what [getattr(cdll, name)] gave, the foreign function
      when it is one: handle, name, argument types, result type, arguments *)
  ccall : nat -> string -> list ctype -> ctype -> list pyval -> result pyval
}.

(** What can be raised: the exceptions that leave the program, and those
    for which it has a handler. *)
Inductive signal :=
| Exn (e : exn)
| CalledProcessError (returncode : Z) (stdout stderr : string)
| AttributeError (name : string).

Inductive outcome (A : Type) :=
| Return (a : A)
| Throw (s : signal).
Arguments Return {A} a.
Arguments Throw {A} s.

(** Computations: state passing with exceptions; the state reached when an
    exception is raised is kept. *)
Definition M (A : Type) : Type := state -> outcome A * state.

Definition ret {A} (a : A) : M A := fun st => (Return a, st).
Definition raise {A} (e : exn) : M A := fun st => (Throw (Exn e), st).
Definition throw {A} (s : signal) : M A := fun st => (Throw s, st).
Definition bind {A B} (c : M A) (k : A -> M B) : M B :=
  fun st => match c st with
            | (Return a, st') => k a st'
            | (Throw s, st') => (Throw s, st')
            end.

(** [try: c except ...: h]: the handler says which exceptions it catches. *)
Definition try_except {A} (c : M A) (h : signal -> option (M A)) : M A :=
  fun st => match c st with
            | (Return a, st') => (Return a, st')
            | (Throw s, st') =>
                match h s with
                | Some k => k st'
                | None => (Throw s, st')
                end
            end.

Notation "'do' x <- c ; k" := (bind c (fun x => k))
  (at level 10, x name, c at level 100, k at level 200).
Notation "'exec' c ; k" := (bind c (fun _ => k))
  (at level 10, c at level 100, k at level 200).

Definition emit (e : event) : M unit :=
  fun st => (Return tt, State (st_fs st) (st_log st ++ [e])).

Definition of_result {A} (r : result A) : M A :=
  match r with Ok a => ret a | Raise e => raise e end.

(** An operation that changes the file system or fails. *)
Definition update_fs (f : gmap (list string) node -> result (gmap (list string) node)) : M unit :=
  fun st => match f (st_fs st) with
            | Ok fs' => (Return tt, State fs' (st_log st))
            | Raise e => (Throw (Exn e), st)
            end.

Definition query_fs {A} (f : gmap (list string) node -> A) : M A :=
  fun st => (Return (f (st_fs st)), st).

Definition m_exists (p : Path) : M bool := query_fs (fun fs => path_exists fs p).

Definition m_read_text (p : Path) : M string :=
  do r <- query_fs (fun fs => read_text fs p); of_result r.

Definition m_mkdir_parents (p : Path) : M unit :=
  exec emit (EvMkdir p); update_fs (fun fs => mkdir_parents fs p).

Definition m_mkdir_exist_ok (p : Path) : M unit :=
  exec emit (EvMkdir p); update_fs (fun fs => mkdir_exist_ok fs p).

Definition m_write_text (env : Env) (p : Path) (text : string) : M unit :=
  exec emit (EvWrite p text); update_fs (fun fs => write_text (platform env) fs p text).

(** [shutil.which(name)] *)
Definition shutil_which (env : Env) (name : string) : M (option (list string)) :=
  exec emit (EvWhich name); ret (which env name).

(** [subprocess.run(cmd, cwd=cwd, check=True, stdout=PIPE, stderr=PIPE)] *)
Definition subprocess_run (env : Env) (cmd : list string) (cwd : Path) : M unit :=
  exec emit (EvRun cmd cwd);
  fun st => match spawn env cmd cwd (st_fs st) with
            | NotSpawned e => (Throw (Exn e), st)
            | Completed rc out err fs' =>
                let st' := State fs' (st_log st) in
                if Z.eqb rc 0 then (Return tt, st')
                else (Throw (CalledProcessError rc out err), st')
            end.

(** [ctypes.CDLL(lib_path)] *)
Definition CDLL (env : Env) (lib_path : string) : M nat :=
  exec emit (EvLoad lib_path);
  do h <- query_fs (fun fs => dlopen env fs lib_path);
  match h with
  | Some handle => ret handle
  | None => do msg <- query_fs (fun fs => dlerror env fs lib_path); raise (OSError msg)
  end.

(** [name.startswith('__') and name.endswith('__')] *)
Definition is_dunder (name : string) : bool :=
  startswith "__" name && endswith "__" name.

(** [getattr(cdll, name)]: an attribute of the object itself is found
    first; otherwise [CDLL.__getattr__] refuses the names that start and
    end with two underscores and asks the library for any other.  The
    result says whether the value takes an attribute assignment. *)
Definition cdll_getattr (env : Env) (handle : nat) (name : string) : M bool :=
  match instance_attr env name with
  | Some settable => ret settable
  | None =>
      if is_dunder name then throw (AttributeError name)
      else if dlsym env handle name then ret true
      else throw (AttributeError name)
  end.

(** [cfn.argtypes = argtypes; cfn.restype = restype] (lines 106-107) *)
Definition set_signature (settable : bool) : M unit :=
  if settable then ret tt else throw (AttributeError "argtypes").

(* ===================================================================== *)
(** ** The program: [rust_jit.py] *)
(* ===================================================================== *)

(** [_platform_libname] (lines 12-19) *)
Definition _platform_libname (sys_platform basename : string) : string :=
  if startswith "linux" sys_platform then "lib" +:+ basename +:+ ".so"
  else if String.eqb sys_platform "darwin" then "lib" +:+ basename +:+ ".dylib"
  else if String.eqb sys_platform "win32" then basename +:+ ".dll"
  else "lib" +:+ basename +:+ ".so".

Definition cargo_missing_msg : string :=
  "cargo (Rust toolchain) not found in PATH. Please install Rust and cargo.".

(** [_ensure_cargo_exists] (lines 21-23) *)
Definition _ensure_cargo_exists (env : Env) : M unit :=
  do w <- shutil_which env "cargo";
  match w with
  | None => raise (RuntimeError cargo_missing_msg)
  | Some _ => ret tt
  end.

(** [cargo_extra_args or []] (line 37) *)
Definition extra_args_or_empty (a : option (list string)) : list string :=
  match a with
  | Some (x :: l) => x :: l
  | _ => []
  end.

(** [crate_name or f"rustjit_{src_hash}"] (line 40): an empty name counts
    as no name. *)
Definition crate_name_or_default (crate_name : option string) (src_hash : string) : string :=
  match crate_name with
  | Some (String c r) => String c r
  | _ => "rustjit_" +:+ src_hash
  end.

(** The variables of [rust_jit] that [decorator] closes over. *)
Record closure := Closure {
  rust_src : string;
  fn_name : string;
  argtypes : list ctype;
  restype : ctype;
  crate_name : string;
  cargo_extra_args : list string
}.

(** [rust_jit] (lines 28-40 and 120): the decorator factory. *)
Definition rust_jit (env : Env) (rust_src fn_name : string) (argtypes : list ctype)
    (restype : ctype) (crate_name : option string) (cargo_extra_args : option (list string))
  : M closure :=
  let cargo_extra_args := extra_args_or_empty cargo_extra_args in
  exec _ensure_cargo_exists env;
  let src_hash := _hash_src rust_src in
  let crate_name := crate_name_or_default crate_name src_hash in
  ret (Closure rust_src fn_name argtypes restype crate_name cargo_extra_args).

(** The placeholder Python function that is decorated. *)
Record pyfunction := PyFunction { py_name : string; py_doc : option string }.

(** [wrapper] with the attributes set on it and the variables it closes over. *)
Record bound := Bound {
  w_name : string;
  w_doc : option string;
  w_source_lib : string;
  w_rust_fn : string;
  w_handle : nat;
  w_argtypes : list ctype;
  w_restype : ctype
}.

(** Paths of the workspace (lines 43, 50, 51, 57-59).  The workspace
    directory is written as one component below the temporary directory;
    for a crate name without separator this is pathlib's join
    ([tempdir_pathlib_join] below). *)
Definition tempdir (env : Env) (c : closure) : Path :=
  tmpdir env // ("rustjit_" +:+ crate_name c).
Definition src_file (env : Env) (c : closure) : Path := tempdir env c // "src" // "lib.rs".
Definition cargo_toml (env : Env) (c : closure) : Path := tempdir env c // "Cargo.toml".
Definition target_dir (env : Env) (c : closure) : Path := tempdir env c // "target" // "release".
Definition libname (env : Env) (c : closure) : string :=
  _platform_libname (platform env) (crate_name c).
Definition candidate (env : Env) (c : closure) : Path := target_dir env c // libname env c.

(** The manifest written to [Cargo.toml] (lines 67-75). *)
Definition manifest (crate : string) : string :=
  "[package]" +:+ nl +:+
  "name = " +:+ dq +:+ crate +:+ dq +:+ nl +:+
  "version = " +:+ dq +:+ "0.1.0" +:+ dq +:+ nl +:+
  "edition = " +:+ dq +:+ "2021" +:+ dq +:+ nl +:+
  nl +:+
  "[lib]" +:+ nl +:+
  "name = " +:+ dq +:+ crate +:+ dq +:+ nl +:+
  "crate-type = [" +:+ dq +:+ "cdylib" +:+ dq +:+ "]" +:+ nl.

Definition build_cmd : list string := ["cargo"; "build"; "--release"].

(** [e.stdout.decode(errors='ignore') if e.stdout else ""] (lines 83-84) *)
Definition captured (b : string) : string :=
  match b with
  | EmptyString => ""
  | _ => Utf8.decode_ignore b
  end.

Definition compile_failed_msg (out err : string) : string :=
  "Rust compilation failed." +:+ nl +:+ "STDOUT:" +:+ nl +:+ out +:+ nl +:+
  "STDERR:" +:+ nl +:+ err.

Definition lib_not_found_msg (libname searched : string) : string :=
  "Cannot find the library: " +:+ libname +:+ " (searched under " +:+ searched +:+ ")".

Definition fn_not_found_msg (fn_name : string) : string :=
  "Cannot find the function: '" +:+ fn_name +:+
  "'. Ensure using #[no_mangle] when define the function pub extern " +:+
  dq +:+ "C" +:+ dq +:+ " fn " +:+ fn_name +:+ "(...).".

(** Lines 53-62: the cache probe.  [Some lib_path] stands for
    [rebuild = False], [None] for [rebuild = True]. *)
Definition cache_probe (env : Env) (c : closure) : M (option string) :=
  do present <- m_exists (src_file env c);
  if present then
    do existing <- m_read_text (src_file env c);
    if String.eqb existing (rust_src c) then
      do built <- m_exists (candidate env c);
      if built then ret (Some (fspath env (candidate env c)))
      else ret None
    else ret None
  else ret None.

(** Lines 66-77: the manifest and the source are written. *)
Definition write_workspace (env : Env) (c : closure) : M unit :=
  exec m_mkdir_exist_ok (tempdir env c // "src");
  exec m_write_text env (cargo_toml env c) (manifest (crate_name c));
  m_write_text env (src_file env c) (rust_src c).

(** Lines 79-85: the build. *)
Definition cargo_build (env : Env) (c : closure) : M unit :=
  try_except (subprocess_run env build_cmd (tempdir env c))
    (fun s => match s with
              | CalledProcessError _ stdout stderr =>
                  let out := captured stdout in
                  let err := captured stderr in
                  Some (raise (RuntimeError (compile_failed_msg out err)))
              | _ => None
              end).

(** Lines 87-96: the library is looked up after a build. *)
Definition find_artifact (env : Env) (c : closure) : M string :=
  do built <- m_exists (candidate env c);
  if negb built then
    do found <- query_fs (fun fs => rglob (scan_before env fs) (fnmatch env) fs
                                          (target_dir env c) (libname env c));
    match found with
    | first :: _ => ret (fspath env first)
    | [] => raise (RuntimeError
                     (lib_not_found_msg (libname env c) (fspath env (target_dir env c))))
    end
  else ret (fspath env (candidate env c)).

(** Lines 64-96: the body of [if rebuild:]. *)
Definition rebuild (env : Env) (c : closure) : M string :=
  exec write_workspace env c;
  exec cargo_build env c;
  find_artifact env c.

(** Lines 99-107: the library is loaded and the function looked up. *)
Definition load_function (env : Env) (c : closure) (lib_path : string) : M nat :=
  do cdll <- CDLL env lib_path;
  do cfn <- try_except (cdll_getattr env cdll (fn_name c))
    (fun s => match s with
              | AttributeError _ => Some (raise (RuntimeError (fn_not_found_msg (fn_name c))))
              | _ => None
              end);
  exec set_signature cfn;
  ret cdll.

(** Lines 47-48: the workspace directory is made when it is missing. *)
Definition ensure_tempdir (env : Env) (c : closure) : M unit :=
  do present <- m_exists (tempdir env c);
  if negb present then m_mkdir_parents (tempdir env c) else ret tt.

(** Lines 98-118: the function is bound and the wrapper returned. *)
Definition finish (env : Env) (c : closure) (pyfunc : pyfunction) (lib_path : string) : M bound :=
  do cdll <- load_function env c lib_path;
  ret (Bound (py_name pyfunc) (py_doc pyfunc) lib_path (fn_name c) cdll
             (argtypes c) (restype c)).

(** [decorator] (lines 42-118) *)
Definition decorator (env : Env) (c : closure) (pyfunc : pyfunction) : M bound :=
  exec ensure_tempdir env c;
  do hit <- cache_probe env c;
  do lib_path <- match hit with
                 | Some lib_path => ret lib_path
                 | None => rebuild env c
                 end;
  finish env c pyfunc lib_path.

(** [wrapper] (lines 109-112): [kwargs] is the dictionary of keyword
    arguments, in call order. *)
Definition wrapper (env : Env) (w : bound) (args : list pyval) (kwargs : list (string * pyval))
  : M pyval :=
  match kwargs with
  | _ :: _ => raise (TypeError "Unsupported")
  | [] =>
      exec emit (EvCall (w_source_lib w) (w_rust_fn w) args);
      of_result (ccall env (w_handle w) (w_rust_fn w) (w_argtypes w) (w_restype w) args)
  end.

(** [rust.jit(...)(pyfunc)]: one bind request. *)
Definition jit (env : Env) (rust_src fn_name : string) (argtypes : list ctype)
    (restype : ctype) (crate_name : option string) (cargo_extra_args : option (list string))
    (pyfunc : pyfunction) : M bound :=
  do c <- rust_jit env rust_src fn_name argtypes restype crate_name cargo_extra_args;
  decorator env c pyfunc.

(** Number of toolchain invocations in a log. *)
Definition is_run (e : event) : bool :=
  match e with EvRun _ _ => true | _ => false end.

Definition is_workspace_write (e : event) : bool :=
  match e with EvMkdir _ | EvWrite _ _ => true | _ => false end.

Fixpoint count_events (P : event -> bool) (l : list event) : nat :=
  match l with
  | [] => 0
  | e :: r => (if P e then 1 else 0) + count_events P r
  end.

Definition cargo_runs (st : state) : nat := count_events is_run (st_log st).

(* ===================================================================== *)
(** ** Vocabulary of the specification *)
(* ===================================================================== *)

(** FRESH: the cached source reads back as the requested text and the
    library is at the fixed release path. *)
Definition fresh (env : Env) (c : closure) (fs : gmap (list string) node) : Prop :=
  read_text fs (src_file env c) = Ok (rust_src c) /\
  path_exists fs (candidate env c) = true.

(** Every event a computation adds to the log satisfies [P]. *)
Definition emits {A} (P : event -> Prop) (c : M A) : Prop :=
  forall st, exists l, st_log (snd (c st)) = (st_log st ++ l)%list /\ Forall P l.

(** The events [decorator] may add to the log. *)
Definition decorator_event (env : Env) (c : closure) (e : event) : Prop :=
  match e with
  | EvWhich _ => False
  | EvMkdir p => p = tempdir env c \/ p = tempdir env c // "src"
  | EvWrite p text =>
      (p = cargo_toml env c /\ text = manifest (crate_name c)) \/
      (p = src_file env c /\ text = rust_src c)
  | EvRun cmd cwd => cmd = build_cmd /\ cwd = tempdir env c
  | EvLoad _ => True
  | EvCall _ _ _ => False
  end.

Definition is_which (e : event) : bool :=
  match e with EvWhich _ => true | _ => false end.

Definition is_call (e : event) : bool :=
  match e with EvCall _ _ _ => true | _ => false end.

(** The state after running a computation twice in succession, whatever
    the first run returned or raised. *)
Definition twice {A} (c : M A) (st : state) : state := snd (c (snd (c st))).

Definition is_hex_digit (c : ascii) : bool :=
  let b := byte_of c in
  (N.leb 48 b && N.leb b 57) || (N.leb 97 b && N.leb b 102).

(** The 128 texts of one ASCII character. *)
Definition one_char_texts : list string :=
  List.map (fun n => String (ascii_of_nat n) EmptyString) (List.seq 0 128).

(** The source text holds no carriage return. *)
Definition no_cr (s : string) : bool := str_all (fun c => negb (is_CR c)) s.

Definition absent_or_dir (o : option node) : bool :=
  match o with Some (File _) => false | _ => true end.

Definition absent_or_file (o : option node) : bool :=
  match o with Some Dir => false | _ => true end.

(** Nothing stands in the way of writing the workspace: the temporary
    directory is there, no file sits where a directory goes and no
    directory where a file goes. *)
Definition workspace_sound (env : Env) (c : closure) (fs : gmap (list string) node) : bool :=
  is_dir fs (tmpdir env)
  && absent_or_dir (stat fs (tempdir env c))
  && absent_or_dir (stat fs (tempdir env c // "src"))
  && absent_or_file (stat fs (cargo_toml env c))
  && absent_or_file (stat fs (src_file env c)).

(** STALE: no cached source, a cached source that reads back as another
    text, or no library at the fixed release path. *)
Definition stale (env : Env) (c : closure) (fs : gmap (list string) node) : Prop :=
  stat fs (src_file env c) = None \/
  (exists t, read_text fs (src_file env c) = Ok t /\ t <> rust_src c) \/
  (read_text fs (src_file env c) = Ok (rust_src c) /\
   path_exists fs (candidate env c) = false).

(** The file system once the workspace of [c] has been written. *)
Definition written (env : Env) (c : closure) (fs : gmap (list string) node)
  : gmap (list string) node :=
  <[src_file env c := File (to_disk (platform env) (rust_src c))]>
    (<[cargo_toml env c := File (to_disk (platform env) (manifest (crate_name c)))]>
       (<[tempdir env c // "src" := Dir]> (<[tempdir env c := Dir]> fs))).

(** The compilation unit of [c] is the one on disk: its workspace holds
    its manifest and its source. *)
Definition unit_on_disk (env : Env) (c : closure) (fs : gmap (list string) node) : Prop :=
  is_dir fs (tmpdir env) = true /\
  stat fs (tempdir env c) = Some Dir /\
  stat fs (tempdir env c // "src") = Some Dir /\
  stat fs (cargo_toml env c) =
    Some (File (to_disk (platform env) (manifest (crate_name c)))) /\
  stat fs (src_file env c) = Some (File (to_disk (platform env) (rust_src c))).

(** Lines 79-118, from the build on. *)
Definition build_and_bind (env : Env) (c : closure) (pyfunc : pyfunction) : M bound :=
  exec cargo_build env c;
  do lib_path <- find_artifact env c;
  finish env c pyfunc lib_path.

(** The outcome of the cache probe as a function of the file system. *)
Definition probe_outcome (env : Env) (c : closure) (fs : gmap (list string) node)
  : outcome (option string) :=
  match stat fs (src_file env c) with
  | None => Return None
  | Some _ =>
      match read_text fs (src_file env c) with
      | Raise e => Throw (Exn e)
      | Ok existing =>
          if String.eqb existing (rust_src c) && path_exists fs (candidate env c)
          then Return (Some (fspath env (candidate env c)))
          else Return None
      end
  end.

(** The events of the write phase, the making of the workspace directory
    included when it was missing. *)
Definition write_events (env : Env) (c : closure) (fs : gmap (list string) node) : list event :=
  (if path_exists fs (tempdir env c) then [] else [EvMkdir (tempdir env c)]) ++
  [EvMkdir (tempdir env c // "src");
   EvWrite (cargo_toml env c) (manifest (crate_name c));
   EvWrite (src_file env c) (rust_src c)].

Definition run_event (env : Env) (c : closure) : event :=
  EvRun build_cmd (tempdir env c).

(** The closure a request builds when [cargo] is found. *)
Definition request_closure (src fn : string) (at_ : list ctype) (rt : ctype)
    (cn : option string) (extra : option (list string)) : closure :=
  Closure src fn at_ rt (crate_name_or_default cn (_hash_src src)) (extra_args_or_empty extra).

(* ===================================================================== *)
(** ** Sample worlds *)
(* ===================================================================== *)

Module Sample.

(** POSIX rendering of a path. *)
Definition posix (p : list string) : string :=
  fold_right (fun c r => "/" +:+ c +:+ r) "" p.

(** The release directory of a workspace, made if need be. *)
Definition with_release (cwd : list string) (fs : gmap (list string) node)
  : gmap (list string) node :=
  <[cwd // "target" // "release" := Dir]> (<[cwd // "target" := Dir]> fs).

(** A toolchain that builds and leaves the library at the release path. *)
Definition cargo_good (cmd cwd : list string) (fs : gmap (list string) node) : proc_outcome :=
  Completed 0 "" "   Compiling demo v0.1.0"
    (<[cwd // "target" // "release" // "libdemo.so" := File "ELF"]> (with_release cwd fs)).

(** A toolchain that builds and leaves the library one level down. *)
Definition cargo_nested (cmd cwd : list string) (fs : gmap (list string) node) : proc_outcome :=
  Completed 0 "" "   Compiling demo v0.1.0"
    (<[cwd // "target" // "release" // "deps" // "libdemo.so" := File "ELF"]>
       (<[cwd // "target" // "release" // "deps" := Dir]> (with_release cwd fs))).

(** A toolchain that builds and leaves the library twice below the release
    path: in [deps], and in a directory of [deps]. *)
Definition cargo_deep (cmd cwd : list string) (fs : gmap (list string) node) : proc_outcome :=
  Completed 0 "" "   Compiling demo v0.1.0"
    (<[cwd // "target" // "release" // "deps" // "z" // "libdemo.so" := File "ELF-z"]>
       (<[cwd // "target" // "release" // "deps" // "z" := Dir]>
          (<[cwd // "target" // "release" // "deps" // "libdemo.so" := File "ELF"]>
             (<[cwd // "target" // "release" // "deps" := Dir]> (with_release cwd fs))))).

(** A toolchain that reports success and leaves no library. *)
Definition cargo_silent (cmd cwd : list string) (fs : gmap (list string) node) : proc_outcome :=
  Completed 0 "" "" (with_release cwd fs).

(** Bytes that are Latin-1 text, not UTF-8: the last one is [0xE9]. *)
Definition latin1_error : string := "error: caf" +:+ String (ascii_of_N 233) "".

(** A toolchain that fails, with Latin-1 text on its standard error. *)
Definition cargo_failing (cmd cwd : list string) (fs : gmap (list string) node) : proc_outcome :=
  Completed 101 "" latin1_error fs.

(** A Python integer as a C [int]: the low 32 bits, signed. *)
Definition as_i32 (z : Z) : Z := ((z + 2147483648) mod 4294967296 - 2147483648)%Z.

(** The native function of the samples adds two 32-bit integers, as a
    release build does: the sum wraps around. *)
Definition add_native (handle : nat) (fn : string) (at_ : list ctype) (rt : ctype)
    (args : list pyval) : result pyval :=
  match args with
  | [PyInt a; PyInt b] => Ok (PyInt (as_i32 (as_i32 a + as_i32 b)))
  | _ => Raise (ArgumentError "wrong arguments")
  end.

(** Lexicographic order on paths, a path before the paths below it. *)
Fixpoint path_leb (p q : list string) : bool :=
  match p, q with
  | [], _ => true
  | _ :: _, [] => false
  | a :: p', b :: q' => if String.eqb a b then path_leb p' q' else String.leb a b
  end.

(** A walk that lists every directory by name: the entries of a directory
    are met before those of its subdirectories. *)
Definition walk_order (fs : gmap (list string) node) (p q : list string) : bool :=
  if bool_decide (parent p = parent q) then String.leb (basename p) (basename q)
  else path_leb (parent p) (parent q).

(** Some attributes of a [CDLL] object: the classes among them take an
    attribute assignment, the others do not. *)
Definition cdll_attributes (name : string) : option bool :=
  if existsb (String.eqb name) ["__class__"; "_FuncPtr"; "_func_restype_"] then Some true
  else if existsb (String.eqb name)
            ["_handle"; "_name"; "_func_flags_"; "__dict__"; "__doc__"; "__module__";
             "__init__"; "__repr__"; "__getattr__"; "__getitem__"; "__weakref__"]
       then Some false
  else None.

Definition world (plat : string) (cargo : option (list string))
    (sp : list string -> list string -> gmap (list string) node -> proc_outcome) : Env :=
  {| platform := plat;
     tmpdir := ["tmp"];
     which := fun name => if String.eqb name "cargo" then cargo else None;
     fspath := posix;
     fnmatch := String.eqb;
     scan_before := walk_order;
     spawn := sp;
     dlopen := fun fs lib_path => Some 1%nat;
     dlerror := fun fs lib_path =>
                  lib_path +:+ ": cannot open shared object file: No such file or directory";
     instance_attr := cdll_attributes;
     dlsym := fun handle name => String.eqb name "add_i32";
     ccall := add_native |}.

Definition cargo_bin : option (list string) := Some ["usr"; "bin"; "cargo"].

Definition linux : Env := world "linux" cargo_bin cargo_good.
Definition linux_nested : Env := world "linux" cargo_bin cargo_nested.
Definition linux_silent : Env := world "linux" cargo_bin cargo_silent.
Definition linux_failing : Env := world "linux" cargo_bin cargo_failing.
Definition linux_bare : Env := world "linux" None cargo_good.
Definition linux_deep : Env := world "linux" cargo_bin cargo_deep.

(** Only the temporary directory exists. *)
Definition cold : state := State (<[ ["tmp"] := Dir ]> ∅) [].

Definition add_src : string :=
  "#[no_mangle] pub extern " +:+ dq +:+ "C" +:+ dq +:+
  " fn add_i32(a: i32, b: i32) -> i32 { a + b }" +:+ nl.

Definition sub_src : string :=
  "#[no_mangle] pub extern " +:+ dq +:+ "C" +:+ dq +:+
  " fn add_i32(a: i32, b: i32) -> i32 { a - b }" +:+ nl.

(** The same two lines, ended by carriage return and line feed, and by
    line feed alone. *)
Definition crlf_src : string :=
  "// v1" +:+ String CR nl +:+ "pub fn f() {}" +:+ String CR nl.
Definition lf_src : string :=
  "// v1" +:+ nl +:+ "pub fn f() {}" +:+ nl.

(** The addition, its two lines ended by carriage return and line feed. *)
Definition add_src_crlf : string :=
  "#[no_mangle]" +:+ String CR nl +:+
  "pub extern " +:+ dq +:+ "C" +:+ dq +:+
  " fn add_i32(a: i32, b: i32) -> i32 { a + b }" +:+ String CR nl.

Definition add_py : pyfunction := PyFunction "add_i32" None.

(** One bind request for the crate [demo]. *)
Definition request (env : Env) (src : string) : M bound :=
  jit env src "add_i32" [c_int; c_int] c_int (Some "demo") None add_py.

Definition demo (src : string) : closure :=
  request_closure src "add_i32" [c_int; c_int] c_int (Some "demo") None.

End Sample.

(* ===================================================================== *)
(** ** More vocabulary *)
(* ===================================================================== *)

(** A computation starts the toolchain at most [n] times. *)
Definition adds_runs {A} (n : nat) (c : M A) : Prop :=
  forall st, (cargo_runs (snd (c st)) <= cargo_runs st + n)%nat.

(** A lower-case letter, a digit or an underscore. *)
Definition is_name_char (c : ascii) : bool :=
  let b := byte_of c in
  (N.leb 97 b && N.leb b 122) || (N.leb 48 b && N.leb b 57) || N.eqb b 95.

(** Paths at a directory or below it. *)
Definition at_or_below (dir q : list string) : Prop :=
  q = dir \/ strictly_below dir q = true.

(** A computation leaves the paths that satisfy [Q] as they were, whether
    it returns or raises. *)
Definition keeps {A} (Q : list string -> Prop) (c : M A) : Prop :=
  forall st q, Q q -> stat (st_fs (snd (c st))) q = stat (st_fs st) q.

(** The paths a request writes in its workspace. *)
Definition workspace_paths (env : Env) (c : closure) : list (list string) :=
  [tempdir env c; tempdir env c // "src"; cargo_toml env c; src_file env c].

(** Python's [s[n:]] on a string. *)
Fixpoint str_drop (n : nat) (s : string) : string :=
  match n, s with
  | S k, String _ r => str_drop k r
  | _, _ => s
  end.

(* ===================================================================== *)
(** ** The requests of [test.py] *)
(* ===================================================================== *)

Module TestPy.

(** The source of the first case (lines 6-11). *)
Definition add_src : string :=
  "" +:+ nl +:+
  "        #[no_mangle]" +:+ nl +:+
  "        pub extern " +:+ dq +:+ "C" +:+ dq +:+ " fn add_i32(a: i32, b: i32) -> i32 {" +:+ nl +:+
  "            a + b" +:+ nl +:+
  "        }" +:+ nl +:+
  "    ".

(** [RUST_SRC], the source of the second case (lines 22-40). *)
Definition RUST_SRC : string :=
  "" +:+ nl +:+
  "use std::ffi::CString;" +:+ nl +:+
  "use std::os::raw::c_char;" +:+ nl +:+
  "" +:+ nl +:+
  "#[no_mangle]" +:+ nl +:+
  "pub extern " +:+ dq +:+ "C" +:+ dq +:+ " fn greet(name: *const c_char) -> *mut c_char {" +:+ nl +:+
  "    unsafe {" +:+ nl +:+
  "        if name.is_null() {" +:+ nl +:+
  "            let s = CString::new(" +:+ dq +:+ "Hello, stranger!" +:+ dq +:+ ").unwrap();" +:+ nl +:+
  "            return s.into_raw();" +:+ nl +:+
  "        } else {" +:+ nl +:+
  "            let cstr = std::ffi::CStr::from_ptr(name);" +:+ nl +:+
  "            let rust_str = cstr.to_string_lossy();" +:+ nl +:+
  "            let s = CString::new(format!(" +:+ dq +:+ "Hello, {}!" +:+ dq +:+ ", rust_str)).unwrap();" +:+ nl +:+
  "            return s.into_raw();" +:+ nl +:+
  "        }" +:+ nl +:+
  "    }" +:+ nl +:+
  "}" +:+ nl +:+
  "".

(** The crate a workspace directory [rustjit_<crate>] is for. *)
Definition crate_of (cwd : list string) : string := str_drop 8 (basename cwd).

Definition release_lib (cwd : list string) : list string :=
  cwd // "target" // "release" // ("lib" +:+ crate_of cwd +:+ ".so").

(** A toolchain that builds the crate of the workspace it is started in. *)
Definition cargo_builds (cmd cwd : list string) (fs : gmap (list string) node) : proc_outcome :=
  Completed 0 "" "" (<[release_lib cwd := File "ELF"]> (Sample.with_release cwd fs)).

(** A toolchain that builds the first source of [test.py] and rejects every
    other text, touching nothing when it fails. *)
Definition cargo_picky (cmd cwd : list string) (fs : gmap (list string) node) : proc_outcome :=
  match fs !! (cwd // "src" // "lib.rs") with
  | Some (File data) =>
      if String.eqb data add_src then cargo_builds cmd cwd fs
      else Completed 101 "" "error: could not compile" fs
  | _ => Completed 101 "" "error: no source" fs
  end.

Definition linux : Env := Sample.world "linux" Sample.cargo_bin cargo_builds.
Definition linux_picky : Env := Sample.world "linux" Sample.cargo_bin cargo_picky.
Definition windows : Env := Sample.world "win32" Sample.cargo_bin cargo_builds.

(** The two requests of [test.py]: no crate name, no extra arguments. *)
Definition add_request : closure :=
  request_closure add_src "add_i32" [c_int; c_int] c_int None None.

Definition add_i32 : pyfunction := PyFunction "add_i32" None.

End TestPy.

(* ===================================================================== *)
(** * Properties *)
(* ===================================================================== *)

(** ** Running computations *)

Lemma bind_Return {A B} (c : M A) (k : A -> M B) st a st' :
  c st = (Return a, st') -> bind c k st = k a st'.
Proof. intros H. unfold bind. now rewrite H. Qed.

Lemma bind_Throw {A B} (c : M A) (k : A -> M B) st s st' :
  c st = (Throw s, st') -> bind c k st = (Throw s, st').
Proof. intros H. unfold bind. now rewrite H. Qed.

(** ** Strings *)

Lemma str_take_length n s :
  (n <= String.length s)%nat -> String.length (str_take n s) = n.
Proof.
  revert s. induction n as [|n IH]; intros [|c r] Hle; simpl in *; try lia.
  f_equal. apply IH. lia.
Qed.

Lemma str_all_take P n s : str_all P s = true -> str_all P (str_take n s) = true.
Proof.
  revert s. induction n as [|n IH]; intros [|c r]; simpl; auto.
  intros H. apply andb_true_iff in H as [Hc Hr].
  apply andb_true_iff. split; auto.
Qed.

Lemma startswith_refl_app s t : startswith s (s +:+ t) = true.
Proof. induction s as [|c s IH]; simpl; auto. now rewrite Ascii.eqb_refl. Qed.

Lemma str_contains_app_r sub a b :
  str_contains sub b = true -> str_contains sub (a +:+ b) = true.
Proof.
  intros H. induction a as [|c a IH]; simpl; auto.
  rewrite IH. apply orb_true_r.
Qed.

Lemma str_contains_here sub t : str_contains sub (sub +:+ t) = true.
Proof.
  destruct sub as [|c r]; destruct t; simpl; auto;
    rewrite ?Ascii.eqb_refl, ?startswith_refl_app; auto.
Qed.


(** ** C8: platform library names *)

(** C8. For every logical name [n] the library name is fixed by the host
    platform: [lib<n>.so] when [sys.platform] starts with [linux],
    [lib<n>.dylib] on [darwin], [<n>.dll] on [win32], and [lib<n>.so] again
    on every other platform, without failing. *)
Theorem platform_libname_per_os (p n : string) :
  (startswith "linux" p = true -> _platform_libname p n = "lib" +:+ n +:+ ".so") /\
  (p = "darwin" -> _platform_libname p n = "lib" +:+ n +:+ ".dylib") /\
  (p = "win32" -> _platform_libname p n = n +:+ ".dll") /\
  (startswith "linux" p = false -> p <> "darwin" -> p <> "win32" ->
   _platform_libname p n = "lib" +:+ n +:+ ".so").
Proof.
  unfold _platform_libname. split; [|split; [|split]].
  - intros ->. reflexivity.
  - intros ->. reflexivity.
  - intros ->. reflexivity.
  - intros -> Hd Hw.
    apply String.eqb_neq in Hd, Hw. now rewrite Hd, Hw.
Qed.

Lemma platform_libname_per_os_witness :
  _platform_libname "linux2" "foo" = "libfoo.so" /\
  _platform_libname "darwin" "foo" = "libfoo.dylib" /\
  _platform_libname "win32" "foo" = "foo.dll" /\
  _platform_libname "freebsd13" "foo" = "libfoo.so".
Proof.
  split; [|split; [|split]].
  - apply (proj1 (platform_libname_per_os "linux2" "foo")). reflexivity.
  - apply (proj1 (proj2 (platform_libname_per_os "darwin" "foo"))). reflexivity.
  - apply (proj1 (proj2 (proj2 (platform_libname_per_os "win32" "foo")))). reflexivity.
  - apply (proj2 (proj2 (proj2 (platform_libname_per_os "freebsd13" "foo"))));
      [reflexivity | discriminate | discriminate].
Defined.

(** ** C7: the fingerprint *)

Lemma hex_length n x k :
  String.length (SHA256.hex n x k) = (n + String.length k)%nat.
Proof. induction n as [|n IH]; simpl; auto. Qed.

Lemma hexdigest_length h : String.length (SHA256.hexdigest h) = 64%nat.
Proof. unfold SHA256.hexdigest. now rewrite !hex_length. Qed.

Lemma nibble_lt x k : (N.land (N.shiftr x k) 15 < 16)%N.
Proof.
  change 15%N with (N.ones 4). rewrite N.land_ones.
  apply N.mod_lt. discriminate.
Qed.

Lemma hex_digit_is_hex n : (n < 16)%N -> is_hex_digit (SHA256.hex_digit n) = true.
Proof.
  intros Hn.
  assert (Hcases : In n [0; 1; 2; 3; 4; 5; 6; 7; 8; 9; 10; 11; 12; 13; 14; 15]%N).
  { simpl. lia. }
  simpl in Hcases.
  repeat (destruct Hcases as [<- | Hcases]; [reflexivity|]).
  contradiction.
Qed.

Lemma hex_all_hex n x k :
  str_all is_hex_digit k = true -> str_all is_hex_digit (SHA256.hex n x k) = true.
Proof.
  intros Hk. induction n as [|n IH]; simpl; auto.
  rewrite IH, andb_true_r. apply hex_digit_is_hex, nibble_lt.
Qed.

Lemma hexdigest_all_hex h : str_all is_hex_digit (SHA256.hexdigest h) = true.
Proof. unfold SHA256.hexdigest. repeat apply hex_all_hex. reflexivity. Qed.

(** The digests of the empty message, of a short one and of one that needs
    two blocks are those of [hashlib]. *)
Example sha256_empty :
  SHA256.hexdigest (SHA256.digest (bytes_of "")) =
    "e3b0c44298fc1c149afbf4c8996fb92427ae41e4649b934ca495991b7852b855".
Proof. vm_compute. reflexivity. Qed.

Example sha256_abc :
  SHA256.hexdigest (SHA256.digest (bytes_of "abc")) =
    "ba7816bf8f01cfea414140de5dae2223b00361a396177a9cb410ff61f20015ad".
Proof. vm_compute. reflexivity. Qed.

Example sha256_two_blocks :
  SHA256.hexdigest
    (SHA256.digest (bytes_of "abcdbcdecdefdefgefghfghighijhijkijkljklmklmnlmnomnopnopq")) =
    "248d6a61d20638b8e5c026930c3e6039a33ce45964ff2167f6ecedd419db06c1".
Proof. vm_compute. reflexivity. Qed.

Example hash_src_abc : _hash_src "abc" = "ba7816bf8f01".
Proof. vm_compute. reflexivity. Qed.

Lemma rust_jit_returns env src fn at_ rt cn extra st c st' :
  rust_jit env src fn at_ rt cn extra st = (Return c, st') ->
  c = Closure src fn at_ rt (crate_name_or_default cn (_hash_src src))
              (extra_args_or_empty extra) /\
  st' = State (st_fs st) (st_log st ++ [EvWhich "cargo"]) /\
  which env "cargo" <> None.
Proof.
  unfold rust_jit, _ensure_cargo_exists, shutil_which, bind, emit, ret, raise. simpl.
  destruct (which env "cargo"); intros H; inversion H; subst. repeat split. discriminate.
Qed.

(** C7 (as amended).  The fingerprint of a source text is the first twelve
    characters of the hexadecimal SHA-256 digest of the text's UTF-8
    encoding.  It is a function of the text alone (equal texts have equal
    fingerprints) and always has exactly twelve characters, all of them
    lower-case hexadecimal digits.  It is a digest of the content: the
    digests of the empty message, of [abc] and of the two-block message of
    the standard are the published ones; the fingerprints of the two
    sources of [test.py], of the two sample sources, which differ in one
    character, and of a text with a two-byte character are the ones
    [hashlib] gives, no two of them equal; and the 128 texts of one ASCII
    character have 128 different fingerprints.  The crate name the factory
    settles on is the caller's name whenever the caller gives a non-empty
    one; without one, be it none or the empty string, which Python's [or]
    treats alike, it is [rustjit_] followed by the fingerprint. *)
Theorem hash_src_fingerprint (src : string) :
  (forall src', src' = src -> _hash_src src' = _hash_src src) /\
  String.length (_hash_src src) = 12%nat /\
  str_all is_hex_digit (_hash_src src) = true /\
  _hash_src src = str_take 12 (SHA256.hexdigest (SHA256.digest (bytes_of src))) /\
  (SHA256.hexdigest (SHA256.digest (bytes_of "")) =
     "e3b0c44298fc1c149afbf4c8996fb92427ae41e4649b934ca495991b7852b855" /\
   SHA256.hexdigest (SHA256.digest (bytes_of "abc")) =
     "ba7816bf8f01cfea414140de5dae2223b00361a396177a9cb410ff61f20015ad" /\
   SHA256.hexdigest
     (SHA256.digest (bytes_of "abcdbcdecdefdefgefghfghighijhijkijkljklmklmnlmnomnopnopq")) =
     "248d6a61d20638b8e5c026930c3e6039a33ce45964ff2167f6ecedd419db06c1") /\
  (_hash_src TestPy.add_src = "f36ae338fd1d" /\
   _hash_src TestPy.RUST_SRC = "be36a941a983" /\
   _hash_src Sample.add_src = "af713cdb3793" /\
   _hash_src Sample.sub_src = "2928c7a71aa7" /\
   _hash_src ("caf" +:+ String (ascii_of_N 195) (String (ascii_of_N 169) "")) =
     "850f7dc43910") /\
  NoDup (List.map _hash_src one_char_texts) /\
  (forall env fn at_ rt cn extra st c st',
      rust_jit env src fn at_ rt cn extra st = (Return c, st') ->
      crate_name c = match cn with
                     | Some (String a r) => String a r
                     | Some EmptyString | None => "rustjit_" +:+ _hash_src src
                     end).
Proof.
  split; [|split; [|split; [|split; [|split; [|split; [|split]]]]]].
  - now intros ? ->.
  - unfold _hash_src. apply str_take_length. rewrite hexdigest_length. lia.
  - unfold _hash_src. apply str_all_take, hexdigest_all_hex.
  - reflexivity.
  - split; [|split]; vm_compute; reflexivity.
  - split; [|split; [|split; [|split]]]; vm_compute; reflexivity.
  - apply (bool_decide_eq_true_1 (NoDup (List.map _hash_src one_char_texts))).
    vm_compute. reflexivity.
  - intros env fn at_ rt cn extra st c st' H.
    apply rust_jit_returns in H as (-> & _ & _). simpl.
    destruct cn as [[|a r]|]; reflexivity.
Qed.

(** C7 as stated fails: the caller gives a logical name, the empty string,
    and the crate is named after the fingerprint all the same. *)
Lemma empty_name_counterexample :
  fst (rust_jit Sample.linux Sample.add_src "add_i32" [c_int; c_int] c_int (Some "") None
         Sample.cold) =
    Return (Closure Sample.add_src "add_i32" [c_int; c_int] c_int "rustjit_af713cdb3793" []).
Proof. vm_compute. reflexivity. Qed.

(** ** C9: keyword arguments *)

(** C9. Whatever the bound function and the positional arguments, a call
    that passes at least one keyword argument raises [TypeError] at once:
    the state is left as it was, so the native function is not called and
    nothing is logged; a call with positional arguments only goes to the
    native function. *)
Theorem wrapper_rejects_keywords (env : Env) (w : bound) (args : list pyval)
    (kwargs : list (string * pyval)) (st : state) :
  (kwargs <> [] ->
   wrapper env w args kwargs st = (Throw (Exn (TypeError "Unsupported")), st)) /\
  (kwargs = [] ->
   snd (wrapper env w args kwargs st) =
     State (st_fs st) (st_log st ++ [EvCall (w_source_lib w) (w_rust_fn w) args]) /\
   fst (wrapper env w args kwargs st) =
     match ccall env (w_handle w) (w_rust_fn w) (w_argtypes w) (w_restype w) args with
     | Ok v => Return v
     | Raise e => Throw (Exn e)
     end).
Proof.
  split.
  - destruct kwargs; [congruence|]. reflexivity.
  - intros ->. unfold wrapper, bind, emit, of_result. simpl.
    destruct (ccall env _ _ _ _ args); simpl; auto.
Qed.

(** ** What a computation adds to the log *)

Section Emits.
Context {A B : Type} (P : event -> Prop).

Lemma emits_ret (a : A) : emits P (ret a).
Proof. intros st. exists []. simpl. now rewrite app_nil_r. Qed.

Lemma emits_throw (s : signal) : emits P (@throw A s).
Proof. intros st. exists []. simpl. now rewrite app_nil_r. Qed.

Lemma emits_raise (e : exn) : emits P (@raise A e).
Proof. apply emits_throw. Qed.

Lemma emits_bind (c : M A) (k : A -> M B) :
  emits P c -> (forall a, emits P (k a)) -> emits P (bind c k).
Proof.
  intros Hc Hk st. unfold bind.
  destruct (Hc st) as (l1 & E1 & F1).
  destruct (c st) as [[a|s] st1]; simpl in *.
  - destruct (Hk a st1) as (l2 & E2 & F2).
    exists (l1 ++ l2)%list. rewrite E2, E1, app_assoc.
    split; auto. apply Forall_app; auto.
  - exists l1. auto.
Qed.

Lemma emits_try (c : M A) (h : signal -> option (M A)) :
  emits P c -> (forall s k, h s = Some k -> emits P k) -> emits P (try_except c h).
Proof.
  intros Hc Hh st. unfold try_except.
  destruct (Hc st) as (l1 & E1 & F1).
  destruct (c st) as [[a|s] st1]; simpl in *.
  - exists l1. auto.
  - destruct (h s) as [k|] eqn:Ek.
    + destruct (Hh s k Ek st1) as (l2 & E2 & F2).
      exists (l1 ++ l2)%list. rewrite E2, E1, app_assoc.
      split; auto. apply Forall_app; auto.
    + exists l1. auto.
Qed.

Lemma emits_query (f : gmap (list string) node -> A) : emits P (query_fs f).
Proof. intros st. exists []. simpl. now rewrite app_nil_r. Qed.

Lemma emits_of_result (r : result A) : emits P (of_result r).
Proof. destruct r; [apply emits_ret | apply emits_raise]. Qed.
End Emits.

Lemma emits_emit P e : P e -> emits P (emit e).
Proof. intros H st. exists [e]. simpl. auto. Qed.

Lemma emits_update_fs P f : emits P (update_fs f).
Proof.
  intros st. exists []. unfold update_fs.
  destruct (f (st_fs st)); simpl; now rewrite app_nil_r.
Qed.

Lemma emits_subprocess_run P env cmd cwd :
  P (EvRun cmd cwd) -> emits P (subprocess_run env cmd cwd).
Proof.
  intros H. unfold subprocess_run. apply emits_bind; [now apply emits_emit|].
  intros _ st. exists []. simpl.
  destruct (spawn env cmd cwd (st_fs st)) as [rc out err fs'|e]; simpl.
  - destruct (Z.eqb rc 0); simpl; now rewrite app_nil_r.
  - now rewrite app_nil_r.
Qed.

Create HintDb emits.
#[local] Hint Resolve emits_ret emits_throw emits_raise emits_query emits_of_result
  emits_update_fs : emits.

Ltac emits_step :=
  first
    [ apply emits_bind; [|intros ?]
    | apply emits_try; [|intros ? ? ?]
    | apply emits_emit
    | apply emits_subprocess_run
    | solve [auto with emits] ].

Lemma emits_cache_probe P env c : emits P (cache_probe env c).
Proof.
  unfold cache_probe, m_exists, m_read_text.
  apply emits_bind; [auto with emits|]. intros [|]; [|auto with emits].
  apply emits_bind; [repeat emits_step|]. intros existing.
  destruct (String.eqb existing (rust_src c)); [|auto with emits].
  apply emits_bind; [auto with emits|]. intros [|]; auto with emits.
Qed.

Lemma emits_write_workspace env c : emits (decorator_event env c) (write_workspace env c).
Proof.
  unfold write_workspace, m_mkdir_exist_ok, m_write_text.
  repeat emits_step; simpl; auto.
Qed.

Lemma emits_cargo_build env c : emits (decorator_event env c) (cargo_build env c).
Proof.
  unfold cargo_build. apply emits_try.
  - apply emits_subprocess_run. simpl. auto.
  - intros [e|rc out err|n] k Hk; inversion Hk; subst. apply emits_raise.
Qed.

Lemma emits_find_artifact P env c : emits P (find_artifact env c).
Proof.
  unfold find_artifact, m_exists.
  apply emits_bind; [auto with emits|]. intros [|]; simpl; [auto with emits|].
  apply emits_bind; [auto with emits|]. intros [|first rest]; auto with emits.
Qed.

Lemma emits_load_function env c lib_path :
  emits (decorator_event env c) (load_function env c lib_path).
Proof.
  unfold load_function, CDLL, cdll_getattr, set_signature.
  apply emits_bind.
  - apply emits_bind; [apply emits_emit; exact I|]. intros _.
    apply emits_bind; [auto with emits|]. intros [h|]; [auto with emits|].
    apply emits_bind; [auto with emits|]. intros msg. apply emits_raise.
  - intros h. apply emits_bind.
    + apply emits_try.
      * destruct (instance_attr env (fn_name c)) as [settable|]; [auto with emits|].
        destruct (is_dunder (fn_name c)); [auto with emits|].
        destruct (dlsym env h (fn_name c)); auto with emits.
      * intros [e|rc out err|n] k Hk; inversion Hk; subst. apply emits_raise.
    + intros [|]; (apply emits_bind; [auto with emits|]); intros _; auto with emits.
Qed.

Lemma emits_ensure_tempdir env c : emits (decorator_event env c) (ensure_tempdir env c).
Proof.
  unfold ensure_tempdir, m_exists, m_mkdir_parents.
  apply emits_bind; [auto with emits|]. intros [|]; simpl; [auto with emits|].
  apply emits_bind; [apply emits_emit; simpl; auto | auto with emits].
Qed.

Lemma emits_finish env c pyfunc lib_path :
  emits (decorator_event env c) (finish env c pyfunc lib_path).
Proof.
  unfold finish. apply emits_bind; [apply emits_load_function | auto with emits].
Qed.

(** The log of one run of [decorator]: it grows by events of the listed
    shapes only. *)
Lemma emits_decorator env c pyfunc :
  emits (decorator_event env c) (decorator env c pyfunc).
Proof.
  unfold decorator.
  apply emits_bind; [apply emits_ensure_tempdir|]. intros _.
  apply emits_bind; [apply emits_cache_probe|]. intros hit.
  apply emits_bind; [|intros lib_path; apply emits_finish].
  destruct hit; [auto with emits|]. unfold rebuild.
  apply emits_bind; [apply emits_write_workspace|]. intros _.
  apply emits_bind; [apply emits_cargo_build|]. intros _.
  apply emits_find_artifact.
Qed.

Lemma count_events_app P l1 l2 :
  count_events P (l1 ++ l2) = (count_events P l1 + count_events P l2)%nat.
Proof. induction l1 as [|e l1 IH]; simpl; auto. rewrite IH. lia. Qed.

Lemma count_events_none P l :
  Forall (fun e => P e = false) l -> count_events P l = 0%nat.
Proof. induction 1 as [|e l He _ IH]; simpl; auto. now rewrite He, IH. Qed.

(** ** C5 and C10: the factory *)

Lemma rust_jit_missing env src fn at_ rt cn extra st :
  which env "cargo" = None ->
  rust_jit env src fn at_ rt cn extra st =
    (Throw (Exn (RuntimeError cargo_missing_msg)),
     State (st_fs st) (st_log st ++ [EvWhich "cargo"])).
Proof.
  intros H. unfold rust_jit, _ensure_cargo_exists, shutil_which, bind, emit, ret, raise.
  simpl. now rewrite H.
Qed.

Lemma rust_jit_present env src fn at_ rt cn extra st w :
  which env "cargo" = Some w ->
  rust_jit env src fn at_ rt cn extra st =
    (Return (request_closure src fn at_ rt cn extra),
     State (st_fs st) (st_log st ++ [EvWhich "cargo"])).
Proof.
  intros H. unfold rust_jit, _ensure_cargo_exists, shutil_which, bind, emit, ret, raise.
  simpl. now rewrite H.
Qed.

(** The log of one request: the search for [cargo], then what [decorator]
    does for the closure the factory built. *)
Lemma jit_log env src fn at_ rt cn extra pyfunc st :
  exists l,
    st_log (snd (jit env src fn at_ rt cn extra pyfunc st)) =
      (st_log st ++ EvWhich "cargo" :: l)%list /\
    Forall (decorator_event env (request_closure src fn at_ rt cn extra)) l.
Proof.
  unfold jit. destruct (which env "cargo") as [w|] eqn:Hw.
  - erewrite bind_Return by (eapply rust_jit_present; eauto).
    match goal with |- context [decorator env ?c pyfunc ?s] =>
      destruct (emits_decorator env c pyfunc s) as (l & E & F) end.
    exists l. rewrite E. simpl. rewrite <- app_assoc. auto.
  - erewrite bind_Throw by (eapply rust_jit_missing; eauto).
    exists []. simpl. auto.
Qed.

Lemma decorator_event_no_which env c l :
  Forall (decorator_event env c) l -> count_events is_which l = 0%nat.
Proof.
  intros H. apply count_events_none. eapply Forall_impl; [exact H|].
  intros [] He; simpl in *; auto; contradiction.
Qed.

Lemma decorator_event_run env c l :
  Forall (decorator_event env c) l ->
  Forall (fun e => forall cmd cwd, e = EvRun cmd cwd -> cmd = ["cargo"; "build"; "--release"]) l.
Proof.
  intros H. eapply Forall_impl; [exact H|].
  intros [] He cmd' cwd' E; inversion E; subst. simpl in He. tauto.
Qed.

(** C5. When [cargo] is not on the search path, every request fails with
    the toolchain-not-found error, raised by the factory itself (request
    construction) with the file system untouched and nothing but the search
    in the log: no directory is made and no file written.  The message is
    that of no other failure of the program.  The search is made once per
    request, whether or not it succeeds. *)
Theorem toolchain_missing_before_workspace (env : Env) (src fn : string)
    (at_ : list ctype) (rt : ctype) (cn : option string) (extra : option (list string))
    (pyfunc : pyfunction) (st : state) :
  (which env "cargo" = None ->
   rust_jit env src fn at_ rt cn extra st =
     (Throw (Exn (RuntimeError cargo_missing_msg)),
      State (st_fs st) (st_log st ++ [EvWhich "cargo"])) /\
   jit env src fn at_ rt cn extra pyfunc st =
     (Throw (Exn (RuntimeError cargo_missing_msg)),
      State (st_fs st) (st_log st ++ [EvWhich "cargo"])) /\
   count_events is_workspace_write (st_log (snd (jit env src fn at_ rt cn extra pyfunc st))) =
     count_events is_workspace_write (st_log st)) /\
  (forall out err, cargo_missing_msg <> compile_failed_msg out err) /\
  (forall lib dir, cargo_missing_msg <> lib_not_found_msg lib dir) /\
  (forall f, cargo_missing_msg <> fn_not_found_msg f) /\
  count_events is_which (st_log (snd (jit env src fn at_ rt cn extra pyfunc st))) =
    S (count_events is_which (st_log st)).
Proof.
  split; [|split; [|split; [|split]]].
  - intros Hw.
    assert (Hj : jit env src fn at_ rt cn extra pyfunc st =
                 (Throw (Exn (RuntimeError cargo_missing_msg)),
                  State (st_fs st) (st_log st ++ [EvWhich "cargo"]))).
    { unfold jit. eapply bind_Throw, rust_jit_missing, Hw. }
    split; [now apply rust_jit_missing|]. split; [exact Hj|].
    rewrite Hj. simpl. rewrite count_events_app. simpl. lia.
  - intros out err. discriminate.
  - intros lib dir. discriminate.
  - intros f. discriminate.
  - destruct (jit_log env src fn at_ rt cn extra pyfunc st) as (l & E & F).
    rewrite E, count_events_app. simpl.
    rewrite (decorator_event_no_which _ _ _ F). lia.
Qed.

(** C10. [cargo_extra_args] changes nothing: two requests that differ in it
    alone give the same result and the same final state (file system and
    log) from every starting state, in every environment; and every
    toolchain invocation a request logs carries the fixed command
    [cargo build --release]. *)
Theorem cargo_extra_args_ignored (env : Env) (src fn : string) (at_ : list ctype)
    (rt : ctype) (cn : option string) (extra1 extra2 : option (list string))
    (pyfunc : pyfunction) (st : state) :
  jit env src fn at_ rt cn extra1 pyfunc st = jit env src fn at_ rt cn extra2 pyfunc st /\
  exists l,
    st_log (snd (jit env src fn at_ rt cn extra1 pyfunc st)) = (st_log st ++ l)%list /\
    Forall (fun e => forall cmd cwd, e = EvRun cmd cwd -> cmd = ["cargo"; "build"; "--release"]) l.
Proof.
  split.
  - unfold jit. destruct (which env "cargo") as [w|] eqn:Hw.
    + erewrite !bind_Return by (eapply rust_jit_present; eauto). reflexivity.
    + erewrite !bind_Throw by (eapply rust_jit_missing; eauto). reflexivity.
  - destruct (jit_log env src fn at_ rt cn extra1 pyfunc st) as (l & E & F).
    exists (EvWhich "cargo" :: l). split; [exact E|].
    constructor; [intros cmd cwd H; discriminate|].
    eapply decorator_event_run, F.
Qed.

(** ** Text on disk *)

Lemma decode_ignore_valid_aux n : forall s,
  (String.length s <= n)%nat -> Utf8.valid s = true -> Utf8.decode_ignore s = s.
Proof.
  induction n as [|n IH]; intros [|c1 r1] Hlen Hv; simpl in Hlen; try lia; auto.
  cbn [Utf8.valid Utf8.decode_ignore] in *.
  destruct (N.ltb (byte_of c1) 128).
  { f_equal. apply IH; [lia|auto]. }
  destruct (N.ltb (byte_of c1) 194); [discriminate|].
  destruct (N.ltb (byte_of c1) 224).
  { destruct r1 as [|c2 r2]; [discriminate|].
    apply andb_true_iff in Hv as [H2 Hv]. rewrite H2.
    do 2 f_equal. apply IH; [simpl in Hlen; lia|auto]. }
  destruct (N.ltb (byte_of c1) 240).
  { destruct r1 as [|c2 [|c3 r3]]; try discriminate.
    apply andb_true_iff in Hv as [Hv H4]. apply andb_true_iff in Hv as [H2 H3].
    rewrite H2, H3. do 3 f_equal. apply IH; [simpl in Hlen; lia|auto]. }
  destruct (N.ltb (byte_of c1) 245); [|discriminate].
  destruct r1 as [|c2 [|c3 [|c4 r4]]]; try discriminate.
  apply andb_true_iff in Hv as [Hv H5]. apply andb_true_iff in Hv as [Hv H4].
  apply andb_true_iff in Hv as [H2 H3].
  rewrite H2, H3, H4. do 4 f_equal. apply IH; [simpl in Hlen; lia|auto].
Qed.

(** Decoding with [errors='ignore'] changes nothing in well-formed UTF-8. *)
Lemma decode_ignore_valid s : Utf8.valid s = true -> Utf8.decode_ignore s = s.
Proof. apply (decode_ignore_valid_aux (String.length s)). lia. Qed.

Lemma captured_valid s : Utf8.valid s = true -> captured s = s.
Proof. destruct s; simpl; auto. intros H. now apply (decode_ignore_valid (String a s)). Qed.

Lemma is_LF_eq c : is_LF c = true -> c = LF.
Proof.
  unfold is_LF, byte_of. intros H. apply N.eqb_eq in H.
  rewrite <- (ascii_N_embedding c), H. reflexivity.
Qed.

Lemma cont_not_LF c : Utf8.is_cont (byte_of c) = true -> is_LF c = false.
Proof.
  unfold Utf8.is_cont, is_LF. intros H. apply andb_true_iff in H as [H _].
  apply N.leb_le in H. apply N.eqb_neq. lia.
Qed.

Lemma second_of_3_cont b1 b2 : Utf8.second_of_3 b1 b2 = true -> Utf8.is_cont b2 = true.
Proof. unfold Utf8.second_of_3. intros H. now apply andb_true_iff in H as [H _]. Qed.

Lemma second_of_4_cont b1 b2 : Utf8.second_of_4 b1 b2 = true -> Utf8.is_cont b2 = true.
Proof. unfold Utf8.second_of_4. intros H. now apply andb_true_iff in H as [H _]. Qed.

Lemma translate_nl s : translate_newlines nl s = s.
Proof.
  induction s as [|c r IH]; simpl; auto.
  destruct (is_LF c) eqn:E; rewrite IH; auto.
  apply is_LF_eq in E. now subst.
Qed.

Lemma valid_translate_aux sep n :
  Utf8.valid sep = true ->
  (forall r, Utf8.valid (sep +:+ r) = Utf8.valid r) ->
  forall s, (String.length s <= n)%nat ->
            Utf8.valid s = true -> Utf8.valid (translate_newlines sep s) = true.
Proof.
  intros Hsep Happ.
  induction n as [|n IH]; intros [|c1 r1] Hlen Hv; simpl in Hlen; try lia; auto.
  cbn [Utf8.valid] in Hv. cbn [translate_newlines].
  destruct (is_LF c1) eqn:ELF.
  { rewrite Happ. apply IH; [lia|].
    apply is_LF_eq in ELF. subst c1. exact Hv. }
  cbn [Utf8.valid].
  destruct (N.ltb (byte_of c1) 128) eqn:E1.
  { apply IH; [lia|auto]. }
  destruct (N.ltb (byte_of c1) 194); [discriminate|].
  destruct (N.ltb (byte_of c1) 224).
  { destruct r1 as [|c2 r2]; [discriminate|].
    apply andb_true_iff in Hv as [H2 Hv].
    cbn [translate_newlines]. rewrite (cont_not_LF _ H2), H2. simpl.
    apply IH; [simpl in Hlen; lia|auto]. }
  destruct (N.ltb (byte_of c1) 240).
  { destruct r1 as [|c2 [|c3 r3]]; try discriminate.
    apply andb_true_iff in Hv as [Hv H4]. apply andb_true_iff in Hv as [H2 H3].
    cbn [translate_newlines].
    rewrite (cont_not_LF _ (second_of_3_cont _ _ H2)), (cont_not_LF _ H3), H2, H3. simpl.
    apply IH; [simpl in Hlen; lia|auto]. }
  destruct (N.ltb (byte_of c1) 245); [|discriminate].
  destruct r1 as [|c2 [|c3 [|c4 r4]]]; try discriminate.
  apply andb_true_iff in Hv as [Hv H5]. apply andb_true_iff in Hv as [Hv H4].
  apply andb_true_iff in Hv as [H2 H3].
  cbn [translate_newlines].
  rewrite (cont_not_LF _ (second_of_4_cont _ _ H2)), (cont_not_LF _ H3), (cont_not_LF _ H4),
    H2, H3, H4. simpl.
  apply IH; [simpl in Hlen; lia|auto].
Qed.

(** Writing well-formed text puts well-formed bytes on disk. *)
Lemma valid_to_disk plat s : Utf8.valid s = true -> Utf8.valid (to_disk plat s) = true.
Proof.
  intros Hv. unfold to_disk, linesep.
  destruct (String.eqb plat "win32").
  - apply (valid_translate_aux _ (String.length s)); auto.
  - now rewrite translate_nl.
Qed.

(** Text without carriage returns reads back as it was written. *)
Lemma universal_newlines_to_disk plat s :
  no_cr s = true -> universal_newlines (to_disk plat s) = s.
Proof.
  unfold to_disk, linesep, no_cr. intros Hs.
  destruct (String.eqb plat "win32").
  - induction s as [|c r IH]; simpl in *; auto.
    apply andb_true_iff in Hs as [Hc Hr]. apply negb_true_iff in Hc.
    destruct (is_LF c) eqn:E.
    + apply is_LF_eq in E. subst c. simpl.
      change (String.append EmptyString ?x) with x. now rewrite IH.
    + simpl. rewrite Hc. now rewrite IH.
  - rewrite translate_nl.
    induction s as [|c r IH]; simpl in *; auto.
    apply andb_true_iff in Hs as [Hc Hr]. apply negb_true_iff in Hc.
    rewrite Hc. now rewrite IH.
Qed.

(** ** The file system *)

Lemma pjoin_nonempty (p : list string) c : p // c <> [].
Proof. unfold pjoin. destruct p; discriminate. Qed.

Lemma parent_pjoin (p : list string) c : parent (p // c) = p.
Proof. apply removelast_last. Qed.

Lemma pjoin_length (p : list string) c : length (p // c) = S (length p).
Proof. unfold pjoin. rewrite length_app. simpl. lia. Qed.

Lemma pjoin_inj (p q : list string) a b : p // a = q // b -> p = q /\ a = b.
Proof. apply app_inj_tail. Qed.

Lemma stat_insert_eq (fs : gmap (list string) node) p n :
  p <> [] -> stat (<[p := n]> fs) p = Some n.
Proof. destruct p; [congruence|]. intros _. simpl. apply lookup_insert_eq. Qed.

Lemma stat_insert_ne (fs : gmap (list string) node) p q n :
  p <> q -> stat (<[p := n]> fs) q = stat fs q.
Proof. intros H. destruct q; simpl; auto. now apply lookup_insert_ne. Qed.

Lemma stat_insert_longer (fs : gmap (list string) node) p q n :
  (length p < length q)%nat -> stat (<[p := n]> fs) q = stat fs q.
Proof. intros H. apply stat_insert_ne. intros ->. lia. Qed.

Lemma os_mkdir_inv fs p fs' : os_mkdir fs p = Ok fs' -> fs' = <[p := Dir]> fs.
Proof.
  unfold os_mkdir. destruct (stat fs p); [discriminate|].
  destruct (stat fs (parent p)) as [[|]|]; congruence.
Qed.

Lemma path_mkdir_fresh fuel ps eo fs p :
  stat fs p = None -> stat fs (parent p) = Some Dir ->
  path_mkdir fuel ps eo fs p = Ok (<[p := Dir]> fs).
Proof.
  intros Hp Hpar. destruct fuel; simpl; unfold os_mkdir; now rewrite Hp, Hpar.
Qed.

Lemma path_mkdir_exists fuel ps fs p :
  stat fs p = Some Dir -> path_mkdir fuel ps true fs p = Ok fs.
Proof.
  intros Hp. destruct fuel; simpl; unfold os_mkdir, is_dir; now rewrite Hp.
Qed.

Lemma parent_length (p : list string) : (length (parent p) <= length p)%nat.
Proof.
  unfold parent. induction p as [|a [|b p] IH]; simpl in *; lia.
Qed.

(** Making a directory leaves every longer path as it was. *)
Lemma path_mkdir_frame fuel : forall ps eo fs p fs',
  path_mkdir fuel ps eo fs p = Ok fs' ->
  forall q, (length p < length q)%nat -> stat fs' q = stat fs q.
Proof.
  induction fuel as [|f IH]; intros ps eo fs p fs' H q Hq; simpl in H.
  - destruct (os_mkdir fs p) as [fs1|e] eqn:E.
    + apply os_mkdir_inv in E. inversion H; subst. now apply stat_insert_longer.
    + destruct e; try (destruct (negb eo || negb (is_dir fs p)); congruence).
      destruct (negb ps || bool_decide (parent p = p)); discriminate.
  - destruct (os_mkdir fs p) as [fs1|e] eqn:E.
    + apply os_mkdir_inv in E. inversion H; subst. now apply stat_insert_longer.
    + destruct e; try (destruct (negb eo || negb (is_dir fs p)); congruence).
      destruct (negb ps || bool_decide (parent p = p)); [discriminate|].
      destruct (path_mkdir f true true fs (parent p)) as [fs1|e1] eqn:E1; [|discriminate].
      rewrite (IH _ _ _ _ _ H q Hq).
      apply (IH _ _ _ _ _ E1 q).
      pose proof (parent_length p). lia.
Qed.

Lemma parent_shorter (p : list string) : p <> [] -> (length (parent p) < length p)%nat.
Proof.
  unfold parent. induction p as [|a [|b p] IH]; simpl in *; try congruence; try lia.
  intros _. assert (b :: p <> []) as H by discriminate. specialize (IH H). lia.
Qed.

Lemma path_mkdir_no_parents f1 f2 eo fs p :
  path_mkdir f1 false eo fs p = path_mkdir f2 false eo fs p.
Proof. destruct f1, f2; simpl; destruct (os_mkdir fs p) as [|[]]; reflexivity. Qed.

(** The fuel never runs out: any amount from [length p] on gives the same
    result. *)
Lemma path_mkdir_fuel f1 : forall f2 ps eo fs p,
  (length p <= f1)%nat -> (length p <= f2)%nat ->
  path_mkdir f1 ps eo fs p = path_mkdir f2 ps eo fs p.
Proof.
  induction f1 as [|f1 IH]; intros f2 ps eo fs p H1 H2.
  - destruct p; [|simpl in H1; lia].
    destruct f2; simpl; unfold os_mkdir; simpl; reflexivity.
  - destruct f2 as [|f2].
    + destruct p; [|simpl in H2; lia].
      simpl; unfold os_mkdir; simpl; reflexivity.
    + simpl. destruct (os_mkdir fs p) as [fs1|e]; [reflexivity|].
      destruct e; try reflexivity.
      destruct (negb ps || bool_decide (parent p = p)) eqn:E; [reflexivity|].
      apply orb_false_iff in E as [_ E]. apply bool_decide_eq_false in E.
      assert (Hp : p <> []) by (intros ->; apply E; reflexivity).
      pose proof (parent_shorter p Hp) as Hlt.
      rewrite (IH f2 true true fs (parent p)) by lia.
      destruct (path_mkdir f2 true true fs (parent p)); [|reflexivity].
      apply path_mkdir_no_parents.
Qed.

Lemma write_text_ok plat fs p text :
  absent_or_file (stat fs p) = true -> stat fs (parent p) = Some Dir ->
  write_text plat fs p text = Ok (<[p := File (to_disk plat text)]> fs).
Proof.
  unfold write_text. intros Hp Hpar. rewrite Hpar.
  destruct (stat fs p) as [[|]|]; simpl in *; congruence.
Qed.

Lemma read_text_stat fs fs' p n :
  stat fs p = Some n -> stat fs' p = stat fs p -> read_text fs' p = read_text fs p.
Proof. unfold read_text. intros Hn ->. now rewrite Hn. Qed.

Lemma path_exists_stat fs fs' p :
  stat fs' p = stat fs p -> path_exists fs' p = path_exists fs p.
Proof. unfold path_exists. now intros ->. Qed.

(** Text without carriage returns, once written, reads back unchanged. *)
Lemma read_text_written plat fs p text :
  stat fs p = Some (File (to_disk plat text)) ->
  Utf8.valid text = true -> no_cr text = true ->
  read_text fs p = Ok text.
Proof.
  intros Hp Hv Hcr. unfold read_text. rewrite Hp.
  now rewrite valid_to_disk, universal_newlines_to_disk.
Qed.

(** ** The phases of [decorator] *)

Lemma bind_assoc {A B C} (c : M A) (f : A -> M B) (g : B -> M C) st :
  bind (bind c f) g st = bind c (fun a => bind (f a) g) st.
Proof. unfold bind. destruct (c st) as [[a|s] st1]; auto. Qed.

Lemma cache_probe_spec env c st :
  cache_probe env c st = (probe_outcome env c (st_fs st), st).
Proof.
  unfold cache_probe, probe_outcome, m_exists, m_read_text, query_fs, bind, ret, path_exists.
  destruct (stat (st_fs st) (src_file env c)) as [n|] eqn:Hs; simpl; auto.
  destruct (read_text (st_fs st) (src_file env c)) as [t|e]; simpl; auto.
  destruct (String.eqb t (rust_src c)); simpl; auto.
  destruct (stat (st_fs st) (candidate env c)); auto.
Qed.

Lemma probe_outcome_frame env c fs fs' :
  stat fs' (src_file env c) = stat fs (src_file env c) ->
  stat fs' (candidate env c) = stat fs (candidate env c) ->
  probe_outcome env c fs' = probe_outcome env c fs.
Proof.
  intros H1 H2. unfold probe_outcome.
  destruct (stat fs (src_file env c)) as [n|] eqn:Hs.
  - rewrite H1, (read_text_stat fs fs' _ n Hs) by congruence.
    now rewrite (path_exists_stat _ _ _ H2).
  - now rewrite H1.
Qed.

Lemma probe_outcome_fresh env c fs :
  probe_outcome env c fs = Return (Some (fspath env (candidate env c))) <-> fresh env c fs.
Proof.
  unfold probe_outcome, fresh. split.
  - destruct (stat fs (src_file env c)); [|discriminate].
    destruct (read_text fs (src_file env c)) as [t|e]; [|discriminate].
    destruct (String.eqb t (rust_src c)) eqn:E; simpl; [|discriminate].
    destruct (path_exists fs (candidate env c)); [|discriminate].
    apply String.eqb_eq in E. subst. auto.
  - intros [Hr He]. rewrite Hr, He, String.eqb_refl. simpl.
    unfold read_text in Hr. destruct (stat fs (src_file env c)); [auto|discriminate].
Qed.

Lemma probe_outcome_stale env c fs :
  probe_outcome env c fs = Return None <-> stale env c fs.
Proof.
  unfold probe_outcome, stale. split.
  - destruct (stat fs (src_file env c)) eqn:Hs; [|auto].
    destruct (read_text fs (src_file env c)) as [t|e]; [|discriminate].
    destruct (String.eqb t (rust_src c)) eqn:E; simpl.
    + apply String.eqb_eq in E. subst.
      destruct (path_exists fs (candidate env c)); [discriminate|auto].
    + apply String.eqb_neq in E. intros _. right. left. eauto.
  - intros [Hs | [(t & Hr & Hne) | (Hr & He)]].
    + now rewrite Hs.
    + rewrite Hr. apply String.eqb_neq in Hne. rewrite Hne. simpl.
      unfold read_text in Hr. destruct (stat fs (src_file env c)); [auto|discriminate].
    + rewrite Hr, He, String.eqb_refl. simpl.
      unfold read_text in Hr. destruct (stat fs (src_file env c)); [auto|discriminate].
Qed.

(** Two workspace paths differ by their lengths or by their last names. *)
Ltac path_neq :=
  let H := fresh "H" in
  intros H;
  unfold candidate, target_dir, src_file, cargo_toml in H;
  first
    [ apply (f_equal (@length string)) in H; rewrite ?pjoin_length in H; lia
    | apply pjoin_inj in H as [_ H]; discriminate ].

Lemma tempdir_parent env c : parent (tempdir env c) = tmpdir env.
Proof. apply parent_pjoin. Qed.

Lemma src_file_longer env c : (length (tempdir env c) < length (src_file env c))%nat.
Proof. unfold src_file. rewrite !pjoin_length. lia. Qed.

Lemma candidate_longer env c : (length (tempdir env c) < length (candidate env c))%nat.
Proof. unfold candidate, target_dir. rewrite !pjoin_length. lia. Qed.

(** Whatever [ensure_tempdir] does, it leaves the paths below the workspace
    directory alone and starts no process. *)
Lemma ensure_tempdir_frame env c st r st' :
  ensure_tempdir env c st = (r, st') ->
  (forall q, (length (tempdir env c) < length q)%nat ->
             stat (st_fs st') q = stat (st_fs st) q) /\
  count_events is_run (st_log st') = count_events is_run (st_log st).
Proof.
  unfold ensure_tempdir, m_exists, m_mkdir_parents, query_fs, update_fs, emit, bind, ret.
  destruct (path_exists (st_fs st) (tempdir env c)); simpl.
  - intros H. inversion H; subst. auto.
  - destruct (mkdir_parents (st_fs st) (tempdir env c)) as [fs'|e] eqn:E;
      intros H; inversion H; subst; simpl; rewrite count_events_app; simpl.
    + split; [|lia]. intros q Hq. eapply path_mkdir_frame; eauto.
    + split; [auto|lia].
Qed.

Lemma ensure_tempdir_sound env c st :
  is_dir (st_fs st) (tmpdir env) = true ->
  absent_or_dir (stat (st_fs st) (tempdir env c)) = true ->
  ensure_tempdir env c st =
    (Return tt,
     State (<[tempdir env c := Dir]> (st_fs st))
           (st_log st ++
            if path_exists (st_fs st) (tempdir env c) then [] else [EvMkdir (tempdir env c)])).
Proof.
  intros Htmp Hws.
  unfold ensure_tempdir, m_exists, m_mkdir_parents, query_fs, update_fs, emit, bind, ret.
  unfold path_exists.
  destruct (stat (st_fs st) (tempdir env c)) as [[d|]|] eqn:Hs; simpl in *; try discriminate.
  - rewrite app_nil_r. rewrite insert_id; [now destruct st|].
    unfold tempdir, pjoin in *. destruct (tmpdir env); exact Hs.
  - unfold mkdir_parents. rewrite path_mkdir_fresh; auto.
    rewrite tempdir_parent. unfold is_dir in Htmp.
    destruct (stat (st_fs st) (tmpdir env)) as [[|]|]; congruence.
Qed.

Lemma write_workspace_sound env c fs log :
  stat fs (tempdir env c) = Some Dir ->
  absent_or_dir (stat fs (tempdir env c // "src")) = true ->
  absent_or_file (stat fs (cargo_toml env c)) = true ->
  absent_or_file (stat fs (src_file env c)) = true ->
  write_workspace env c (State fs log) =
    (Return tt,
     State (<[src_file env c := File (to_disk (platform env) (rust_src c))]>
              (<[cargo_toml env c := File (to_disk (platform env) (manifest (crate_name c)))]>
                 (<[tempdir env c // "src" := Dir]> fs)))
           (log ++ [EvMkdir (tempdir env c // "src");
                    EvWrite (cargo_toml env c) (manifest (crate_name c));
                    EvWrite (src_file env c) (rust_src c)])).
Proof.
  intros Ht Hsrc Htoml Hfile.
  unfold write_workspace, m_mkdir_exist_ok, m_write_text, update_fs, emit, bind. simpl.
  assert (Hmk : mkdir_exist_ok fs (tempdir env c // "src") =
                Ok (<[tempdir env c // "src" := Dir]> fs)).
  { unfold mkdir_exist_ok.
    destruct (stat fs (tempdir env c // "src")) as [[d|]|] eqn:Hs; simpl in Hsrc;
      try discriminate.
    - rewrite path_mkdir_exists by auto. rewrite insert_id; auto.
      pose proof (pjoin_nonempty (tempdir env c) "src").
      destruct (tempdir env c // "src"); [congruence|exact Hs].
    - apply path_mkdir_fresh; auto. now rewrite parent_pjoin. }
  rewrite Hmk. simpl.
  rewrite write_text_ok; simpl.
  - rewrite write_text_ok; simpl.
    + now rewrite <- !app_assoc.
    + rewrite !stat_insert_ne; auto; path_neq.
    + unfold src_file. rewrite parent_pjoin.
      rewrite stat_insert_ne, stat_insert_eq; auto using pjoin_nonempty. path_neq.
  - rewrite stat_insert_ne; auto. path_neq.
  - unfold cargo_toml. rewrite parent_pjoin. rewrite stat_insert_ne; auto. path_neq.
Qed.

Lemma cargo_build_ok env c st out err fs' :
  spawn env build_cmd (tempdir env c) (st_fs st) = Completed 0 out err fs' ->
  cargo_build env c st = (Return tt, State fs' (st_log st ++ [run_event env c])).
Proof.
  intros H. unfold cargo_build, try_except, subprocess_run, bind, emit. simpl.
  now rewrite H.
Qed.

Lemma cargo_build_failed env c st rc out err fs' :
  spawn env build_cmd (tempdir env c) (st_fs st) = Completed rc out err fs' ->
  rc <> 0%Z ->
  cargo_build env c st =
    (Throw (Exn (RuntimeError (compile_failed_msg (captured out) (captured err)))),
     State fs' (st_log st ++ [run_event env c])).
Proof.
  intros H Hrc. unfold cargo_build, try_except, subprocess_run, bind, emit. simpl.
  rewrite H. apply Z.eqb_neq in Hrc. now rewrite Hrc.
Qed.

Lemma cargo_build_log env c st :
  st_log (snd (cargo_build env c st)) = (st_log st ++ [run_event env c])%list.
Proof.
  unfold cargo_build, try_except, subprocess_run, bind, emit. simpl.
  destruct (spawn env build_cmd (tempdir env c) (st_fs st)) as [rc out err fs'|e]; simpl; auto.
  destruct (Z.eqb rc 0); auto.
Qed.

Lemma find_artifact_spec env c st :
  find_artifact env c st =
    (if path_exists (st_fs st) (candidate env c)
     then Return (fspath env (candidate env c))
     else match rglob (scan_before env (st_fs st)) (fnmatch env) (st_fs st)
                      (target_dir env c) (libname env c) with
          | first :: _ => Return (fspath env first)
          | [] => Throw (Exn (RuntimeError
                                (lib_not_found_msg (libname env c)
                                                   (fspath env (target_dir env c)))))
          end,
     st).
Proof.
  unfold find_artifact, m_exists, query_fs, bind, ret, raise.
  destruct (path_exists (st_fs st) (candidate env c)); simpl; auto.
  destruct (rglob _ _ _ _ _); auto.
Qed.

Lemma finish_state env c pyfunc lib_path st :
  snd (finish env c pyfunc lib_path st) = State (st_fs st) (st_log st ++ [EvLoad lib_path]).
Proof.
  unfold finish, load_function, CDLL, cdll_getattr, set_signature, try_except, query_fs,
    emit, bind, ret, raise, throw. simpl.
  destruct (dlopen env (st_fs st) lib_path) as [h|]; simpl; auto.
  destruct (instance_attr env (fn_name c)) as [[|]|]; simpl; auto.
  destruct (is_dunder (fn_name c)); simpl; auto.
  destruct (dlsym env h (fn_name c)); simpl; auto.
Qed.

Lemma workspace_sound_inv env c fs :
  workspace_sound env c fs = true ->
  is_dir fs (tmpdir env) = true /\
  absent_or_dir (stat fs (tempdir env c)) = true /\
  absent_or_dir (stat fs (tempdir env c // "src")) = true /\
  absent_or_file (stat fs (cargo_toml env c)) = true /\
  absent_or_file (stat fs (src_file env c)) = true.
Proof.
  unfold workspace_sound. intros H.
  repeat (apply andb_true_iff in H as [H ?]). auto.
Qed.

(** A stale cache over a sound workspace: the workspace is written and the
    request goes on with the build. *)
Lemma decorator_rebuilds env c pyfunc st :
  workspace_sound env c (st_fs st) = true ->
  stale env c (st_fs st) ->
  decorator env c pyfunc st =
    build_and_bind env c pyfunc
      (State (written env c (st_fs st)) (st_log st ++ write_events env c (st_fs st))).
Proof.
  intros Hws Hstale.
  apply workspace_sound_inv in Hws as (Htmp & Ht & Hsrc & Htoml & Hfile).
  unfold decorator.
  erewrite bind_Return by (apply ensure_tempdir_sound; auto).
  erewrite bind_Return; cycle 1.
  { rewrite cache_probe_spec. simpl.
    rewrite probe_outcome_frame with (fs := st_fs st);
      [| apply stat_insert_longer, src_file_longer
       | apply stat_insert_longer, candidate_longer].
    apply probe_outcome_stale in Hstale. rewrite Hstale. reflexivity. }
  unfold rebuild, build_and_bind. rewrite bind_assoc.
  erewrite bind_Return; cycle 1.
  { apply write_workspace_sound.
    - apply stat_insert_eq, pjoin_nonempty.
    - rewrite stat_insert_ne; [auto | path_neq].
    - rewrite stat_insert_ne; [auto | path_neq].
    - rewrite stat_insert_ne; [auto | path_neq]. }
  rewrite bind_assoc. unfold written, write_events. rewrite <- app_assoc. reflexivity.
Qed.

(** A fresh cache: the request starts no process. *)
Lemma decorator_reuses env c pyfunc st :
  fresh env c (st_fs st) ->
  cargo_runs (snd (decorator env c pyfunc st)) = cargo_runs st.
Proof.
  intros Hfresh. unfold decorator, cargo_runs.
  destruct (ensure_tempdir env c st) as [[[]|s] st1] eqn:E;
    destruct (ensure_tempdir_frame _ _ _ _ _ E) as [Hframe Hruns].
  - erewrite bind_Return by eauto.
    erewrite bind_Return; cycle 1.
    { rewrite cache_probe_spec.
      rewrite probe_outcome_frame with (fs := st_fs st);
        [| apply Hframe, src_file_longer | apply Hframe, candidate_longer].
      apply probe_outcome_fresh in Hfresh. rewrite Hfresh. reflexivity. }
    erewrite bind_Return by reflexivity.
    rewrite finish_state. simpl. rewrite count_events_app. simpl. lia.
  - erewrite bind_Throw by eauto. simpl. auto.
Qed.

Lemma written_src_file env c fs :
  stat (written env c fs) (src_file env c) =
    Some (File (to_disk (platform env) (rust_src c))).
Proof. unfold written. apply stat_insert_eq. unfold src_file. apply pjoin_nonempty. Qed.

Lemma written_cargo_toml env c fs :
  stat (written env c fs) (cargo_toml env c) =
    Some (File (to_disk (platform env) (manifest (crate_name c)))).
Proof.
  unfold written. rewrite stat_insert_ne by path_neq.
  apply stat_insert_eq. unfold cargo_toml. apply pjoin_nonempty.
Qed.

(** The state a successful build leaves, up to the loading of the library. *)
Lemma build_and_bind_ok env c pyfunc st out err fs' :
  spawn env build_cmd (tempdir env c) (st_fs st) = Completed 0 out err fs' ->
  path_exists fs' (candidate env c) = true ->
  snd (build_and_bind env c pyfunc st) =
    State fs' (st_log st ++ [run_event env c; EvLoad (fspath env (candidate env c))]).
Proof.
  intros Hsp Hex. unfold build_and_bind.
  erewrite bind_Return by (eapply cargo_build_ok; eauto).
  erewrite bind_Return; cycle 1.
  { rewrite find_artifact_spec. simpl. rewrite Hex. reflexivity. }
  rewrite finish_state. simpl. now rewrite <- app_assoc.
Qed.

Lemma count_run_write_events env c fs : count_events is_run (write_events env c fs) = 0%nat.
Proof. unfold write_events. destruct (path_exists fs (tempdir env c)); reflexivity. Qed.

(** The state a rebuild leaves when the toolchain succeeds, puts the library
    at the fixed release path and leaves the source file alone: the cache
    is fresh. *)
Lemma decorator_rebuild_state env c pyfunc st out err fs' :
  workspace_sound env c (st_fs st) = true ->
  stale env c (st_fs st) ->
  Utf8.valid (rust_src c) = true ->
  no_cr (rust_src c) = true ->
  spawn env build_cmd (tempdir env c) (written env c (st_fs st)) = Completed 0 out err fs' ->
  path_exists fs' (candidate env c) = true ->
  stat fs' (src_file env c) = stat (written env c (st_fs st)) (src_file env c) ->
  snd (decorator env c pyfunc st) =
    State fs' ((st_log st ++ write_events env c (st_fs st)) ++
               [run_event env c; EvLoad (fspath env (candidate env c))]) /\
  fresh env c fs'.
Proof.
  intros Hws Hstale Hv Hcr Hsp Hex Hkeep.
  rewrite (decorator_rebuilds _ _ _ _ Hws Hstale).
  split.
  - now apply build_and_bind_ok with (out := out) (err := err).
  - split; [|exact Hex].
    apply read_text_written with (plat := platform env); auto.
    rewrite Hkeep. apply written_src_file.
Qed.

Lemma jit_reuses env src fn at_ rt cn extra pyfunc st :
  fresh env (request_closure src fn at_ rt cn extra) (st_fs st) ->
  cargo_runs (snd (jit env src fn at_ rt cn extra pyfunc st)) = cargo_runs st.
Proof.
  intros Hfresh. unfold jit. destruct (which env "cargo") as [w|] eqn:Hw.
  - erewrite bind_Return by (eapply rust_jit_present; eauto).
    rewrite decorator_reuses by exact Hfresh.
    unfold cargo_runs. simpl. rewrite count_events_app. simpl. lia.
  - erewrite bind_Throw by (eapply rust_jit_missing; eauto).
    unfold cargo_runs. simpl. rewrite count_events_app. simpl. lia.
Qed.

(** ** C1: the cache decision *)

Lemma probe_outcome_reuse env c fs lib_path :
  probe_outcome env c fs = Return (Some lib_path) -> fresh env c fs.
Proof.
  intros H. apply probe_outcome_fresh. revert H. unfold probe_outcome.
  destruct (stat fs (src_file env c)); [|discriminate].
  destruct (read_text fs (src_file env c)) as [t|e]; [|discriminate].
  destruct (String.eqb t (rust_src c) && path_exists fs (candidate env c));
    [reflexivity | discriminate].
Qed.

(** Where the cache decision is the one the specification gives.  Without
    a cached source file the cache probe answers REBUILD.  With a cached
    source file that holds a well-formed text free of carriage returns, it
    answers REUSE exactly when that text is the requested source text and
    the library is at the fixed release path, and REBUILD otherwise.  A
    request for which the probe answers REUSE starts no toolchain process.
    Binding the same request twice in succession starts the toolchain
    exactly once when [cargo] is on the search path, the first request
    finds a sound workspace with a stale cache, the source text is
    well-formed and free of carriage returns, and the build succeeds,
    leaves the library at the fixed release path and leaves the source
    file as it was written. *)
Theorem cache_decision_and_reuse (env : Env) (src fn : string) (at_ : list ctype)
    (rt : ctype) (cn : option string) (extra : option (list string))
    (pyfunc : pyfunction) (st : state) :
  let c := request_closure src fn at_ rt cn extra in
  let request := jit env src fn at_ rt cn extra pyfunc in
  (stat (st_fs st) (src_file env c) = None -> cache_probe env c st = (Return None, st)) /\
  (forall cached,
      stat (st_fs st) (src_file env c) = Some (File (to_disk (platform env) cached)) ->
      Utf8.valid cached = true ->
      no_cr cached = true ->
      cache_probe env c st =
        (if String.eqb cached src && path_exists (st_fs st) (candidate env c)
         then Return (Some (fspath env (candidate env c)))
         else Return None,
         st)) /\
  (forall lib_path,
      cache_probe env c st = (Return (Some lib_path), st) ->
      cargo_runs (snd (request st)) = cargo_runs st) /\
  (forall w out err fs',
      which env "cargo" = Some w ->
      workspace_sound env c (st_fs st) = true ->
      stale env c (st_fs st) ->
      Utf8.valid src = true ->
      no_cr src = true ->
      spawn env build_cmd (tempdir env c) (written env c (st_fs st)) = Completed 0 out err fs' ->
      path_exists fs' (candidate env c) = true ->
      stat fs' (src_file env c) = stat (written env c (st_fs st)) (src_file env c) ->
      cargo_runs (twice request st) = S (cargo_runs st)).
Proof.
  intros c request. subst c request. split; [|split; [|split]].
  - intros Hnone. rewrite cache_probe_spec. unfold probe_outcome. now rewrite Hnone.
  - intros cached Hstat Hv Hcr. rewrite cache_probe_spec. unfold probe_outcome.
    rewrite Hstat, (read_text_written _ _ _ _ Hstat Hv Hcr). reflexivity.
  - intros lib_path Hprobe. rewrite cache_probe_spec in Hprobe.
    apply jit_reuses. apply probe_outcome_reuse with (lib_path := lib_path).
    now inversion Hprobe.
  - intros w out err fs' Hw Hws Hstale Hv Hcr Hsp Hex Hkeep.
    unfold twice.
    rewrite jit_reuses.
    + unfold jit. erewrite bind_Return by (eapply rust_jit_present; eauto).
      destruct (decorator_rebuild_state env (request_closure src fn at_ rt cn extra) pyfunc
                  (State (st_fs st) (st_log st ++ [EvWhich "cargo"])) out err fs')
        as [Hst _]; auto.
      rewrite Hst. unfold cargo_runs. simpl.
      rewrite !count_events_app, count_run_write_events. simpl. lia.
    + unfold jit. erewrite bind_Return by (eapply rust_jit_present; eauto).
      destruct (decorator_rebuild_state env (request_closure src fn at_ rt cn extra) pyfunc
                  (State (st_fs st) (st_log st ++ [EvWhich "cargo"])) out err fs')
        as [Hst Hfresh]; auto.
      rewrite Hst. exact Hfresh.
Qed.

Lemma cache_decision_and_reuse_witness :
  let warm := snd (Sample.request Sample.linux Sample.add_src Sample.cold) in
  cache_probe Sample.linux (Sample.demo Sample.add_src) Sample.cold =
    (Return None, Sample.cold) /\
  cache_probe Sample.linux (Sample.demo Sample.add_src) warm =
    (Return (Some "/tmp/rustjit_demo/target/release/libdemo.so"), warm) /\
  cargo_runs (snd (Sample.request Sample.linux Sample.add_src warm)) = cargo_runs warm /\
  cargo_runs (twice (Sample.request Sample.linux Sample.add_src) Sample.cold) =
    S (cargo_runs Sample.cold).
Proof.
  intros warm.
  pose proof (cache_decision_and_reuse Sample.linux Sample.add_src "add_i32" [c_int; c_int]
                c_int (Some "demo") None Sample.add_py Sample.cold) as (Hnone & _ & _ & Hcold).
  pose proof (cache_decision_and_reuse Sample.linux Sample.add_src "add_i32" [c_int; c_int]
                c_int (Some "demo") None Sample.add_py warm) as (_ & Hcached & Hreuse & _).
  split; [|split; [|split]].
  - apply Hnone. vm_compute. reflexivity.
  - unfold Sample.demo. rewrite (Hcached Sample.add_src); vm_compute; reflexivity.
  - apply (Hreuse "/tmp/rustjit_demo/target/release/libdemo.so"). vm_compute. reflexivity.
  - refine (Hcold ["usr"; "bin"; "cargo"] "" "   Compiling demo v0.1.0"
      (<[ ["tmp"; "rustjit_demo"; "target"; "release"; "libdemo.so"] := File "ELF" ]>
         (Sample.with_release ["tmp"; "rustjit_demo"]
            (written Sample.linux (Sample.demo Sample.add_src) (st_fs Sample.cold))))
      _ _ _ _ _ _ _ _).
    + reflexivity.
    + vm_compute. reflexivity.
    + left. vm_compute. reflexivity.
    + vm_compute. reflexivity.
    + vm_compute. reflexivity.
    + reflexivity.
    + vm_compute. reflexivity.
    + vm_compute. reflexivity.
Defined.

(** Outside those conditions: with a toolchain that fails, two requests in
    succession start it twice; on a cache that is already fresh, two
    requests in succession do not start it at all. *)
Example two_requests_failing_or_warm :
  cargo_runs Sample.cold = 0%nat /\
  cargo_runs (twice (Sample.request Sample.linux_failing Sample.add_src) Sample.cold) = 2%nat /\
  let warm := snd (Sample.request Sample.linux Sample.add_src Sample.cold) in
  cargo_runs (twice (Sample.request Sample.linux Sample.add_src) warm) = cargo_runs warm.
Proof. repeat split; vm_compute; reflexivity. Qed.

(** C1 does not hold of the code.  A source whose two lines end in carriage
    return and line feed is bound from a cold cache with a toolchain that
    works: the build succeeds and the bound function is returned.  The
    cached source file then holds the requested text byte for byte, and
    the library is at the fixed release path.  Yet the cache probe answers
    REBUILD, because the text read back on line 54 has lost its carriage
    returns, and binding the same request again starts the toolchain a
    second time: two runs where the claim has one. *)
Theorem repeated_request_rebuilds :
  let request := Sample.request Sample.linux Sample.add_src_crlf in
  let c := Sample.demo Sample.add_src_crlf in
  let st1 := snd (request Sample.cold) in
  let w := Bound "add_i32" None "/tmp/rustjit_demo/target/release/libdemo.so" "add_i32" 1
                 [c_int; c_int] c_int in
  fst (request Sample.cold) = Return w /\
  stat (st_fs st1) (src_file Sample.linux c) = Some (File (rust_src c)) /\
  path_exists (st_fs st1) (candidate Sample.linux c) = true /\
  read_text (st_fs st1) (src_file Sample.linux c) =
    Ok ("#[no_mangle]" +:+ nl +:+ "pub extern " +:+ dq +:+ "C" +:+ dq +:+
        " fn add_i32(a: i32, b: i32) -> i32 { a + b }" +:+ nl) /\
  cache_probe Sample.linux c st1 = (Return None, st1) /\
  fst (request st1) = Return w /\
  cargo_runs Sample.cold = 0%nat /\
  cargo_runs st1 = 1%nat /\
  cargo_runs (twice request Sample.cold) = 2%nat.
Proof. vm_compute. repeat split; reflexivity. Qed.

(** ** C2: one compilation unit per crate name *)

Lemma same_crate_paths env c1 c2 :
  crate_name c1 = crate_name c2 ->
  tempdir env c2 = tempdir env c1 /\
  cargo_toml env c2 = cargo_toml env c1 /\
  src_file env c2 = src_file env c1 /\
  candidate env c2 = candidate env c1.
Proof.
  intros H. unfold candidate, target_dir, libname, src_file, cargo_toml, tempdir.
  now rewrite H.
Qed.

Lemma build_and_bind_runs env c pyfunc st :
  cargo_runs (snd (build_and_bind env c pyfunc st)) = S (cargo_runs st).
Proof.
  unfold build_and_bind, cargo_runs.
  pose proof (cargo_build_log env c st) as Hlog.
  destruct (cargo_build env c st) as [[[]|s] st1] eqn:E; simpl in Hlog.
  - erewrite bind_Return by eauto.
    cbv beta. unfold bind. rewrite find_artifact_spec.
    match goal with
    | |- context [match ?o with Return _ => _ | Throw _ => _ end] => destruct o as [lib|s]
    end; simpl.
    + rewrite finish_state. simpl. rewrite Hlog, !count_events_app. simpl. lia.
    + rewrite Hlog, count_events_app. simpl. lia.
  - erewrite bind_Throw by eauto. simpl.
    rewrite Hlog, count_events_app. simpl. lia.
Qed.

Lemma unit_on_disk_written env c fs :
  is_dir fs (tmpdir env) = true -> unit_on_disk env c (written env c fs).
Proof.
  intros Htmp. unfold unit_on_disk. repeat split.
  - unfold is_dir, written in *.
    rewrite !stat_insert_ne; [exact Htmp| | | |];
      unfold src_file, cargo_toml, tempdir; intros H;
      apply (f_equal (@length string)) in H; rewrite ?pjoin_length in H; lia.
  - unfold written. rewrite !stat_insert_ne by path_neq.
    apply stat_insert_eq, pjoin_nonempty.
  - unfold written. rewrite !stat_insert_ne by path_neq.
    apply stat_insert_eq, pjoin_nonempty.
  - apply written_cargo_toml.
  - apply written_src_file.
Qed.

(** Away from line endings the second request does supersede the first:
    when the unit of a request is on disk, a second request with the same
    crate name whose source text differs from what the cached source reads
    back as is decided REBUILD; the manifest and the source of the
    workspace are overwritten with those of the second request, which is
    from then on the unit on disk, and the toolchain is started exactly
    once, on the rewritten workspace. *)
Lemma second_request_supersedes (env : Env) (c1 c2 : closure) (pyfunc : pyfunction)
    (st : state) :
  crate_name c1 = crate_name c2 ->
  unit_on_disk env c1 (st_fs st) ->
  Utf8.valid (rust_src c1) = true ->
  universal_newlines (to_disk (platform env) (rust_src c1)) <> rust_src c2 ->
  cache_probe env c2 st = (Return None, st) /\
  decorator env c2 pyfunc st =
    build_and_bind env c2 pyfunc
      (State (written env c2 (st_fs st)) (st_log st ++ write_events env c2 (st_fs st))) /\
  unit_on_disk env c2 (written env c2 (st_fs st)) /\
  stat (written env c2 (st_fs st)) (src_file env c1) =
    Some (File (to_disk (platform env) (rust_src c2))) /\
  stat (written env c2 (st_fs st)) (cargo_toml env c1) =
    Some (File (to_disk (platform env) (manifest (crate_name c2)))) /\
  cargo_runs (snd (decorator env c2 pyfunc st)) = S (cargo_runs st).
Proof.
  intros Hcrate (Htmp & Ht & Hsrc & Htoml & Hfile) Hv Hne.
  destruct (same_crate_paths env c1 c2 Hcrate) as (Et & Etoml & Efile & Ecand).
  assert (Hstale : stale env c2 (st_fs st)).
  { right. left. exists (universal_newlines (to_disk (platform env) (rust_src c1))).
    split; [|exact Hne].
    unfold read_text. rewrite Efile, Hfile. now rewrite valid_to_disk. }
  assert (Hws : workspace_sound env c2 (st_fs st) = true).
  { unfold workspace_sound. rewrite Etoml, Efile, Et, Htmp, Ht, Hsrc, Htoml, Hfile.
    reflexivity. }
  assert (Hdec := decorator_rebuilds env c2 pyfunc st Hws Hstale).
  split; [|split; [|split; [|split; [|split]]]].
  - rewrite cache_probe_spec. apply probe_outcome_stale in Hstale. now rewrite Hstale.
  - exact Hdec.
  - now apply unit_on_disk_written.
  - rewrite <- Efile. apply written_src_file.
  - rewrite <- Etoml. apply written_cargo_toml.
  - rewrite Hdec, build_and_bind_runs. unfold cargo_runs. simpl.
    rewrite count_events_app, count_run_write_events. lia.
Qed.

Example second_request_supersedes_sample :
  let st1 := snd (Sample.request Sample.linux Sample.add_src Sample.cold) in
  stat (written Sample.linux (Sample.demo Sample.sub_src) (st_fs st1))
       (src_file Sample.linux (Sample.demo Sample.add_src)) =
    Some (File (to_disk "linux" Sample.sub_src)) /\
  cargo_runs (snd (decorator Sample.linux (Sample.demo Sample.sub_src) Sample.add_py st1)) =
    S (cargo_runs st1).
Proof.
  intros st1.
  assert (H := second_request_supersedes Sample.linux (Sample.demo Sample.add_src)
                 (Sample.demo Sample.sub_src) Sample.add_py st1).
  destruct H as (_ & _ & _ & Hsrc & _ & Hruns).
  - reflexivity.
  - repeat split; vm_compute; reflexivity.
  - vm_compute. reflexivity.
  - vm_compute. discriminate.
  - split; [exact Hsrc | exact Hruns].
Defined.

(** C2 does not hold of the code.  The first request, whose source ends its
    lines with carriage return and line feed, is built and its unit is on
    disk.  The second request has the same crate name and a different
    source text, the same lines ended by a line feed alone.  The cached
    source is read back in text mode, which turns every line ending into a
    line feed, so it compares equal to the second text: the probe answers
    REUSE, the toolchain is not started and the cached source stays that
    of the first request. *)
Theorem line_endings_not_superseded :
  let st1 := snd (Sample.request Sample.linux Sample.crlf_src Sample.cold) in
  let st2 := snd (Sample.request Sample.linux Sample.lf_src st1) in
  Sample.crlf_src <> Sample.lf_src /\
  unit_on_disk Sample.linux (Sample.demo Sample.crlf_src) (st_fs st1) /\
  cache_probe Sample.linux (Sample.demo Sample.lf_src) st1 =
    (Return (Some "/tmp/rustjit_demo/target/release/libdemo.so"), st1) /\
  cargo_runs st2 = cargo_runs st1 /\
  stat (st_fs st2) (src_file Sample.linux (Sample.demo Sample.lf_src)) =
    Some (File Sample.crlf_src).
Proof.
  intros st1 st2. split; [|split; [|split; [|split]]].
  - vm_compute. discriminate.
  - repeat split; vm_compute; reflexivity.
  - vm_compute. reflexivity.
  - vm_compute. reflexivity.
  - vm_compute. reflexivity.
Qed.

(** ** C4: the library after a build *)

Lemma scan_insert_elem (before : list string -> list string -> bool) p l q :
  q ∈ scan_insert before p l <-> q = p \/ q ∈ l.
Proof.
  induction l as [|a l IH]; simpl.
  - rewrite list_elem_of_singleton. split; [auto|]. intros [H|H]; [auto|inversion H].
  - destruct (before p a).
    + now rewrite elem_of_cons.
    + rewrite !elem_of_cons, IH. tauto.
Qed.

(** Putting the entries in scan order loses none and adds none. *)
Lemma scan_sort_elem (before : list string -> list string -> bool) l q :
  q ∈ scan_sort before l <-> q ∈ l.
Proof.
  induction l as [|a l IH]; simpl; [reflexivity|].
  now rewrite scan_insert_elem, elem_of_cons, IH.
Qed.

Lemma rglob_spec (before : list string -> list string -> bool)
    (matches : string -> string -> bool) (fs : gmap (list string) node)
    (dir : list string) (pat : string) (p : list string) :
  p ∈ rglob before matches fs dir pat <->
  is_Some (fs !! p) /\ strictly_below dir p = true /\ matches pat (basename p) = true.
Proof.
  unfold rglob. rewrite scan_sort_elem, list_elem_of_filter, list_elem_of_fmap.
  rewrite andb_True, !Is_true_true. split.
  - intros ((Hb & Hm) & ([q n] & -> & Hin)). simpl in *.
    apply elem_of_map_to_list in Hin. eauto.
  - intros ((n & Hn) & Hb & Hm). split; [auto|].
    exists (p, n). split; [reflexivity|]. now apply elem_of_map_to_list.
Qed.

Lemma startswith_refl s : startswith s s = true.
Proof. induction s as [|c s IH]; simpl; auto. now rewrite Ascii.eqb_refl. Qed.

Lemma str_contains_refl s : str_contains s s = true.
Proof. destruct s; simpl; auto. now rewrite Ascii.eqb_refl, startswith_refl. Qed.

Lemma lib_not_found_msg_names_dir lib dir :
  str_contains dir (lib_not_found_msg lib dir) = true.
Proof.
  unfold lib_not_found_msg. do 3 apply str_contains_app_r. apply str_contains_here.
Qed.

(** A stale cache over a sound workspace and a build that succeeds: the
    request goes on with the search for the library in the state the build
    left. *)
Lemma decorator_built env c pyfunc st out err fs' :
  workspace_sound env c (st_fs st) = true ->
  stale env c (st_fs st) ->
  spawn env build_cmd (tempdir env c) (written env c (st_fs st)) = Completed 0 out err fs' ->
  decorator env c pyfunc st =
    bind (find_artifact env c) (finish env c pyfunc)
      (State fs' (st_log st ++ write_events env c (st_fs st) ++ [run_event env c])).
Proof.
  intros Hws Hstale Hsp.
  rewrite (decorator_rebuilds _ _ _ _ Hws Hstale). unfold build_and_bind.
  erewrite bind_Return by (eapply cargo_build_ok; eauto).
  simpl. now rewrite <- app_assoc.
Qed.

(** C4.  After a build that succeeded, the library is taken at the fixed
    path [tempdir/target/release/<platform library name>] when that path
    exists; when it does not, the library is the entry strictly below the
    release directory, its name matching the library name, that the scan
    of the tree meets first, in whatever order the file system lists its
    entries, and the search misses no such entry; when there is none, the
    request fails
    with the artifact-not-found error, whose message holds the directory
    searched, in the state the build left: the toolchain has been started
    once and is not started again. *)
Theorem artifact_resolution (env : Env) (c : closure) (pyfunc : pyfunction) (st : state)
    (out err : string) (fs' : gmap (list string) node) :
  workspace_sound env c (st_fs st) = true ->
  stale env c (st_fs st) ->
  spawn env build_cmd (tempdir env c) (written env c (st_fs st)) = Completed 0 out err fs' ->
  let built := State fs' (st_log st ++ write_events env c (st_fs st) ++ [run_event env c]) in
  let msg := lib_not_found_msg (libname env c) (fspath env (target_dir env c)) in
  candidate env c =
    tempdir env c // "target" // "release" // _platform_libname (platform env) (crate_name c) /\
  (path_exists fs' (candidate env c) = true ->
   decorator env c pyfunc st = finish env c pyfunc (fspath env (candidate env c)) built) /\
  (path_exists fs' (candidate env c) = false ->
   forall first rest,
     rglob (scan_before env fs') (fnmatch env) fs'
            (target_dir env c) (libname env c) = first :: rest ->
     decorator env c pyfunc st = finish env c pyfunc (fspath env first) built /\
     is_Some (fs' !! first) /\
     strictly_below (target_dir env c) first = true /\
     fnmatch env (libname env c) (basename first) = true) /\
  (forall p, is_Some (fs' !! p) ->
             strictly_below (target_dir env c) p = true ->
             fnmatch env (libname env c) (basename p) = true ->
             rglob (scan_before env fs') (fnmatch env) fs'
                    (target_dir env c) (libname env c) <> []) /\
  (path_exists fs' (candidate env c) = false ->
   rglob (scan_before env fs') (fnmatch env) fs'
          (target_dir env c) (libname env c) = [] ->
   decorator env c pyfunc st = (Throw (Exn (RuntimeError msg)), built) /\
   str_contains (fspath env (target_dir env c)) msg = true /\
   cargo_runs built = S (cargo_runs st)).
Proof.
  intros Hws Hstale Hsp built msg.
  pose proof (decorator_built env c pyfunc st out err fs' Hws Hstale Hsp) as Hdec.
  fold built in Hdec.
  assert (Hfind := find_artifact_spec env c built). simpl in Hfind.
  split; [reflexivity|]. split; [|split; [|split]].
  - intros Hex. rewrite Hex in Hfind. rewrite Hdec. now apply bind_Return.
  - intros Hex first rest Hrg. rewrite Hex, Hrg in Hfind. split.
    + rewrite Hdec. now apply bind_Return.
    + apply (rglob_spec (scan_before env fs') (fnmatch env) fs' (target_dir env c)
               (libname env c) first).
      rewrite Hrg. apply list_elem_of_here.
  - intros p Hp Hb Hm Hnil.
    assert (Hin : p ∈ rglob (scan_before env fs') (fnmatch env) fs'
           (target_dir env c) (libname env c)).
    { apply rglob_spec. auto. }
    rewrite Hnil in Hin. inversion Hin.
  - intros Hex Hrg. rewrite Hex, Hrg in Hfind. split; [|split].
    + rewrite Hdec. now apply bind_Throw.
    + apply lib_not_found_msg_names_dir.
    + unfold built, cargo_runs. simpl.
      rewrite !count_events_app, count_run_write_events. simpl. lia.
Qed.

Lemma artifact_resolution_witness :
  fst (decorator Sample.linux_silent (Sample.demo Sample.add_src) Sample.add_py Sample.cold) =
    Throw (Exn (RuntimeError
      "Cannot find the library: libdemo.so (searched under /tmp/rustjit_demo/target/release)")) /\
  fst (decorator Sample.linux_nested (Sample.demo Sample.add_src) Sample.add_py Sample.cold) =
    fst (finish Sample.linux_nested (Sample.demo Sample.add_src) Sample.add_py
           "/tmp/rustjit_demo/target/release/deps/libdemo.so"
           (snd (decorator Sample.linux_nested (Sample.demo Sample.add_src) Sample.add_py
                   Sample.cold))) /\
  fst (decorator Sample.linux_deep (Sample.demo Sample.add_src) Sample.add_py Sample.cold) =
    Return (Bound "add_i32" None "/tmp/rustjit_demo/target/release/deps/libdemo.so"
                  "add_i32" 1 [c_int; c_int] c_int).
Proof.
  split; [|split].
  - assert (H := artifact_resolution Sample.linux_silent (Sample.demo Sample.add_src)
                   Sample.add_py Sample.cold "" ""
                   (Sample.with_release ["tmp"; "rustjit_demo"]
                      (written Sample.linux_silent (Sample.demo Sample.add_src)
                         (st_fs Sample.cold)))).
    destruct H as (_ & _ & _ & _ & H).
    + vm_compute. reflexivity.
    + left. vm_compute. reflexivity.
    + reflexivity.
    + destruct H as (H & _ & _).
      * vm_compute. reflexivity.
      * vm_compute. reflexivity.
      * rewrite H. reflexivity.
  - assert (H := artifact_resolution Sample.linux_nested (Sample.demo Sample.add_src)
                   Sample.add_py Sample.cold "" "   Compiling demo v0.1.0"
                   (<[ ["tmp"; "rustjit_demo"; "target"; "release"; "deps"; "libdemo.so"]
                       := File "ELF" ]>
                      (<[ ["tmp"; "rustjit_demo"; "target"; "release"; "deps"] := Dir ]>
                         (Sample.with_release ["tmp"; "rustjit_demo"]
                            (written Sample.linux_nested (Sample.demo Sample.add_src)
                               (st_fs Sample.cold)))))).
    destruct H as (_ & _ & H & _).
    + vm_compute. reflexivity.
    + left. vm_compute. reflexivity.
    + reflexivity.
    + destruct (H eq_refl ["tmp"; "rustjit_demo"; "target"; "release"; "deps"; "libdemo.so"] [])
        as (Hdec & _).
      * vm_compute. reflexivity.
      * rewrite Hdec. vm_compute. reflexivity.
  - assert (H := artifact_resolution Sample.linux_deep (Sample.demo Sample.add_src)
                   Sample.add_py Sample.cold "" "   Compiling demo v0.1.0"
                   (<[ ["tmp"; "rustjit_demo"; "target"; "release"; "deps"; "z"; "libdemo.so"]
                       := File "ELF-z" ]>
                      (<[ ["tmp"; "rustjit_demo"; "target"; "release"; "deps"; "z"] := Dir ]>
                         (<[ ["tmp"; "rustjit_demo"; "target"; "release"; "deps"; "libdemo.so"]
                             := File "ELF" ]>
                            (<[ ["tmp"; "rustjit_demo"; "target"; "release"; "deps"] := Dir ]>
                               (Sample.with_release ["tmp"; "rustjit_demo"]
                                  (written Sample.linux_deep (Sample.demo Sample.add_src)
                                     (st_fs Sample.cold)))))))).
    destruct H as (_ & _ & H & _).
    + vm_compute. reflexivity.
    + left. vm_compute. reflexivity.
    + reflexivity.
    + destruct (H eq_refl ["tmp"; "rustjit_demo"; "target"; "release"; "deps"; "libdemo.so"]
                  [["tmp"; "rustjit_demo"; "target"; "release"; "deps"; "z"; "libdemo.so"]])
        as (Hdec & _).
      * vm_compute. reflexivity.
      * rewrite Hdec. vm_compute. reflexivity.
Defined.

(** ** C6: a failed build *)

Lemma decode_ignore_wellformed_aux n : forall s,
  (String.length s <= n)%nat -> Utf8.valid (Utf8.decode_ignore s) = true.
Proof.
  induction n as [|n IH]; intros [|c1 r1] Hlen; simpl in Hlen; try lia; auto.
  cbn [Utf8.decode_ignore].
  destruct (N.ltb (byte_of c1) 128) eqn:E1.
  { cbn [Utf8.valid]. rewrite E1. apply IH. lia. }
  destruct (N.ltb (byte_of c1) 194) eqn:E2; [apply IH; lia|].
  destruct (N.ltb (byte_of c1) 224) eqn:E3.
  { destruct r1 as [|c2 r2]; [reflexivity|]. simpl in Hlen.
    destruct (Utf8.is_cont (byte_of c2)) eqn:H2.
    - cbn [Utf8.valid]. rewrite E1, E2, E3, H2. apply IH. lia.
    - apply IH. simpl. lia. }
  destruct (N.ltb (byte_of c1) 240) eqn:E4.
  { destruct r1 as [|c2 r2]; [reflexivity|]. simpl in Hlen.
    destruct (Utf8.second_of_3 (byte_of c1) (byte_of c2)) eqn:H2; [|apply IH; simpl; lia].
    destruct r2 as [|c3 r3]; [reflexivity|]. simpl in Hlen.
    destruct (Utf8.is_cont (byte_of c3)) eqn:H3.
    - cbn [Utf8.valid]. rewrite E1, E2, E3, E4, H2, H3. apply IH. lia.
    - apply IH. simpl. lia. }
  destruct (N.ltb (byte_of c1) 245) eqn:E5; [|apply IH; lia].
  destruct r1 as [|c2 r2]; [reflexivity|]. simpl in Hlen.
  destruct (Utf8.second_of_4 (byte_of c1) (byte_of c2)) eqn:H2; [|apply IH; simpl; lia].
  destruct r2 as [|c3 r3]; [reflexivity|]. simpl in Hlen.
  destruct (Utf8.is_cont (byte_of c3)) eqn:H3; [|apply IH; simpl; lia].
  destruct r3 as [|c4 r4]; [reflexivity|]. simpl in Hlen.
  destruct (Utf8.is_cont (byte_of c4)) eqn:H4.
  - cbn [Utf8.valid]. rewrite E1, E2, E3, E4, E5, H2, H3, H4. apply IH. lia.
  - apply IH. simpl. lia.
Qed.

(** What is kept of the captured output always is well-formed UTF-8. *)
Lemma captured_wellformed s : Utf8.valid (captured s) = true.
Proof.
  destruct s; [reflexivity|].
  apply (decode_ignore_wellformed_aux (String.length (String a s))). lia.
Qed.

Lemma compile_failed_msg_holds_out out err :
  str_contains out (compile_failed_msg out err) = true.
Proof.
  unfold compile_failed_msg. do 4 apply str_contains_app_r. apply str_contains_here.
Qed.

Lemma compile_failed_msg_holds_err out err :
  str_contains err (compile_failed_msg out err) = true.
Proof.
  unfold compile_failed_msg. do 8 apply str_contains_app_r. apply str_contains_refl.
Qed.

(** C6 (as amended).  Whenever the toolchain process exits with a non-zero
    status the build step raises the compilation-failed error, and so does
    the request that reached the build; the message holds the captured
    standard output and standard error as decoded with [errors='ignore']:
    bytes that are not well-formed UTF-8 are dropped, and output that is
    well-formed UTF-8 is there verbatim. *)
Theorem compilation_failure_surfaces (env : Env) (c : closure) (pyfunc : pyfunction)
    (st : state) (rc : Z) (out err : string) (fs' : gmap (list string) node) :
  rc <> 0%Z ->
  let msg := compile_failed_msg (captured out) (captured err) in
  (spawn env build_cmd (tempdir env c) (st_fs st) = Completed rc out err fs' ->
   cargo_build env c st =
     (Throw (Exn (RuntimeError msg)), State fs' (st_log st ++ [run_event env c]))) /\
  (workspace_sound env c (st_fs st) = true ->
   stale env c (st_fs st) ->
   spawn env build_cmd (tempdir env c) (written env c (st_fs st)) = Completed rc out err fs' ->
   decorator env c pyfunc st =
     (Throw (Exn (RuntimeError msg)),
      State fs' (st_log st ++ write_events env c (st_fs st) ++ [run_event env c]))) /\
  str_contains (captured out) msg = true /\
  str_contains (captured err) msg = true /\
  Utf8.valid (captured out) = true /\
  Utf8.valid (captured err) = true /\
  (Utf8.valid out = true -> captured out = out) /\
  (Utf8.valid err = true -> captured err = err).
Proof.
  intros Hrc msg. split; [|split; [|split; [|split; [|split; [|split; [|split]]]]]].
  - intros Hsp. now apply cargo_build_failed with (rc := rc).
  - intros Hws Hstale Hsp.
    rewrite (decorator_rebuilds _ _ _ _ Hws Hstale). unfold build_and_bind.
    pose proof (cargo_build_failed env c
                  (State (written env c (st_fs st)) (st_log st ++ write_events env c (st_fs st)))
                  rc out err fs' Hsp Hrc) as Hb.
    rewrite (bind_Throw _ _ _ _ _ Hb). simpl. now rewrite <- app_assoc.
  - apply compile_failed_msg_holds_out.
  - apply compile_failed_msg_holds_err.
  - apply captured_wellformed.
  - apply captured_wellformed.
  - apply captured_valid.
  - apply captured_valid.
Qed.

Lemma compilation_failure_surfaces_witness :
  fst (decorator Sample.linux_failing (Sample.demo Sample.add_src) Sample.add_py Sample.cold) =
    Throw (Exn (RuntimeError (compile_failed_msg "" "error: caf"))).
Proof.
  assert (H := compilation_failure_surfaces Sample.linux_failing (Sample.demo Sample.add_src)
                 Sample.add_py Sample.cold 101 "" Sample.latin1_error
                 (written Sample.linux_failing (Sample.demo Sample.add_src)
                    (st_fs Sample.cold))).
  destruct H as (_ & H & _).
  - discriminate.
  - rewrite H.
    + reflexivity.
    + vm_compute. reflexivity.
    + left. vm_compute. reflexivity.
    + reflexivity.
Defined.

(** C6 as stated fails: the toolchain exits with status 101 and Latin-1
    text on its standard error; the request fails with the
    compilation-failed error, and the message does not hold the captured
    standard error: its last byte is missing. *)
Lemma verbatim_counterexample :
  spawn Sample.linux_failing build_cmd ["tmp"; "rustjit_demo"]
        (written Sample.linux_failing (Sample.demo Sample.add_src) (st_fs Sample.cold)) =
    Completed 101 "" Sample.latin1_error
      (written Sample.linux_failing (Sample.demo Sample.add_src) (st_fs Sample.cold)) /\
  fst (Sample.request Sample.linux_failing Sample.add_src Sample.cold) =
    Throw (Exn (RuntimeError (compile_failed_msg "" "error: caf"))) /\
  str_contains Sample.latin1_error (compile_failed_msg "" "error: caf") = false.
Proof. repeat split; vm_compute; reflexivity. Qed.

(** ** C3: the library on a cache hit *)

(** C3 does not hold of the code.  The toolchain leaves the library one
    level below the release directory; the first request finds it there by
    the recursive search.  On the second request the cached source reads
    back as the requested text and the recursive search would find the
    library again, yet the cache probe looks at the fixed release path
    alone and answers REBUILD: the toolchain is started a second time. *)
Theorem nested_layout_not_reused :
  let c := Sample.demo Sample.add_src in
  let first := Sample.request Sample.linux_nested Sample.add_src Sample.cold in
  let st1 := snd first in
  fmap w_source_lib (match fst first with Return b => Some b | Throw _ => None end) =
    Some "/tmp/rustjit_demo/target/release/deps/libdemo.so" /\
  read_text (st_fs st1) (src_file Sample.linux_nested c) = Ok Sample.add_src /\
  path_exists (st_fs st1) (candidate Sample.linux_nested c) = false /\
  rglob (scan_before Sample.linux_nested (st_fs st1)) (fnmatch Sample.linux_nested) (st_fs st1)
        (target_dir Sample.linux_nested c)
        (libname Sample.linux_nested c) =
    [["tmp"; "rustjit_demo"; "target"; "release"; "deps"; "libdemo.so"]] /\
  cache_probe Sample.linux_nested c st1 = (Return None, st1) /\
  cargo_runs st1 = 1%nat /\
  cargo_runs (snd (Sample.request Sample.linux_nested Sample.add_src st1)) = 2%nat.
Proof. repeat split; vm_compute; reflexivity. Qed.

(** ** The sample of [test.py] *)

(** The first case of [test.py], in the sample world: the source is bound
    from a cold cache and the bound function is called with [10] and [23]. *)
Example add_i32_bound_and_called :
  match Sample.request Sample.linux Sample.add_src Sample.cold with
  | (Return w, st) => fst (wrapper Sample.linux w [PyInt 10; PyInt 23] [] st)
  | (Throw s, _) => Throw s
  end = Return (PyInt 33).
Proof. vm_compute. reflexivity. Qed.

(** ** Witnesses for C5, C7 and C9 *)

Lemma toolchain_missing_before_workspace_witness :
  Sample.request Sample.linux_bare Sample.add_src Sample.cold =
    (Throw (Exn (RuntimeError cargo_missing_msg)),
     State (st_fs Sample.cold) [EvWhich "cargo"]).
Proof.
  apply (proj1 (toolchain_missing_before_workspace Sample.linux_bare Sample.add_src "add_i32"
                  [c_int; c_int] c_int (Some "demo") None Sample.add_py Sample.cold)).
  reflexivity.
Defined.

Lemma hash_src_fingerprint_witness :
  _hash_src Sample.add_src = "af713cdb3793" /\
  _hash_src Sample.sub_src = "2928c7a71aa7" /\
  crate_name (Sample.demo Sample.add_src) = "demo" /\
  crate_name (request_closure Sample.add_src "add_i32" [c_int; c_int] c_int None None) =
    "rustjit_af713cdb3793" /\
  crate_name (request_closure Sample.sub_src "add_i32" [c_int; c_int] c_int (Some "") None) =
    "rustjit_2928c7a71aa7".
Proof.
  destruct (hash_src_fingerprint Sample.add_src)
    as (_ & _ & _ & _ & _ & (_ & _ & Hadd & Hsub & _) & _ & Hname).
  destruct (hash_src_fingerprint Sample.sub_src) as (_ & _ & _ & _ & _ & _ & _ & Hname').
  split; [exact Hadd|]. split; [exact Hsub|]. split; [|split].
  - apply (Hname Sample.linux "add_i32" [c_int; c_int] c_int (Some "demo") None Sample.cold
             (Sample.demo Sample.add_src) (State (st_fs Sample.cold) [EvWhich "cargo"])).
    reflexivity.
  - rewrite (Hname Sample.linux "add_i32" [c_int; c_int] c_int None None Sample.cold
               (request_closure Sample.add_src "add_i32" [c_int; c_int] c_int None None)
               (State (st_fs Sample.cold) [EvWhich "cargo"]) eq_refl).
    now rewrite Hadd.
  - rewrite (Hname' Sample.linux "add_i32" [c_int; c_int] c_int (Some "") None Sample.cold
               (request_closure Sample.sub_src "add_i32" [c_int; c_int] c_int (Some "") None)
               (State (st_fs Sample.cold) [EvWhich "cargo"]) eq_refl).
    now rewrite Hsub.
Defined.

Lemma wrapper_rejects_keywords_witness :
  let w := Bound "add_i32" None "/tmp/rustjit_demo/target/release/libdemo.so" "add_i32" 1
                 [c_int; c_int] c_int in
  wrapper Sample.linux w [PyInt 10] [("b", PyInt 23)] Sample.cold =
    (Throw (Exn (TypeError "Unsupported")), Sample.cold) /\
  fst (wrapper Sample.linux w [PyInt 10; PyInt 23] [] Sample.cold) = Return (PyInt 33).
Proof.
  intros w. split.
  - apply (proj1 (wrapper_rejects_keywords Sample.linux w [PyInt 10] [("b", PyInt 23)]
                    Sample.cold)).
    discriminate.
  - rewrite (proj2 (proj2 (wrapper_rejects_keywords Sample.linux w [PyInt 10; PyInt 23] []
                             Sample.cold) eq_refl)).
    reflexivity.
Defined.

(* ===================================================================== *)
(** * Further properties of the code *)
(* ===================================================================== *)

(** ** Strings and text *)

Lemma append_empty_l s : String.append EmptyString s = s.
Proof. reflexivity. Qed.

Lemma append_cons c a b : String.append (String c a) b = String c (String.append a b).
Proof. reflexivity. Qed.

Lemma append_length a b :
  String.length (a +:+ b) = (String.length a + String.length b)%nat.
Proof. induction a as [|c a IH]; [reflexivity|]. rewrite append_cons. simpl. now rewrite IH. Qed.

Lemma append_inv_head p a b : p +:+ a = p +:+ b -> a = b.
Proof.
  induction p as [|c p IH]; [now rewrite !append_empty_l|].
  rewrite !append_cons. intros H. injection H. exact IH.
Qed.

Lemma append_inv_tail s : forall a b, a +:+ s = b +:+ s -> a = b.
Proof.
  induction a as [|x a IH]; intros [|y b] H.
  - reflexivity.
  - apply (f_equal String.length) in H. rewrite !append_length in H. simpl in H. lia.
  - apply (f_equal String.length) in H. rewrite !append_length in H. simpl in H. lia.
  - rewrite !append_cons in H. injection H as -> H. f_equal. now apply IH.
Qed.

Lemma str_all_app P a b : str_all P (a +:+ b) = str_all P a && str_all P b.
Proof.
  induction a as [|c a IH]; [reflexivity|].
  rewrite append_cons. simpl. now rewrite IH, andb_assoc.
Qed.

Lemma str_all_impl (P Q : ascii -> bool) s :
  (forall c, P c = true -> Q c = true) -> str_all P s = true -> str_all Q s = true.
Proof.
  intros HPQ. induction s as [|c s IH]; simpl; auto.
  intros H. apply andb_true_iff in H as [Hc Hs]. apply andb_true_iff. auto.
Qed.

Lemma universal_newlines_no_cr_aux n : forall s,
  (String.length s <= n)%nat -> no_cr (universal_newlines s) = true.
Proof.
  unfold no_cr.
  induction n as [|n IH]; intros [|c r] Hlen; simpl in Hlen; try lia; auto.
  cbn [universal_newlines]. destruct (is_CR c) eqn:E; cbn [str_all].
  - change (is_CR LF) with false. cbn [negb andb].
    destruct r as [|c' r']; [reflexivity|]. simpl in Hlen.
    destruct (is_LF c'); apply IH; simpl; lia.
  - rewrite E. cbn [negb andb]. apply IH. lia.
Qed.

(** Text read in text mode holds no carriage return. *)
Lemma universal_newlines_no_cr s : no_cr (universal_newlines s) = true.
Proof. apply (universal_newlines_no_cr_aux (String.length s)). lia. Qed.

Lemma read_text_no_cr fs p t : read_text fs p = Ok t -> no_cr t = true.
Proof.
  unfold read_text. destruct (stat fs p) as [[data|]|]; try discriminate.
  destruct (Utf8.valid data); [|discriminate].
  intros H. inversion H. apply universal_newlines_no_cr.
Qed.

Lemma write_text_result plat fs p text fs' :
  write_text plat fs p text = Ok fs' ->
  fs' = <[p := File (to_disk plat text)]> fs /\ p <> [].
Proof.
  unfold write_text. destruct p as [|a p].
  - simpl. discriminate.
  - destruct (stat fs (a :: p)) as [[|]|]; destruct (stat fs (parent (a :: p))) as [[|]|];
      intros H; inversion H; split; auto; discriminate.
Qed.

(** ** Directories *)

Lemma path_mkdir_is_dir fuel : forall ps eo fs p fs',
  path_mkdir fuel ps eo fs p = Ok fs' -> is_dir fs' p = true.
Proof.
  assert (Hmk : forall fs p fs', os_mkdir fs p = Ok fs' -> is_dir fs' p = true).
  { intros fs p fs' H. pose proof (os_mkdir_inv _ _ _ H) as ->.
    unfold is_dir. rewrite stat_insert_eq; [reflexivity|].
    intros ->. unfold os_mkdir in H. simpl in H. discriminate. }
  assert (Hok : forall eo fs p e fs',
             (if negb eo || negb (is_dir fs p) then Raise e else Ok fs) = Ok fs' ->
             is_dir fs' p = true).
  { intros eo fs p e fs' H. destruct (negb eo); simpl in H; [discriminate|].
    destruct (is_dir fs p) eqn:E; simpl in H; [|discriminate]. now inversion H; subst. }
  induction fuel as [|f IH]; intros ps eo fs p fs' H; simpl in H.
  - destruct (os_mkdir fs p) as [fs1|e] eqn:E.
    + inversion H; subst. eauto.
    + destruct e; try (eapply Hok; eassumption).
      destruct (negb ps || bool_decide (parent p = p)); discriminate.
  - destruct (os_mkdir fs p) as [fs1|e] eqn:E.
    + inversion H; subst. eauto.
    + destruct e; try (eapply Hok; eassumption).
      destruct (negb ps || bool_decide (parent p = p)); [discriminate|].
      destruct (path_mkdir f true true fs (parent p)) as [fs1|e1]; [|discriminate].
      eapply IH; eassumption.
Qed.

(** ** Counting toolchain runs *)

Lemma emits_impl {A} (P Q : event -> Prop) (c : M A) :
  (forall e, P e -> Q e) -> emits P c -> emits Q c.
Proof.
  intros HPQ Hc st. destruct (Hc st) as (l & E & F).
  exists l. split; auto. eapply Forall_impl; eauto.
Qed.

Lemma adds_runs_bind {A B} n m (c : M A) (k : A -> M B) :
  adds_runs n c -> (forall a, adds_runs m (k a)) -> adds_runs (n + m) (bind c k).
Proof.
  intros Hc Hk st. unfold bind. specialize (Hc st).
  destruct (c st) as [[a|s] st1]; simpl in *.
  - specialize (Hk a st1). lia.
  - lia.
Qed.

Lemma adds_runs_silent {A} (c : M A) :
  emits (fun e => is_run e = false) c -> adds_runs 0 c.
Proof.
  intros Hc st. destruct (Hc st) as (l & E & F). unfold cargo_runs.
  rewrite E, count_events_app, (count_events_none _ _ F). lia.
Qed.

Lemma adds_runs_weaken {A} n m (c : M A) : (n <= m)%nat -> adds_runs n c -> adds_runs m c.
Proof. intros Hnm Hc st. specialize (Hc st). lia. Qed.

Lemma silent_ensure_tempdir env c P :
  P (EvMkdir (tempdir env c)) -> emits P (ensure_tempdir env c).
Proof.
  intros HP. unfold ensure_tempdir, m_exists, m_mkdir_parents.
  apply emits_bind; [auto with emits|]. intros [|]; simpl; [auto with emits|].
  apply emits_bind; [now apply emits_emit | auto with emits].
Qed.

Lemma silent_write_workspace env c :
  emits (fun e => is_workspace_write e = true) (write_workspace env c).
Proof.
  unfold write_workspace, m_mkdir_exist_ok, m_write_text.
  repeat emits_step; reflexivity.
Qed.

Lemma silent_finish env c pyfunc lib_path P :
  P (EvLoad lib_path) -> emits P (finish env c pyfunc lib_path).
Proof.
  intros HP st. exists [EvLoad lib_path]. rewrite finish_state. simpl. auto.
Qed.

Lemma adds_runs_cargo_build env c : adds_runs 1 (cargo_build env c).
Proof.
  intros st. unfold cargo_runs. rewrite cargo_build_log, count_events_app. simpl. lia.
Qed.

Lemma adds_runs_decorator env c pyfunc : adds_runs 1 (decorator env c pyfunc).
Proof.
  unfold decorator.
  apply (adds_runs_bind 0 1); [apply adds_runs_silent, silent_ensure_tempdir; reflexivity|].
  intros _. apply (adds_runs_bind 0 1); [apply adds_runs_silent, emits_cache_probe|].
  intros hit. apply (adds_runs_bind 1 0).
  - destruct hit; [apply (adds_runs_weaken 0); [lia|]; apply adds_runs_silent, emits_ret|].
    unfold rebuild. apply (adds_runs_bind 0 1).
    { apply adds_runs_silent. eapply emits_impl; [|apply silent_write_workspace].
      intros [] H; simpl in *; congruence. }
    intros _. apply (adds_runs_bind 1 0); [apply adds_runs_cargo_build|].
    intros _. apply adds_runs_silent, emits_find_artifact.
  - intros lib. apply adds_runs_silent, silent_finish. reflexivity.
Qed.

(** ** The steps of a request *)

Lemma ensure_tempdir_present env c st :
  path_exists (st_fs st) (tempdir env c) = true ->
  ensure_tempdir env c st = (Return tt, st).
Proof.
  intros H. unfold ensure_tempdir, m_exists, query_fs, bind, ret. simpl. now rewrite H.
Qed.

Lemma decorator_after_ensure env c pyfunc st st1 :
  ensure_tempdir env c st = (Return tt, st1) ->
  decorator env c pyfunc st =
    match probe_outcome env c (st_fs st1) with
    | Return (Some lib_path) => finish env c pyfunc lib_path st1
    | Return None => bind (rebuild env c) (finish env c pyfunc) st1
    | Throw s => (Throw s, st1)
    end.
Proof.
  intros He. unfold decorator. erewrite bind_Return by exact He.
  unfold bind at 1. rewrite cache_probe_spec.
  destruct (probe_outcome env c (st_fs st1)) as [[lib|]|s]; reflexivity.
Qed.

Lemma decorator_ensure_fails env c pyfunc st s st1 :
  ensure_tempdir env c st = (Throw s, st1) -> decorator env c pyfunc st = (Throw s, st1).
Proof. intros He. unfold decorator. now apply bind_Throw. Qed.

Lemma write_workspace_runs env c st :
  cargo_runs (snd (write_workspace env c st)) = cargo_runs st.
Proof.
  destruct (silent_write_workspace env c st) as (l & E & F). unfold cargo_runs.
  rewrite E, count_events_app, (count_events_none is_run l); [lia|].
  eapply Forall_impl; [exact F|]. intros [] H; simpl in *; congruence.
Qed.

(** A rebuild that ends in a bound function has started the toolchain
    exactly once. *)
Lemma rebuild_returns_runs env c pyfunc st w st' :
  bind (rebuild env c) (finish env c pyfunc) st = (Return w, st') ->
  cargo_runs st' = S (cargo_runs st).
Proof.
  unfold rebuild. rewrite bind_assoc. intros H.
  pose proof (write_workspace_runs env c st) as Hw.
  unfold bind at 1 in H.
  destruct (write_workspace env c st) as [[[]|s] st2]; [|discriminate].
  simpl in Hw. rewrite bind_assoc in H.
  change (build_and_bind env c pyfunc st2 = (Return w, st')) in H.
  pose proof (build_and_bind_runs env c pyfunc st2) as Hb.
  rewrite H in Hb. simpl in Hb. lia.
Qed.

Lemma probe_outcome_reuse_path env c fs lib_path :
  probe_outcome env c fs = Return (Some lib_path) -> lib_path = fspath env (candidate env c).
Proof.
  unfold probe_outcome.
  destruct (stat fs (src_file env c)); [|discriminate].
  destruct (read_text fs (src_file env c)) as [t|e]; [|discriminate].
  destruct (String.eqb t (rust_src c) && path_exists fs (candidate env c));
    intros H; inversion H; reflexivity.
Qed.

Lemma decorator_event_no_call env c l :
  Forall (decorator_event env c) l -> count_events is_call l = 0%nat.
Proof.
  intros H. apply count_events_none. eapply Forall_impl; [exact H|].
  intros [] He; simpl in *; auto; contradiction.
Qed.

(** ** At most one toolchain run per request *)

(** In every environment and from every state, one request starts the
    toolchain at most once and calls no native function, and it only adds
    to the log. *)
Theorem request_starts_toolchain_at_most_once (env : Env) (src fn : string)
    (at_ : list ctype) (rt : ctype) (cn : option string) (extra : option (list string))
    (pyfunc : pyfunction) (st : state) :
  (cargo_runs (snd (jit env src fn at_ rt cn extra pyfunc st)) <= S (cargo_runs st))%nat /\
  count_events is_call (st_log (snd (jit env src fn at_ rt cn extra pyfunc st))) =
    count_events is_call (st_log st) /\
  exists l, st_log (snd (jit env src fn at_ rt cn extra pyfunc st)) = (st_log st ++ l)%list.
Proof.
  split; [|split].
  - unfold jit. destruct (which env "cargo") as [w|] eqn:Hw.
    + erewrite bind_Return by (eapply rust_jit_present; eauto).
      pose proof (adds_runs_decorator env (request_closure src fn at_ rt cn extra) pyfunc
                    (State (st_fs st) (st_log st ++ [EvWhich "cargo"]))) as H.
      unfold cargo_runs in *. simpl in H. rewrite count_events_app in H. simpl in H. lia.
    + erewrite bind_Throw by (eapply rust_jit_missing; eauto).
      unfold cargo_runs. simpl. rewrite count_events_app. simpl. lia.
  - destruct (jit_log env src fn at_ rt cn extra pyfunc st) as (l & E & F).
    rewrite E, count_events_app. simpl.
    rewrite (decorator_event_no_call _ _ _ F). lia.
  - destruct (jit_log env src fn at_ rt cn extra pyfunc st) as (l & E & F). eauto.
Qed.

(** ** Carriage returns *)

(** A source text that holds a carriage return is never a cache hit: in
    every state the probe does not answer REUSE, so every request for it
    that ends in a bound function has started the toolchain. *)
Theorem carriage_return_defeats_cache (env : Env) (c : closure) (pyfunc : pyfunction)
    (st : state) :
  no_cr (rust_src c) = false ->
  ~ fresh env c (st_fs st) /\
  (forall lib_path, cache_probe env c st <> (Return (Some lib_path), st)) /\
  (forall w st', decorator env c pyfunc st = (Return w, st') ->
                 cargo_runs st' = S (cargo_runs st)).
Proof.
  intros Hcr.
  assert (Hnot : forall fs, ~ fresh env c fs).
  { intros fs [Hr _]. apply read_text_no_cr in Hr. congruence. }
  split; [apply Hnot|]. split.
  - intros lib H. rewrite cache_probe_spec in H.
    apply (Hnot (st_fs st)). apply probe_outcome_reuse with (lib_path := lib).
    now inversion H.
  - intros w st' H.
    destruct (ensure_tempdir env c st) as [[[]|s] st1] eqn:He.
    + destruct (ensure_tempdir_frame _ _ _ _ _ He) as [_ Hruns].
      rewrite (decorator_after_ensure _ _ _ _ _ He) in H.
      destruct (probe_outcome env c (st_fs st1)) as [[lib|]|s] eqn:Hp.
      * exfalso. apply (Hnot (st_fs st1)). eapply probe_outcome_reuse; eauto.
      * apply rebuild_returns_runs in H. unfold cargo_runs in *. lia.
      * discriminate.
    + rewrite (decorator_ensure_fails _ _ _ _ _ _ He) in H. discriminate.
Qed.

Lemma carriage_return_defeats_cache_witness :
  let warm := snd (decorator Sample.linux (Sample.demo Sample.crlf_src) Sample.add_py
                     Sample.cold) in
  cargo_runs warm = 1%nat /\
  cargo_runs (snd (decorator Sample.linux (Sample.demo Sample.crlf_src) Sample.add_py warm)) =
    S (cargo_runs warm).
Proof.
  intros warm. split; [vm_compute; reflexivity|].
  pose proof (carriage_return_defeats_cache Sample.linux (Sample.demo Sample.crlf_src)
                Sample.add_py warm) as H.
  destruct H as (_ & _ & H); [vm_compute; reflexivity|].
  apply (H (Bound "add_i32" None "/tmp/rustjit_demo/target/release/libdemo.so" "add_i32" 1
              [c_int; c_int] c_int)).
  vm_compute. reflexivity.
Defined.

(** What [write_text] stored reads back with [read_text], and it reads
    back as the very text that was written exactly when that text holds no
    carriage return, on every platform. *)
Theorem cached_text_reads_back (plat : string) (fs : gmap (list string) node)
    (p : list string) (text : string) (fs' : gmap (list string) node) :
  write_text plat fs p text = Ok fs' ->
  Utf8.valid text = true ->
  read_text fs' p = Ok (universal_newlines (to_disk plat text)) /\
  (read_text fs' p = Ok text <-> no_cr text = true).
Proof.
  intros Hw Hv. apply write_text_result in Hw as [-> Hp].
  assert (Hs : stat (<[p := File (to_disk plat text)]> fs) p =
               Some (File (to_disk plat text))) by now apply stat_insert_eq.
  split.
  - unfold read_text. now rewrite Hs, valid_to_disk.
  - split.
    + apply read_text_no_cr.
    + intros Hcr. now apply read_text_written with (plat := plat).
Qed.

Lemma cached_text_reads_back_witness :
  let fs := st_fs Sample.cold in
  read_text (<[ ["tmp"; "lib.rs"] := File (to_disk "win32" Sample.lf_src) ]> fs)
            ["tmp"; "lib.rs"] = Ok Sample.lf_src /\
  read_text (<[ ["tmp"; "lib.rs"] := File (to_disk "linux" Sample.crlf_src) ]> fs)
            ["tmp"; "lib.rs"] = Ok Sample.lf_src.
Proof.
  intros fs. split.
  - apply (proj2 (cached_text_reads_back "win32" fs ["tmp"; "lib.rs"] Sample.lf_src _
                    eq_refl eq_refl)).
    vm_compute. reflexivity.
  - rewrite (proj1 (cached_text_reads_back "linux" fs ["tmp"; "lib.rs"] Sample.crlf_src _
                      eq_refl eq_refl)).
    vm_compute. reflexivity.
Defined.

(** ** The workspace directory *)

(** When lines 47-48 go through, the workspace path is a directory, unless
    a file already sat there, which the test on line 47 takes for the
    workspace and leaves alone; nothing below the workspace directory is
    touched, and the log grows by the one [mkdir] when the path was missing. *)
Theorem workspace_directory_ensured (env : Env) (c : closure) (st st' : state) :
  ensure_tempdir env c st = (Return tt, st') ->
  (is_dir (st_fs st') (tempdir env c) = true \/
   exists data, stat (st_fs st) (tempdir env c) = Some (File data) /\ st' = st) /\
  (forall q, (length (tempdir env c) < length q)%nat ->
             stat (st_fs st') q = stat (st_fs st) q) /\
  st_log st' =
    (st_log st ++
     if path_exists (st_fs st) (tempdir env c) then [] else [EvMkdir (tempdir env c)])%list.
Proof.
  intros He. split; [|split].
  - revert He.
    unfold ensure_tempdir, m_exists, m_mkdir_parents, query_fs, update_fs, emit, bind, ret.
    unfold path_exists, is_dir.
    destruct (stat (st_fs st) (tempdir env c)) as [[data|]|] eqn:Hs; simpl.
    + intros H. inversion H; subst. right. eauto.
    + intros H. inversion H; subst. left. now rewrite Hs.
    + destruct (mkdir_parents (st_fs st) (tempdir env c)) as [fs'|e] eqn:Hm;
        intros H; inversion H; subst. simpl. left.
      apply path_mkdir_is_dir in Hm. exact Hm.
  - apply (ensure_tempdir_frame _ _ _ _ _ He).
  - revert He.
    unfold ensure_tempdir, m_exists, m_mkdir_parents, query_fs, update_fs, emit, bind, ret.
    destruct (path_exists (st_fs st) (tempdir env c)); simpl.
    + intros H. inversion H; subst. now rewrite app_nil_r.
    + destruct (mkdir_parents (st_fs st) (tempdir env c)); intros H; inversion H; reflexivity.
Qed.

Lemma workspace_directory_ensured_witness :
  is_dir (st_fs (snd (ensure_tempdir TestPy.linux TestPy.add_request Sample.cold)))
         (tempdir TestPy.linux TestPy.add_request) = true.
Proof.
  destruct (workspace_directory_ensured TestPy.linux TestPy.add_request Sample.cold
              (snd (ensure_tempdir TestPy.linux TestPy.add_request Sample.cold)))
    as ([H | (data & Hf & _)] & _ & _).
  - vm_compute. reflexivity.
  - exact H.
  - vm_compute in Hf. discriminate.
Defined.



(** ** A cache that cannot be read *)



(** ** Binding *)

Lemma finish_cases env c pyfunc lib_path st :
  finish env c pyfunc lib_path st =
    (match dlopen env (st_fs st) lib_path with
     | None => Throw (Exn (OSError (dlerror env (st_fs st) lib_path)))
     | Some handle =>
         match instance_attr env (fn_name c) with
         | Some true =>
             Return (Bound (py_name pyfunc) (py_doc pyfunc) lib_path (fn_name c) handle
                           (argtypes c) (restype c))
         | Some false => Throw (AttributeError "argtypes")
         | None =>
             if negb (is_dunder (fn_name c)) && dlsym env handle (fn_name c)
             then Return (Bound (py_name pyfunc) (py_doc pyfunc) lib_path (fn_name c) handle
                                (argtypes c) (restype c))
             else Throw (Exn (RuntimeError (fn_not_found_msg (fn_name c))))
         end
     end,
     State (st_fs st) (st_log st ++ [EvLoad lib_path])).
Proof.
  unfold finish, load_function, CDLL, cdll_getattr, set_signature, try_except, query_fs,
    emit, bind, ret, raise, throw. simpl.
  destruct (dlopen env (st_fs st) lib_path) as [h|]; simpl; auto.
  destruct (instance_attr env (fn_name c)) as [[|]|]; simpl; auto.
  destruct (is_dunder (fn_name c)); simpl; auto.
  destruct (dlsym env h (fn_name c)); simpl; auto.
Qed.

Lemma fn_not_found_msg_names_fn fn : str_contains fn (fn_not_found_msg fn) = true.
Proof. unfold fn_not_found_msg. apply str_contains_app_r, str_contains_here. Qed.

(** On a fresh cache whose workspace directory exists, the request goes
    straight to the loader with the fixed release path: the file system is
    left as it was and the one event logged is the load.  How the request
    ends is settled by the loader and by the attribute lookup of line 102.
    A library that does not load raises [OSError] with the loader's text.
    Once it is loaded: a name that is an attribute of the library object
    itself is never asked of the library, and the request returns the
    bound function when that attribute takes the assignment of line 106
    ([__class__]) and raises an [AttributeError] that nothing catches when
    it does not ([_handle]); any other name that starts and ends with two
    underscores, and any name that the library does not export, raises the
    function-not-found error, whose message holds the name; a name that
    the library exports returns the bound function. *)
Theorem reuse_binds_without_writing (env : Env) (c : closure) (pyfunc : pyfunction)
    (st : state) :
  fresh env c (st_fs st) ->
  path_exists (st_fs st) (tempdir env c) = true ->
  let lib_path := fspath env (candidate env c) in
  let w handle := Bound (py_name pyfunc) (py_doc pyfunc) lib_path (fn_name c) handle
                        (argtypes c) (restype c) in
  snd (decorator env c pyfunc st) = State (st_fs st) (st_log st ++ [EvLoad lib_path]) /\
  (dlopen env (st_fs st) lib_path = None ->
   fst (decorator env c pyfunc st) =
     Throw (Exn (OSError (dlerror env (st_fs st) lib_path)))) /\
  (forall handle,
      dlopen env (st_fs st) lib_path = Some handle ->
      (instance_attr env (fn_name c) = Some true ->
       fst (decorator env c pyfunc st) = Return (w handle)) /\
      (instance_attr env (fn_name c) = Some false ->
       fst (decorator env c pyfunc st) = Throw (AttributeError "argtypes")) /\
      (instance_attr env (fn_name c) = None ->
       is_dunder (fn_name c) = true \/ dlsym env handle (fn_name c) = false ->
       fst (decorator env c pyfunc st) =
         Throw (Exn (RuntimeError (fn_not_found_msg (fn_name c))))) /\
      (instance_attr env (fn_name c) = None ->
       is_dunder (fn_name c) = false ->
       dlsym env handle (fn_name c) = true ->
       fst (decorator env c pyfunc st) = Return (w handle))) /\
  str_contains (fn_name c) (fn_not_found_msg (fn_name c)) = true.
Proof.
  intros Hfresh Hex lib_path w.
  assert (Hd : decorator env c pyfunc st = finish env c pyfunc lib_path st).
  { rewrite (decorator_after_ensure env c pyfunc st st (ensure_tempdir_present _ _ _ Hex)).
    apply probe_outcome_fresh in Hfresh. now rewrite Hfresh. }
  rewrite Hd, finish_cases. simpl. split; [reflexivity|]. split; [|split].
  - now intros ->.
  - intros h ->. split; [|split; [|split]].
    + now intros ->.
    + now intros ->.
    + intros -> [-> | Hs]; [reflexivity|]. rewrite Hs. now rewrite andb_false_r.
    + intros -> -> ->. reflexivity.
  - apply fn_not_found_msg_names_fn.
Qed.

Lemma reuse_binds_without_writing_witness :
  let warm := snd (decorator Sample.linux (Sample.demo Sample.add_src) Sample.add_py
                     Sample.cold) in
  let request fn := request_closure Sample.add_src fn [c_int; c_int] c_int (Some "demo") None in
  let lib := "/tmp/rustjit_demo/target/release/libdemo.so" in
  fst (decorator Sample.linux (request "mul_i32") (PyFunction "mul_i32" None) warm) =
    Throw (Exn (RuntimeError (fn_not_found_msg "mul_i32"))) /\
  st_fs (snd (decorator Sample.linux (request "mul_i32") (PyFunction "mul_i32" None) warm)) =
    st_fs warm /\
  fst (decorator Sample.linux (request "_handle") Sample.add_py warm) =
    Throw (AttributeError "argtypes") /\
  fst (decorator Sample.linux (request "__class__") Sample.add_py warm) =
    Return (Bound "add_i32" None lib "__class__" 1 [c_int; c_int] c_int) /\
  fst (decorator Sample.linux (request "__version__") Sample.add_py warm) =
    Throw (Exn (RuntimeError (fn_not_found_msg "__version__"))) /\
  fst (decorator Sample.linux (request "add_i32") Sample.add_py warm) =
    Return (Bound "add_i32" None lib "add_i32" 1 [c_int; c_int] c_int).
Proof.
  intros warm request lib.
  assert (Hfresh : forall fn, fresh Sample.linux (request fn) (st_fs warm)).
  { intros fn. split; vm_compute; reflexivity. }
  assert (Hdir : forall fn, path_exists (st_fs warm) (tempdir Sample.linux (request fn)) = true).
  { intros fn. vm_compute. reflexivity. }
  destruct (reuse_binds_without_writing Sample.linux (request "mul_i32")
              (PyFunction "mul_i32" None) warm (Hfresh _) (Hdir _)) as (Hst & _ & Hmul & _).
  destruct (Hmul 1%nat eq_refl) as (_ & _ & Hmissing & _).
  destruct (reuse_binds_without_writing Sample.linux (request "_handle") Sample.add_py warm
              (Hfresh _) (Hdir _)) as (_ & _ & Hhandle & _).
  destruct (Hhandle 1%nat eq_refl) as (_ & Hunset & _).
  destruct (reuse_binds_without_writing Sample.linux (request "__class__") Sample.add_py warm
              (Hfresh _) (Hdir _)) as (_ & _ & Hclass & _).
  destruct (Hclass 1%nat eq_refl) as (Hset & _).
  destruct (reuse_binds_without_writing Sample.linux (request "__version__") Sample.add_py warm
              (Hfresh _) (Hdir _)) as (_ & _ & Hversion & _).
  destruct (Hversion 1%nat eq_refl) as (_ & _ & Hdunder & _).
  destruct (reuse_binds_without_writing Sample.linux (request "add_i32") Sample.add_py warm
              (Hfresh _) (Hdir _)) as (_ & _ & Hadd & _).
  destruct (Hadd 1%nat eq_refl) as (_ & _ & _ & Hfound).
  split; [|split; [|split; [|split; [|split]]]].
  - apply Hmissing; [reflexivity | right; reflexivity].
  - rewrite Hst. reflexivity.
  - apply Hunset. reflexivity.
  - rewrite Hset; reflexivity.
  - apply Hdunder; [reflexivity | left; reflexivity].
  - rewrite Hfound; reflexivity.
Defined.

(** Where the library path of a request that went through comes from. *)
Lemma decorator_returns_inv env c pyfunc st w st' :
  decorator env c pyfunc st = (Return w, st') ->
  exists lib_path st2,
    finish env c pyfunc lib_path st2 = (Return w, st') /\
    ((lib_path = fspath env (candidate env c) /\
      path_exists (st_fs st2) (candidate env c) = true) \/
     (exists q rest,
         rglob (scan_before env (st_fs st2)) (fnmatch env) (st_fs st2)
               (target_dir env c) (libname env c) = q :: rest /\
         lib_path = fspath env q /\
         path_exists (st_fs st2) (candidate env c) = false)).
Proof.
  intros H.
  destruct (ensure_tempdir env c st) as [[[]|s] st1] eqn:He;
    [|rewrite (decorator_ensure_fails _ _ _ _ _ _ He) in H; discriminate].
  rewrite (decorator_after_ensure _ _ _ _ _ He) in H.
  destruct (probe_outcome env c (st_fs st1)) as [[lib|]|s] eqn:Hp; [| |discriminate].
  - exists lib, st1. split; [exact H|]. left.
    pose proof (probe_outcome_reuse_path _ _ _ _ Hp) as ->.
    apply probe_outcome_fresh in Hp as [_ Hex]. auto.
  - unfold rebuild in H. rewrite bind_assoc in H. unfold bind at 1 in H.
    destruct (write_workspace env c st1) as [[[]|s] st2]; [|discriminate].
    rewrite bind_assoc in H. unfold bind at 1 in H.
    destruct (cargo_build env c st2) as [[[]|s] st3]; [|discriminate].
    unfold bind at 1 in H. rewrite find_artifact_spec in H.
    destruct (path_exists (st_fs st3) (candidate env c)) eqn:Hex.
    + exists (fspath env (candidate env c)), st3. auto.
    + destruct (rglob (scan_before env (st_fs st3)) (fnmatch env) (st_fs st3)
                      (target_dir env c) (libname env c))
        as [|q rest] eqn:Hrg; [discriminate|].
      exists (fspath env q), st3. split; [exact H|]. right. exists q, rest. auto.
Qed.

(** Whenever a request returns a bound function, that function carries the
    name and the documentation of the placeholder, the requested name and
    the declared signature; its library was loaded from [__source_lib__],
    which is the fixed release path, found on disk, or else the entry that
    the recursive scan of the release directory met first; the requested
    name is either an attribute of the library object itself that takes
    the assignment of line 106, in which case the library was not asked
    for it, or a name that does not start and end with two underscores
    and that the library exports; the load is the last thing logged; and
    a call with positional arguments only is the call of what the lookup
    gave, with the declared signature. *)
Theorem bound_function_postcondition (env : Env) (c : closure) (pyfunc : pyfunction)
    (st : state) (w : bound) (st' : state) :
  decorator env c pyfunc st = (Return w, st') ->
  w_name w = py_name pyfunc /\
  w_doc w = py_doc pyfunc /\
  w_rust_fn w = fn_name c /\
  w_argtypes w = argtypes c /\
  w_restype w = restype c /\
  dlopen env (st_fs st') (w_source_lib w) = Some (w_handle w) /\
  (instance_attr env (fn_name c) = Some true \/
   (instance_attr env (fn_name c) = None /\
    is_dunder (fn_name c) = false /\
    dlsym env (w_handle w) (fn_name c) = true)) /\
  ((w_source_lib w = fspath env (candidate env c) /\
    path_exists (st_fs st') (candidate env c) = true) \/
   (exists q rest,
       rglob (scan_before env (st_fs st')) (fnmatch env) (st_fs st')
             (target_dir env c) (libname env c) = q :: rest /\
       w_source_lib w = fspath env q /\
       path_exists (st_fs st') (candidate env c) = false)) /\
  (exists log, st_log st' = (log ++ [EvLoad (w_source_lib w)])%list) /\
  (forall args st2,
      wrapper env w args [] st2 =
        (match ccall env (w_handle w) (fn_name c) (argtypes c) (restype c) args with
         | Ok v => Return v
         | Raise e => Throw (Exn e)
         end,
         State (st_fs st2) (st_log st2 ++ [EvCall (w_source_lib w) (fn_name c) args]))).
Proof.
  intros H. apply decorator_returns_inv in H as (lib & st2 & Hf & Hlib).
  rewrite finish_cases in Hf.
  destruct (dlopen env (st_fs st2) lib) as [h|] eqn:Ho; [|discriminate].
  assert (Hattr : instance_attr env (fn_name c) = Some true \/
                  (instance_attr env (fn_name c) = None /\
                   is_dunder (fn_name c) = false /\ dlsym env h (fn_name c) = true)).
  { destruct (instance_attr env (fn_name c)) as [[|]|]; [auto|discriminate|].
    destruct (is_dunder (fn_name c)); [discriminate|].
    destruct (dlsym env h (fn_name c)); [auto|discriminate]. }
  assert (Hw : w = Bound (py_name pyfunc) (py_doc pyfunc) lib (fn_name c) h
                         (argtypes c) (restype c) /\
               st' = State (st_fs st2) (st_log st2 ++ [EvLoad lib])).
  { destruct (instance_attr env (fn_name c)) as [[|]|]; [now inversion Hf|discriminate|].
    destruct (negb (is_dunder (fn_name c)) && dlsym env h (fn_name c));
      [now inversion Hf|discriminate]. }
  destruct Hw as [-> ->]. clear Hf. simpl.
  repeat (split; [reflexivity || assumption|]).
  split; [eauto|].
  intros args st3. unfold wrapper, bind, emit, of_result. simpl.
  destruct (ccall env h (fn_name c) (argtypes c) (restype c) args); reflexivity.
Qed.

Lemma bound_function_postcondition_witness :
  let w := Bound "add_i32" None
             "/tmp/rustjit_rustjit_f36ae338fd1d/target/release/librustjit_f36ae338fd1d.so"
             "add_i32" 1 [c_int; c_int] c_int in
  dlopen TestPy.linux
    (st_fs (snd (decorator TestPy.linux TestPy.add_request TestPy.add_i32 Sample.cold)))
    (w_source_lib w) = Some 1%nat /\
  fst (wrapper TestPy.linux w [PyInt 10; PyInt 23] [] Sample.cold) = Return (PyInt 33).
Proof.
  intros w.
  assert (H : decorator TestPy.linux TestPy.add_request TestPy.add_i32 Sample.cold =
              (Return w, snd (decorator TestPy.linux TestPy.add_request TestPy.add_i32
                                Sample.cold))).
  { vm_compute. reflexivity. }
  apply bound_function_postcondition in H
    as (_ & _ & _ & _ & _ & Hload & _ & _ & _ & Hcall).
  split; [exact Hload|]. rewrite Hcall. reflexivity.
Defined.

(** ** A build that fails *)

Lemma decorator_reuse_finish env c pyfunc st :
  fresh env c (st_fs st) ->
  path_exists (st_fs st) (tempdir env c) = true ->
  decorator env c pyfunc st = finish env c pyfunc (fspath env (candidate env c)) st.
Proof.
  intros Hfresh Hex.
  rewrite (decorator_after_ensure env c pyfunc st st (ensure_tempdir_present _ _ _ Hex)).
  apply probe_outcome_fresh in Hfresh. now rewrite Hfresh.
Qed.

(** The source is cached before it is built (line 77 comes before line 81).
    Take a request whose source text is well-formed and holds no carriage
    return, on a sound workspace with a stale cache.  When its build fails
    and the failed toolchain leaves the source file as it was written and
    an older library at the fixed release path, the request fails with the
    compilation-failed error, and the cache is then fresh for the source
    that never built: the same request made again starts no toolchain and,
    when the workspace directory is still there, hands the older library
    to the loader. *)
Theorem failed_build_poisons_cache (env : Env) (c : closure) (pyfunc : pyfunction)
    (st : state) (rc : Z) (out err : string) (fs' : gmap (list string) node) :
  workspace_sound env c (st_fs st) = true ->
  stale env c (st_fs st) ->
  Utf8.valid (rust_src c) = true ->
  no_cr (rust_src c) = true ->
  spawn env build_cmd (tempdir env c) (written env c (st_fs st)) = Completed rc out err fs' ->
  rc <> 0%Z ->
  stat fs' (src_file env c) = stat (written env c (st_fs st)) (src_file env c) ->
  path_exists fs' (candidate env c) = true ->
  let st1 := snd (decorator env c pyfunc st) in
  fst (decorator env c pyfunc st) =
    Throw (Exn (RuntimeError (compile_failed_msg (captured out) (captured err)))) /\
  st_fs st1 = fs' /\
  cache_probe env c st1 = (Return (Some (fspath env (candidate env c))), st1) /\
  cargo_runs (snd (decorator env c pyfunc st1)) = cargo_runs st1 /\
  (path_exists fs' (tempdir env c) = true ->
   decorator env c pyfunc st1 = finish env c pyfunc (fspath env (candidate env c)) st1).
Proof.
  intros Hws Hstale Hv Hcr Hsp Hrc Hkeep Hex st1.
  assert (Hdec : decorator env c pyfunc st =
                 (Throw (Exn (RuntimeError (compile_failed_msg (captured out) (captured err)))),
                  State fs' ((st_log st ++ write_events env c (st_fs st)) ++
                             [run_event env c]))).
  { rewrite (decorator_rebuilds _ _ _ _ Hws Hstale). unfold build_and_bind.
    apply bind_Throw. now apply cargo_build_failed with (rc := rc). }
  assert (Hst1 : st_fs st1 = fs') by (unfold st1; now rewrite Hdec).
  assert (Hfresh : fresh env c (st_fs st1)).
  { rewrite Hst1. split; [|exact Hex].
    apply read_text_written with (plat := platform env); auto.
    rewrite Hkeep. apply written_src_file. }
  split; [now rewrite Hdec|]. split; [exact Hst1|]. split; [|split].
  - rewrite cache_probe_spec. apply probe_outcome_fresh in Hfresh. now rewrite Hfresh.
  - now apply decorator_reuses.
  - intros Ht. apply decorator_reuse_finish; [exact Hfresh|now rewrite Hst1].
Qed.

Lemma failed_build_poisons_cache_witness :
  let good := request_closure TestPy.add_src "add_i32" [c_int; c_int] c_int (Some "demo") None in
  let bad := request_closure Sample.sub_src "add_i32" [c_int; c_int] c_int (Some "demo") None in
  let built := snd (decorator TestPy.linux_picky good TestPy.add_i32 Sample.cold) in
  let failed := snd (decorator TestPy.linux_picky bad TestPy.add_i32 built) in
  fst (decorator TestPy.linux_picky bad TestPy.add_i32 built) =
    Throw (Exn (RuntimeError (compile_failed_msg "" "error: could not compile"))) /\
  fst (decorator TestPy.linux_picky bad TestPy.add_i32 failed) =
    Return (Bound "add_i32" None "/tmp/rustjit_demo/target/release/libdemo.so" "add_i32" 1
                  [c_int; c_int] c_int) /\
  cargo_runs (snd (decorator TestPy.linux_picky bad TestPy.add_i32 failed)) = cargo_runs failed.
Proof.
  intros good bad built failed.
  destruct (failed_build_poisons_cache TestPy.linux_picky bad TestPy.add_i32 built 101 ""
              "error: could not compile" (written TestPy.linux_picky bad (st_fs built)))
    as (Hfail & _ & _ & Hruns & Hbind).
  - vm_compute. reflexivity.
  - right. left. exists TestPy.add_src. split; [vm_compute; reflexivity|].
    vm_compute. discriminate.
  - vm_compute. reflexivity.
  - vm_compute. reflexivity.
  - vm_compute. reflexivity.
  - discriminate.
  - reflexivity.
  - vm_compute. reflexivity.
  - split; [exact Hfail|]. split; [|exact Hruns].
    fold failed in Hbind. rewrite (Hbind eq_refl). vm_compute. reflexivity.
Defined.

(** ** What a rebuild writes *)

Lemma written_frame env c fs q :
  ~ In q (workspace_paths env c) -> stat (written env c fs) q = stat fs q.
Proof.
  intros Hq. unfold written, workspace_paths in *. simpl in Hq.
  rewrite !stat_insert_ne; auto; intros <-; tauto.
Qed.

Lemma candidate_not_written env c : ~ In (candidate env c) (workspace_paths env c).
Proof.
  unfold workspace_paths. simpl.
  intros [H | [H | [H | [H | []]]]]; symmetry in H; revert H; path_neq.
Qed.

(** On a stale cache over a sound workspace, whatever part of the workspace
    was missing is made again: the build runs on a file system that holds
    the whole unit of the request, and apart from the workspace directory,
    its [src] directory, the manifest and the source file, every path is as
    it was; a library built earlier stays where it is. *)
Theorem rebuild_recreates_workspace (env : Env) (c : closure) (pyfunc : pyfunction)
    (st : state) :
  workspace_sound env c (st_fs st) = true ->
  stale env c (st_fs st) ->
  decorator env c pyfunc st =
    build_and_bind env c pyfunc
      (State (written env c (st_fs st)) (st_log st ++ write_events env c (st_fs st))) /\
  unit_on_disk env c (written env c (st_fs st)) /\
  (forall q, ~ In q (workspace_paths env c) ->
             stat (written env c (st_fs st)) q = stat (st_fs st) q) /\
  path_exists (written env c (st_fs st)) (candidate env c) =
    path_exists (st_fs st) (candidate env c).
Proof.
  intros Hws Hstale. split; [|split; [|split]].
  - now apply decorator_rebuilds.
  - apply unit_on_disk_written. now apply workspace_sound_inv in Hws as (H & _).
  - intros q. apply written_frame.
  - apply path_exists_stat, written_frame, candidate_not_written.
Qed.

Lemma rebuild_recreates_workspace_witness :
  let bare := State (<[ ["tmp"; "rustjit_demo"] := Dir ]> (st_fs Sample.cold)) [] in
  unit_on_disk Sample.linux (Sample.demo Sample.add_src)
    (written Sample.linux (Sample.demo Sample.add_src) (st_fs bare)).
Proof.
  intros bare.
  apply (rebuild_recreates_workspace Sample.linux (Sample.demo Sample.add_src) Sample.add_py
           bare).
  - vm_compute. reflexivity.
  - left. vm_compute. reflexivity.
Defined.

(** ** Crates and their workspaces *)


Lemma strictly_below_app (d r : list string) :
  r <> [] -> strictly_below d (d ++ r) = true.
Proof.
  intros Hr. induction d as [|a d IH]; simpl.
  - destruct r; [congruence | reflexivity].
  - now rewrite String.eqb_refl.
Qed.








Section Keeps.
Context {A B : Type} (Q : list string -> Prop).

Lemma keeps_ret (a : A) : keeps Q (ret a).
Proof. intros st q _. reflexivity. Qed.

Lemma keeps_throw (s : signal) : keeps Q (@throw A s).
Proof. intros st q _. reflexivity. Qed.

Lemma keeps_raise (e : exn) : keeps Q (@raise A e).
Proof. apply keeps_throw. Qed.




Lemma keeps_of_result (r : result A) : keeps Q (of_result r).
Proof. destruct r; [apply keeps_ret | apply keeps_raise]. Qed.
End Keeps.








Section Other.
Variables (env : Env) (c1 c2 : closure).
Hypothesis Hne : crate_name c1 <> crate_name c2.








End Other.

Lemma at_or_below_pjoin T a : at_or_below T (T // a).
Proof. right. unfold pjoin. now apply strictly_below_app. Qed.







(** With a separator in the name the join is another one: the crate names
    [demo] and [demo/] come to the same workspace directory, and [a/b] to
    a directory two levels down. *)
Example separator_in_crate_name :
  pathlib_join "linux" ["tmp"] "rustjit_demo/" = pathlib_join "linux" ["tmp"] "rustjit_demo" /\
  pathlib_join "linux" ["tmp"] "rustjit_a/b" = ["tmp"; "rustjit_a"; "b"] /\
  plain_name "linux" "demo/" = false.
Proof. repeat split. Qed.

(** The cache is keyed by the source text and the crate name alone.  On a
    cache that is fresh for them, a request starts no toolchain whatever
    symbol, signature, extra arguments and placeholder it names.  And when
    the source text is well-formed and holds no carriage return, [cargo] is
    on the search path, the first request finds a sound workspace with a
    stale cache, and its build succeeds, leaving the library at the fixed
    release path and the source file as it was written, then a second
    request for the same source and crate name that names another symbol,
    signature, extra arguments or placeholder starts no toolchain either:
    one run in all. *)
Theorem cache_key_is_source_and_crate (env : Env) (src : string) (cn : option string)
    (fn1 fn2 : string) (at1 at2 : list ctype) (rt1 rt2 : ctype)
    (extra1 extra2 : option (list string)) (py1 py2 : pyfunction) (st : state) :
  let c := request_closure src fn1 at1 rt1 cn extra1 in
  let first := jit env src fn1 at1 rt1 cn extra1 py1 in
  let second := jit env src fn2 at2 rt2 cn extra2 py2 in
  (fresh env c (st_fs st) -> cargo_runs (snd (second st)) = cargo_runs st) /\
  (forall w out err fs',
      which env "cargo" = Some w ->
      workspace_sound env c (st_fs st) = true ->
      stale env c (st_fs st) ->
      Utf8.valid src = true ->
      no_cr src = true ->
      spawn env build_cmd (tempdir env c) (written env c (st_fs st)) = Completed 0 out err fs' ->
      path_exists fs' (candidate env c) = true ->
      stat fs' (src_file env c) = stat (written env c (st_fs st)) (src_file env c) ->
      cargo_runs (snd (second (snd (first st)))) = S (cargo_runs st)).
Proof.
  intros c first second. subst c first second. split.
  - intros Hfresh. apply jit_reuses. exact Hfresh.
  - intros w out err fs' Hw Hws Hstale Hv Hcr Hsp Hex Hkeep.
    destruct (decorator_rebuild_state env (request_closure src fn1 at1 rt1 cn extra1) py1
                (State (st_fs st) (st_log st ++ [EvWhich "cargo"])) out err fs')
      as [Hst Hfresh]; auto.
    assert (Hfirst : snd (jit env src fn1 at1 rt1 cn extra1 py1 st) =
                     State fs' (((st_log st ++ [EvWhich "cargo"]) ++
                                 write_events env (request_closure src fn1 at1 rt1 cn extra1)
                                   (st_fs st)) ++
                                [run_event env (request_closure src fn1 at1 rt1 cn extra1);
                                 EvLoad (fspath env
                                   (candidate env (request_closure src fn1 at1 rt1 cn extra1)))])).
    { unfold jit. erewrite bind_Return by (eapply rust_jit_present; eauto). exact Hst. }
    rewrite jit_reuses.
    + rewrite Hfirst. unfold cargo_runs. simpl.
      rewrite !count_events_app, count_run_write_events. simpl. lia.
    + rewrite Hfirst. exact Hfresh.
Qed.

Lemma cache_key_is_source_and_crate_witness :
  cargo_runs
    (snd (jit Sample.linux Sample.add_src "mul_i32" [c_double] c_double (Some "demo") None
              (PyFunction "mul" None)
              (snd (Sample.request Sample.linux Sample.add_src Sample.cold)))) =
    S (cargo_runs Sample.cold).
Proof.
  refine (proj2 (cache_key_is_source_and_crate Sample.linux Sample.add_src (Some "demo")
                   "add_i32" "mul_i32" [c_int; c_int] [c_double] c_int c_double None None
                   Sample.add_py (PyFunction "mul" None) Sample.cold)
            ["usr"; "bin"; "cargo"] "" "   Compiling demo v0.1.0"
            (<[ ["tmp"; "rustjit_demo"; "target"; "release"; "libdemo.so"] := File "ELF" ]>
               (Sample.with_release ["tmp"; "rustjit_demo"]
                  (written Sample.linux (Sample.demo Sample.add_src) (st_fs Sample.cold))))
            _ _ _ _ _ _ _ _).
  - reflexivity.
  - vm_compute. reflexivity.
  - left. vm_compute. reflexivity.
  - vm_compute. reflexivity.
  - vm_compute. reflexivity.
  - reflexivity.
  - vm_compute. reflexivity.
  - vm_compute. reflexivity.
Defined.

(** ** Names *)

Lemma hash_src_wellformed src :
  String.length (_hash_src src) = 12%nat /\ str_all is_hex_digit (_hash_src src) = true.
Proof.
  unfold _hash_src. split.
  - apply str_take_length. rewrite hexdigest_length. lia.
  - apply str_all_take, hexdigest_all_hex.
Qed.

Lemma hex_digit_is_name_char c : is_hex_digit c = true -> is_name_char c = true.
Proof.
  unfold is_hex_digit, is_name_char. intros H.
  apply orb_true_iff in H as [H | H]; apply andb_true_iff in H as [H1 H2];
    apply N.leb_le in H1, H2.
  - apply orb_true_iff. left. apply orb_true_iff. right.
    apply andb_true_iff. split; apply N.leb_le; lia.
  - apply orb_true_iff. left. apply orb_true_iff. left.
    apply andb_true_iff. split; apply N.leb_le; lia.
Qed.

(** Without a crate name (none, or the empty string) the crate is named
    [rustjit_] followed by the fingerprint: twenty characters, each a
    lower-case letter, a digit or an underscore, whatever the source; its
    workspace directory is [rustjit_rustjit_<fingerprint>] in the temporary
    directory. *)
Theorem default_crate_name_wellformed (env : Env) (src fn : string) (at_ : list ctype)
    (rt : ctype) (extra : option (list string)) :
  let c := request_closure src fn at_ rt None extra in
  request_closure src fn at_ rt (Some "") extra = c /\
  crate_name c = "rustjit_" +:+ _hash_src src /\
  String.length (crate_name c) = 20%nat /\
  str_all is_name_char (crate_name c) = true /\
  basename (tempdir env c) = "rustjit_rustjit_" +:+ _hash_src src /\
  parent (tempdir env c) = tmpdir env.
Proof.
  intros c. subst c.
  destruct (hash_src_wellformed src) as [Hlen Hhex].
  unfold request_closure, basename, tempdir.
  remember (_hash_src src) as h eqn:Eh. clear Eh.
  cbn [crate_name crate_name_or_default].
  split; [reflexivity|]. split; [reflexivity|]. split; [|split; [|split]].
  - rewrite append_length, Hlen. reflexivity.
  - rewrite str_all_app. apply andb_true_iff. split; [reflexivity|].
    eapply str_all_impl; [apply hex_digit_is_name_char | exact Hhex].
  - unfold pjoin. rewrite last_last. reflexivity.
  - apply parent_pjoin.
Qed.

(** On every platform the library name determines the crate name: two
    crates have the same library file name only when they are the same
    crate. *)
Theorem platform_libname_injective (plat a b : string) :
  _platform_libname plat a = _platform_libname plat b <-> a = b.
Proof.
  split; [|now intros ->].
  unfold _platform_libname.
  destruct (startswith "linux" plat); [|destruct (String.eqb plat "darwin");
    [|destruct (String.eqb plat "win32")]]; intros H.
  - apply append_inv_head in H. now apply append_inv_tail in H.
  - apply append_inv_head in H. now apply append_inv_tail in H.
  - now apply append_inv_tail in H.
  - apply append_inv_head in H. now apply append_inv_tail in H.
Qed.

(** ** An obstructed workspace *)



(** ** What a request does to the outside *)

(** In a process that has its temporary directory, so that
    [tempfile.gettempdir()] on line 43 only hands it back, what one request
    does to the outside is, in every environment and from every state: one
    search for [cargo]; then nothing but making the workspace directory
    and its [src] directory, writing the manifest of the crate to
    [Cargo.toml] and the source text to [src/lib.rs], running
    [cargo build --release] in the workspace directory, and loading a
    library. *)
Theorem request_actions_confined (env : Env) (src fn : string) (at_ : list ctype)
    (rt : ctype) (cn : option string) (extra : option (list string))
    (pyfunc : pyfunction) (st : state) :
  let c := request_closure src fn at_ rt cn extra in
  exists l,
    st_log (snd (jit env src fn at_ rt cn extra pyfunc st)) =
      (st_log st ++ EvWhich "cargo" :: l)%list /\
    Forall (fun e =>
              match e with
              | EvMkdir p => p = tempdir env c \/ p = tempdir env c // "src"
              | EvWrite p text =>
                  (p = cargo_toml env c /\ text = manifest (crate_name c)) \/
                  (p = src_file env c /\ text = src)
              | EvRun cmd cwd => cmd = ["cargo"; "build"; "--release"] /\ cwd = tempdir env c
              | EvLoad _ => True
              | EvWhich _ | EvCall _ _ _ => False
              end) l.
Proof.
  intros c. destruct (jit_log env src fn at_ rt cn extra pyfunc st) as (l & E & F).
  exists l. split; [exact E|].
  eapply Forall_impl; [exact F|]. intros [] H; exact H.
Qed.

(** ** The outside, sampled *)

(** Below a file nothing can be made, read or written, and the error is the
    one for a way through a file, at whatever depth the file sits; where
    the way merely stops the error is the one for a missing path. *)
Example below_a_file :
  let fs := <[ ["tmp"; "f"] := File "x" ]> (st_fs Sample.cold) in
  os_mkdir fs ["tmp"; "f"; "a"] = Raise (NotADirectoryError ["tmp"; "f"; "a"]) /\
  os_mkdir fs ["tmp"; "f"; "a"; "b"] = Raise (NotADirectoryError ["tmp"; "f"; "a"; "b"]) /\
  mkdir_parents fs ["tmp"; "f"; "a"; "b"] = Raise (NotADirectoryError ["tmp"; "f"; "a"; "b"]) /\
  read_text fs ["tmp"; "f"; "a"; "b"] = Raise (NotADirectoryError ["tmp"; "f"; "a"; "b"]) /\
  write_text "linux" fs ["tmp"; "f"; "a"; "b"] "x" =
    Raise (NotADirectoryError ["tmp"; "f"; "a"; "b"]) /\
  os_mkdir fs ["tmp"; "g"; "a"] = Raise (FileNotFoundError ["tmp"; "g"; "a"]) /\
  read_text fs ["tmp"; "g"; "a"] = Raise (FileNotFoundError ["tmp"; "g"; "a"]).
Proof. repeat split; vm_compute; reflexivity. Qed.

(** The recursive scan of the samples meets the entries of a directory
    before those of its subdirectories. *)
Example rglob_shallower_first :
  let fs : gmap (list string) node :=
    <[ ["r"; "deps"; "z"; "libdemo.so"] := File "ELF-z" ]>
      (<[ ["r"; "deps"; "z"] := Dir ]>
         (<[ ["r"; "deps"; "libdemo.so"] := File "ELF" ]>
            (<[ ["r"; "deps"] := Dir ]> (<[ ["r"] := Dir ]> ∅)))) in
  rglob (Sample.walk_order fs) String.eqb fs ["r"] "libdemo.so" =
    [["r"; "deps"; "libdemo.so"]; ["r"; "deps"; "z"; "libdemo.so"]].
Proof. vm_compute. reflexivity. Qed.

(** The native addition of the samples wraps around at 32 bits. *)
Example add_native_wraps :
  Sample.add_native 1 "add_i32" [c_int; c_int] c_int [PyInt 2147483647; PyInt 1] =
    Ok (PyInt (-2147483648)) /\
  Sample.add_native 1 "add_i32" [c_int; c_int] c_int [PyInt 10; PyInt 23] = Ok (PyInt 33).
Proof. split; reflexivity. Qed.
